(** * netkit-packet: field accessors, layer views, builders and DNS names

    A shallow embedding of the `netkit-packet` crate:
    - [utils/field.rs]: the [Underlay] storage types (u8/u16/u32/u64 and
      the byte arrays [u8; 3], [u8; 5], [u8; 6], [u8; 7]) and [Field::get],
      [Field::set];
    - [layer/eth.rs], [layer/ip/v4.rs], [layer/tcp.rs], [layer/udp.rs]:
      validation, options/payload slicing, next-layer dispatch, builders;
    - [layer/dns/name.rs], [layer/dns/question.rs]: names, labels and
      questions.

    Buffers are [list byte].  Slicing a buffer ([&data[a..b]]) returns
    [None] where Rust panics.  Integers stored in a [Field] are read as the
    native value of a little-endian host (the host the crate's own tests
    assume: [Field::<_, true>::set(0x0F)] leaves [into_inner() == 0x000F]). *)

From Stdlib Require Import String Ascii ZArith Lia List Bool.
From Stdlib Require Import Strings.Byte.
From coqutil Require Import Byte Word.LittleEndianList Z.bitblast.
Import ListNotations.

Local Open Scope Z_scope.

(* ------------------------------------------------------------------ *)
(** ** Underlay storage types ([impl_underlay!]) *)

(** [u64::MAX] *)
Definition u64_max : Z := 2 ^ 64 - 1.

(** [!x] on a [u64]. *)
Definition u64_not (x : Z) : Z := Z.lxor x u64_max.

(** The underlay types of [impl_underlay!(u8, u16, u32, u64)] (an
    integer of [w] bytes) and [impl_underlay!(3, 5, 6, 7)] (a byte array
    of [l] bytes). *)
Inductive underlay_kind : Type :=
| UInt (w : nat)
| UArr (l : nat).

(** The storage of each underlay: an unsigned integer (its native value)
    or a byte array. *)
Definition carrier (k : underlay_kind) : Type :=
  match k with UInt _ => Z | UArr _ => list byte end.

(** The storage size in bytes. *)
Definition width (k : underlay_kind) : nat :=
  match k with UInt w => w | UArr l => l end.

(** The underlay types the crate implements [Underlay] for. *)
Definition supported (k : underlay_kind) : bool :=
  match k with
  | UInt w => existsb (Nat.eqb w) [1; 2; 4; 8]%nat
  | UArr l => existsb (Nat.eqb l) [3; 5; 6; 7]%nat
  end.

(** *** Integers: [Self::from_be], [self << shift], [self & mask as Self], ... *)
Module UInt.
(** [u_w::swap_bytes]; [from_be]/[to_be] on a little-endian host. *)
Definition swap_bytes (w : nat) (x : Z) : Z := le_combine (rev (le_split w x)).
Definition from_be (w : nat) (x : Z) : Z := swap_bytes w x.
Definition from_le (w : nat) (x : Z) : Z := x.
Definition to_be (w : nat) (x : Z) : Z := swap_bytes w x.
Definition to_le (w : nat) (x : Z) : Z := x.
(** [self << shift]: the bits shifted past the width are lost. *)
Definition shl (w : nat) (x s : Z) : Z := Z.shiftl x s mod 2 ^ (Z.of_nat w * 8).
Definition shr (w : nat) (x s : Z) : Z := Z.shiftr x s.
(** [self & mask as Self]: [as] keeps the low [w] bytes of the mask. *)
Definition mask (w : nat) (x m : Z) : Z := Z.land x (m mod 2 ^ (Z.of_nat w * 8)).
Definition bitand (w : nat) (x y : Z) : Z := Z.land x y.
Definition bitor (w : nat) (x y : Z) : Z := Z.lor x y.
End UInt.

(** *** Byte arrays [[u8; l]] *)
Module UArr.
Definition byte_or (a b : byte) : byte :=
  byte.of_Z (Z.lor (byte.unsigned a) (byte.unsigned b)).

(** [u64::from_be_bytes] and [u64::to_be_bytes]. *)
Definition u64_from_be_bytes (bs : list byte) : Z := le_combine (rev bs).
Definition u64_to_be_bytes (x : Z) : list byte := rev (le_split 8 x).

(** [ret[i] = f(self[i], rhs[i])] for [i in 0..l]. *)
Definition zip_bytes (f : byte -> byte -> byte) (xs ys : list byte) : list byte :=
  map (fun p => f (fst p) (snd p)) (combine xs ys).

Definition from_be (l : nat) (x : list byte) : list byte := x.
Definition from_le (l : nat) (x : list byte) : list byte := rev x.
Definition to_be (l : nat) (x : list byte) : list byte := x.
Definition to_le (l : nat) (x : list byte) : list byte := rev x.

(** [tmp[8-l..8] = self]; [u64::from_be_bytes(tmp) << shift];
    the last [l] bytes of [to_be_bytes]. *)
Definition shl (l : nat) (x : list byte) (s : Z) : list byte :=
  let tmp := repeat Byte.x00 (8 - l) ++ x in
  let t := Z.shiftl (u64_from_be_bytes tmp) s mod 2 ^ 64 in
  skipn (8 - l) (u64_to_be_bytes t).
Definition shr (l : nat) (x : list byte) (s : Z) : list byte :=
  let tmp := repeat Byte.x00 (8 - l) ++ x in
  let t := Z.shiftr (u64_from_be_bytes tmp) s in
  skipn (8 - l) (u64_to_be_bytes t).
(** [ret[i] = self[i] & mask.to_be_bytes()[8 - l + i]] *)
Definition mask (l : nat) (x : list byte) (m : Z) : list byte :=
  zip_bytes byte.and x (skipn (8 - l) (u64_to_be_bytes m)).
Definition bitand (l : nat) (x y : list byte) : list byte := zip_bytes byte.and x y.
Definition bitor (l : nat) (x y : list byte) : list byte := zip_bytes byte_or x y.
End UArr.

(** *** The [Underlay] trait, dispatched on the storage type *)
Definition u_from_be (k : underlay_kind) : carrier k -> carrier k :=
  match k return carrier k -> carrier k with
  | UInt w => UInt.from_be w | UArr l => UArr.from_be l end.
Definition u_from_le (k : underlay_kind) : carrier k -> carrier k :=
  match k return carrier k -> carrier k with
  | UInt w => UInt.from_le w | UArr l => UArr.from_le l end.
Definition u_to_be (k : underlay_kind) : carrier k -> carrier k :=
  match k return carrier k -> carrier k with
  | UInt w => UInt.to_be w | UArr l => UArr.to_be l end.
Definition u_to_le (k : underlay_kind) : carrier k -> carrier k :=
  match k return carrier k -> carrier k with
  | UInt w => UInt.to_le w | UArr l => UArr.to_le l end.
Definition u_shl (k : underlay_kind) : carrier k -> Z -> carrier k :=
  match k return carrier k -> Z -> carrier k with
  | UInt w => UInt.shl w | UArr l => UArr.shl l end.
Definition u_shr (k : underlay_kind) : carrier k -> Z -> carrier k :=
  match k return carrier k -> Z -> carrier k with
  | UInt w => UInt.shr w | UArr l => UArr.shr l end.
Definition u_mask (k : underlay_kind) : carrier k -> Z -> carrier k :=
  match k return carrier k -> Z -> carrier k with
  | UInt w => UInt.mask w | UArr l => UArr.mask l end.
Definition u_bitor (k : underlay_kind) : carrier k -> carrier k -> carrier k :=
  match k return carrier k -> carrier k -> carrier k with
  | UInt w => UInt.bitor w | UArr l => UArr.bitor l end.

(* ------------------------------------------------------------------ *)
(** ** [FieldSpec], [Target] and [Field] *)

(** [trait FieldSpec { type U; const MASK: u64 = u64::MAX; const SHIFT: u8 = 0; }] *)
Record field_spec : Type := FieldSpec {
  fs_kind : underlay_kind;
  fs_mask : Z;
  fs_shift : Z
}.

(** [trait Target<U> { fn from_underlay(x: U) -> Self; fn into_underlay(self) -> U; }] *)
Record target (k : underlay_kind) (T : Type) : Type := Target {
  from_underlay : carrier k -> T;
  into_underlay : T -> carrier k
}.
Arguments Target {k T}.
Arguments from_underlay {k T}.
Arguments into_underlay {k T}.

Definition fast_path (F : field_spec) : bool :=
  (fs_mask F =? u64_max) && (fs_shift F =? 0).

(** [Field::raw] *)
Definition raw (F : field_spec) (msb : bool) (v : carrier (fs_kind F)) : carrier (fs_kind F) :=
  let value := if msb then u_from_be _ v else u_from_le _ v in
  if fast_path F then value
  else if fs_shift F =? 0 then u_mask _ value (fs_mask F)
  else u_shr _ (u_mask _ value (fs_mask F)) (fs_shift F).

(** [Field::get] *)
Definition get {T} (F : field_spec) (msb : bool) (tg : target (fs_kind F) T)
  (v : carrier (fs_kind F)) : T :=
  from_underlay tg (raw F msb v).

(** [Field::set]: the new value of the field's storage. *)
Definition set {T} (F : field_spec) (msb : bool) (tg : target (fs_kind F) T)
  (v : carrier (fs_kind F)) (value : T) : carrier (fs_kind F) :=
  let prev_value := if msb then u_from_be _ v else u_from_le _ v in
  let new_value :=
    if fast_path F then into_underlay tg value
    else if fs_shift F =? 0 then
      u_bitor _ (u_mask _ prev_value (u64_not (fs_mask F))) (into_underlay tg value)
    else
      u_bitor _ (u_mask _ prev_value (u64_not (fs_mask F)))
        (u_shl _ (into_underlay tg value) (fs_shift F)) in
  if msb then u_to_be _ new_value else u_to_le _ new_value.

(** [impl_target!(frominto, uN, uN)]: the identity. *)
Definition same_target (k : underlay_kind) : target k (carrier k) :=
  Target (fun x => x) (fun x => x).

(* ------------------------------------------------------------------ *)
(** ** Numeric reading of the storage *)

(** The number an underlay value stands for: an integer is its own
    value; a byte array is read big-endian, as [shl] and [shr] do through
    [u64::from_be_bytes]. *)
Definition bits (k : underlay_kind) : carrier k -> Z :=
  match k return carrier k -> Z with
  | UInt _ => fun x => x
  | UArr _ => fun x => le_combine (rev x)
  end.

(** A value of the underlay type: an integer below [2^(8w)], an array of
    exactly [l] bytes. *)
Definition wf (k : underlay_kind) : carrier k -> Prop :=
  match k return carrier k -> Prop with
  | UInt w => fun x => 0 <= x < 2 ^ (Z.of_nat w * 8)
  | UArr l => fun x => length x = l
  end.

Lemma testbit_hi x k i : 0 <= x < 2 ^ k -> k <= i -> Z.testbit x i = false.
Proof.
  intros [Hx Hk] Hi. destruct (Z.eq_dec x 0) as [->|Hn]; [apply Z.bits_0|].
  apply Z.bits_above_log2; [lia|]. apply Z.log2_lt_pow2 in Hk; lia.
Qed.

Lemma land_mod_pow2 x m k :
  0 <= k -> 0 <= x < 2 ^ k -> Z.land x (m mod 2 ^ k) = Z.land x m.
Proof.
  intros. rewrite <- Z.land_ones by lia. Z.bitblast.
  rewrite (testbit_hi x k i) by lia. reflexivity.
Qed.

Lemma pow2_le a b : 0 <= a <= b -> 2 ^ a <= 2 ^ b.
Proof. intros. apply Z.pow_le_mono_r; lia. Qed.

Lemma pow2_pos a : 0 <= a -> 0 < 2 ^ a.
Proof. intros. apply Z.pow_pos_nonneg; lia. Qed.

Lemma bits_range k x : wf k x -> 0 <= bits k x < 2 ^ (Z.of_nat (width k) * 8).
Proof.
  destruct k as [w|l]; simpl; intros H; [exact H|].
  pose proof (le_combine_bound (rev x)) as B.
  rewrite length_rev, H in B. rewrite Z.mul_comm. exact B.
Qed.

(** *** Integers *)

Lemma swap_bytes_range w x : 0 <= UInt.swap_bytes w x < 2 ^ (Z.of_nat w * 8).
Proof.
  unfold UInt.swap_bytes. pose proof (le_combine_bound (rev (le_split w x))) as B.
  rewrite length_rev, length_le_split in B. rewrite Z.mul_comm. exact B.
Qed.

Lemma swap_bytes_involutive w x :
  0 <= x < 2 ^ (Z.of_nat w * 8) -> UInt.swap_bytes w (UInt.swap_bytes w x) = x.
Proof.
  intros H. unfold UInt.swap_bytes.
  rewrite split_le_combine' by (rewrite length_rev, length_le_split; reflexivity).
  rewrite rev_involutive, le_combine_split. apply Z.mod_small; exact H.
Qed.

(** *** Byte arrays *)

Lemma unsigned_and a b :
  byte.unsigned (byte.and a b) = Z.land (byte.unsigned a) (byte.unsigned b).
Proof.
  unfold byte.and. rewrite byte.unsigned_of_Z. unfold byte.wrap.
  pose proof (byte.unsigned_range a). pose proof (byte.unsigned_range b).
  rewrite <- Z.land_ones by lia. Z.bitblast.
  rewrite (testbit_hi (byte.unsigned a) 8 i) by lia. reflexivity.
Qed.

Lemma unsigned_or a b :
  byte.unsigned (UArr.byte_or a b) = Z.lor (byte.unsigned a) (byte.unsigned b).
Proof.
  unfold UArr.byte_or. rewrite byte.unsigned_of_Z. unfold byte.wrap.
  pose proof (byte.unsigned_range a). pose proof (byte.unsigned_range b).
  rewrite <- Z.land_ones by lia. Z.bitblast.
  rewrite (testbit_hi (byte.unsigned a) 8 i), (testbit_hi (byte.unsigned b) 8 i) by lia.
  reflexivity.
Qed.

Ltac split_low_byte i :=
  subst; destruct (Z.ltb_spec i 8);
  [ rewrite ?(Z.testbit_neg_r _ (i - 8)) by lia
  | repeat match goal with
           | H : 0 <= ?a < 2 ^ 8 |- context [Z.testbit ?a i] =>
               rewrite (testbit_hi a 8 i) by lia
           end ];
  simpl; rewrite ?orb_false_r, ?andb_false_r; try reflexivity.

Lemma le_combine_zip_and xs ys :
  length xs = length ys ->
  le_combine (UArr.zip_bytes byte.and xs ys) = Z.land (le_combine xs) (le_combine ys).
Proof.
  revert ys; induction xs as [|a xs IH]; intros [|b ys] Hl; try discriminate; [reflexivity|].
  simpl in Hl. injection Hl as Hl.
  change (UArr.zip_bytes byte.and (a :: xs) (b :: ys))
    with (byte.and a b :: UArr.zip_bytes byte.and xs ys).
  cbv [le_combine]; fold le_combine. rewrite IH, unsigned_and by exact Hl.
  pose proof (byte.unsigned_range a). pose proof (byte.unsigned_range b).
  Z.bitblast; split_low_byte i.
Qed.

Lemma le_combine_zip_or xs ys :
  length xs = length ys ->
  le_combine (UArr.zip_bytes UArr.byte_or xs ys) = Z.lor (le_combine xs) (le_combine ys).
Proof.
  revert ys; induction xs as [|a xs IH]; intros [|b ys] Hl; try discriminate; [reflexivity|].
  simpl in Hl. injection Hl as Hl.
  change (UArr.zip_bytes UArr.byte_or (a :: xs) (b :: ys))
    with (UArr.byte_or a b :: UArr.zip_bytes UArr.byte_or xs ys).
  cbv [le_combine]; fold le_combine. rewrite IH, unsigned_or by exact Hl.
  pose proof (byte.unsigned_range a). pose proof (byte.unsigned_range b).
  Z.bitblast; split_low_byte i.
Qed.

Lemma length_zip_bytes f xs ys :
  length (UArr.zip_bytes f xs ys) = Nat.min (length xs) (length ys).
Proof. unfold UArr.zip_bytes. rewrite length_map, length_combine. reflexivity. Qed.

Lemma zip_bytes_rev f xs ys :
  length xs = length ys ->
  rev (UArr.zip_bytes f xs ys) = UArr.zip_bytes f (rev xs) (rev ys).
Proof.
  assert (E : forall (u : list byte) (v : list byte) p q, length u = length v ->
             combine (u ++ [p]) (v ++ [q]) = combine u v ++ [(p, q)]).
  { induction u as [|c u IHu]; intros [|d v] p q Hu; try discriminate; [reflexivity|].
    simpl. rewrite IHu by (simpl in Hu; lia). reflexivity. }
  revert ys; induction xs as [|a xs IH]; intros [|b ys] Hl; try discriminate; [reflexivity|].
  simpl in Hl. injection Hl as Hl. unfold UArr.zip_bytes in *. simpl.
  rewrite IH by exact Hl. rewrite E by (rewrite !length_rev; exact Hl).
  rewrite map_app. reflexivity.
Qed.

Lemma pow2_divide a b : 0 <= a <= b -> (2 ^ a | 2 ^ b).
Proof.
  intros H. exists (2 ^ (b - a)). rewrite <- Z.pow_add_r by lia. f_equal. lia.
Qed.

Lemma bound_by_bits x k :
  0 <= x -> 0 <= k -> (forall i, k <= i -> Z.testbit x i = false) -> x < 2 ^ k.
Proof.
  intros Hx Hk Hb. assert (E : Z.land x (Z.ones k) = x).
  { Z.bitblast. rewrite Hb by lia. reflexivity. }
  rewrite Z.land_ones in E by lia. rewrite <- E. apply Z.mod_pos_bound, pow2_pos; lia.
Qed.

Lemma shiftr_range x s k : 0 <= s -> 0 <= x < 2 ^ k -> 0 <= Z.shiftr x s < 2 ^ k.
Proof.
  intros Hs Hx. rewrite Z.shiftr_div_pow2 by lia. pose proof (pow2_pos s Hs). split.
  - apply Z.div_pos; lia.
  - assert (x / 2 ^ s <= x) by (apply Z.div_le_upper_bound; nia). lia.
Qed.

Lemma arr_skip_be l t :
  (l <= 8)%nat ->
  le_combine (rev (skipn (8 - l) (UArr.u64_to_be_bytes t))) = t mod 2 ^ (Z.of_nat l * 8).
Proof.
  intros Hl. unfold UArr.u64_to_be_bytes.
  rewrite skipn_rev, length_le_split, rev_involutive.
  replace (8 - (8 - l))%nat with l by lia.
  rewrite le_combine_firstn, le_combine_split.
  rewrite Z.mod_mod_divide by (apply pow2_divide; lia). f_equal. f_equal. lia.
Qed.

Lemma length_skip_be l t :
  (l <= 8)%nat -> length (skipn (8 - l) (UArr.u64_to_be_bytes t)) = l.
Proof.
  intros. unfold UArr.u64_to_be_bytes. rewrite length_skipn, length_rev, length_le_split. lia.
Qed.

Lemma arr_from_be_bytes_pad l x :
  UArr.u64_from_be_bytes (repeat Byte.x00 (8 - l) ++ x) = le_combine (rev x).
Proof.
  unfold UArr.u64_from_be_bytes. rewrite rev_app_distr, rev_repeat. apply le_combine_app_0.
Qed.

(** *** The [Underlay] operations, read as numbers *)

Section UnderlayLaws.
Variable k : underlay_kind.
Hypothesis Hwidth : (width k <= 8)%nat.

Lemma wf_from_be x : wf k x -> wf k (u_from_be k x).
Proof.
  destruct k; simpl; intros H; [apply swap_bytes_range | exact H].
Qed.

Lemma wf_from_le x : wf k x -> wf k (u_from_le k x).
Proof.
  destruct k; simpl; intros H; [exact H | unfold UArr.from_le; rewrite length_rev; exact H].
Qed.

Lemma from_be_to_be x : wf k x -> u_from_be k (u_to_be k x) = x.
Proof.
  destruct k; simpl; intros H; [apply swap_bytes_involutive; exact H | reflexivity].
Qed.

Lemma from_le_to_le x : wf k x -> u_from_le k (u_to_le k x) = x.
Proof.
  destruct k; simpl; intros H; [reflexivity | apply rev_involutive].
Qed.

Lemma bits_inj x y : wf k x -> wf k y -> bits k x = bits k y -> x = y.
Proof.
  destruct k; simpl; intros Hx Hy E; [exact E|].
  rewrite <- (rev_involutive x), <- (rev_involutive y). f_equal.
  apply le_combine_inj; [rewrite !length_rev; congruence | exact E].
Qed.

Lemma wf_shl x s : wf k x -> wf k (u_shl k x s).
Proof.
  destruct k as [w|l]; simpl in *; intros H.
  - unfold UInt.shl. apply Z.mod_pos_bound, pow2_pos. lia.
  - unfold UArr.shl. apply length_skip_be. exact Hwidth.
Qed.

Lemma bits_shl x s :
  wf k x -> 0 <= s ->
  bits k (u_shl k x s) = Z.shiftl (bits k x) s mod 2 ^ (Z.of_nat (width k) * 8).
Proof.
  destruct k as [w|l]; simpl in *; intros H Hs; [reflexivity|].
  unfold UArr.shl. rewrite arr_skip_be, arr_from_be_bytes_pad by exact Hwidth.
  unfold UArr.u64_from_be_bytes.
  rewrite Z.mod_mod_divide by (apply pow2_divide; lia). reflexivity.
Qed.

Lemma wf_shr x s : wf k x -> 0 <= s -> wf k (u_shr k x s).
Proof.
  destruct k as [w|l]; simpl in *; intros H Hs.
  - unfold UInt.shr. apply shiftr_range; assumption.
  - unfold UArr.shr. apply length_skip_be. exact Hwidth.
Qed.

Lemma bits_shr x s : wf k x -> 0 <= s -> bits k (u_shr k x s) = Z.shiftr (bits k x) s.
Proof.
  intros H Hs. pose proof (bits_range k x H) as R.
  destruct k as [w|l]; simpl in *; [reflexivity|].
  unfold UArr.shr. rewrite arr_skip_be, arr_from_be_bytes_pad by exact Hwidth.
  apply Z.mod_small. apply shiftr_range; assumption.
Qed.

Lemma wf_mask x m : wf k x -> wf k (u_mask k x m).
Proof.
  destruct k as [w|l]; simpl in *; intros H.
  - unfold UInt.mask. pose proof (Z.mod_pos_bound m (2 ^ (Z.of_nat w * 8))
      (pow2_pos (Z.of_nat w * 8) ltac:(lia))).
    split; [apply Z.land_nonneg; lia|].
    apply bound_by_bits; [apply Z.land_nonneg; lia | lia |].
    intros i Hi. rewrite Z.land_spec, (testbit_hi x (Z.of_nat w * 8) i) by lia. reflexivity.
  - unfold UArr.mask. rewrite length_zip_bytes, length_skip_be by exact Hwidth. lia.
Qed.

Lemma bits_mask x m : wf k x -> bits k (u_mask k x m) = Z.land (bits k x) m.
Proof.
  intros H. pose proof (bits_range k x H) as R.
  destruct k as [w|l]; simpl in *.
  - unfold UInt.mask. apply land_mod_pow2; [lia | exact R].
  - unfold UArr.mask.
    rewrite zip_bytes_rev by (rewrite length_skip_be by exact Hwidth; exact H).
    rewrite le_combine_zip_and
      by (rewrite !length_rev, length_skip_be by exact Hwidth; exact H).
    rewrite arr_skip_be by exact Hwidth. apply land_mod_pow2; [lia | exact R].
Qed.

Lemma wf_bitor x y : wf k x -> wf k y -> wf k (u_bitor k x y).
Proof.
  destruct k as [w|l]; simpl in *; intros Hx Hy.
  - unfold UInt.bitor. split; [apply Z.lor_nonneg; lia|].
    apply bound_by_bits; [apply Z.lor_nonneg; lia | lia |].
    intros i Hi. rewrite Z.lor_spec, (testbit_hi x (Z.of_nat w * 8) i), (testbit_hi y (Z.of_nat w * 8) i) by lia.
    reflexivity.
  - unfold UArr.bitor. rewrite length_zip_bytes. lia.
Qed.

Lemma bits_bitor x y :
  wf k x -> wf k y -> bits k (u_bitor k x y) = Z.lor (bits k x) (bits k y).
Proof.
  destruct k as [w|l]; simpl in *; intros Hx Hy; [reflexivity|].
  unfold UArr.bitor. rewrite zip_bytes_rev by congruence.
  apply le_combine_zip_or. rewrite !length_rev. congruence.
Qed.
End UnderlayLaws.

(* ------------------------------------------------------------------ *)
(** ** Set followed by get *)

(** The byte-order-normalized value ([prev_value] in [Field::set]). *)
Definition normalized (F : field_spec) (msb : bool) (v : carrier (fs_kind F)) : carrier (fs_kind F) :=
  if msb then u_from_be _ v else u_from_le _ v.

(** A well-formed field specification: a supported underlay type, a
    [u64] mask and a [u8] shift. *)
Definition spec_ok (F : field_spec) : bool :=
  supported (fs_kind F) && (0 <=? fs_mask F) && (fs_mask F <=? u64_max)
  && (0 <=? fs_shift F) && (fs_shift F <? 256).

(** The underlay value [ux], shifted into place, lies within the mask and
    within the storage. *)
Definition fits (F : field_spec) (ux : carrier (fs_kind F)) : bool :=
  let sh := Z.shiftl (bits _ ux) (fs_shift F) in
  (Z.land sh (fs_mask F) =? sh) && (sh <? 2 ^ (Z.of_nat (width (fs_kind F)) * 8)).

Lemma supported_width k : supported k = true -> (width k <= 8)%nat.
Proof.
  destruct k as [w|l]; simpl; intros H;
    repeat (apply orb_true_iff in H as [H|H]; [apply Nat.eqb_eq in H; lia|]);
    discriminate.
Qed.

Lemma testbit_u64_max i : 0 <= i -> Z.testbit u64_max i = (i <? 64).
Proof.
  intros Hi. replace u64_max with (Z.ones 64)
    by (unfold u64_max; rewrite Z.ones_equiv; reflexivity).
  rewrite Z.testbit_ones by lia. destruct (Z.leb_spec 0 i); [reflexivity | lia].
Qed.

Lemma u64_range_bits x i : 0 <= x < 2 ^ 64 -> 64 <= i -> Z.testbit x i = false.
Proof. intros. apply (testbit_hi x 64 i); assumption. Qed.

(** The read-modify-write of [Field::set], bit by bit: [q] is the new
    (shifted) value, inside the mask [m]; [p] is the previous value. *)
Lemma rmw_bits p q m :
  0 <= m <= u64_max -> 0 <= p < 2 ^ 64 -> Z.land q m = q ->
  Z.land (Z.lor (Z.land p (u64_not m)) q) m = q /\
  Z.land (Z.lor (Z.land p (u64_not m)) q) (Z.lnot m) = Z.land p (Z.lnot m).
Proof.
  intros Hm Hp Hq. unfold u64_max in Hm.
  assert (Hm' : 0 <= m < 2 ^ 64) by lia.
  split; apply Z.bits_inj'; intros i Hi; rewrite <- Hq;
    unfold u64_not; rewrite ?Z.land_spec, ?Z.lor_spec, ?Z.land_spec, ?Z.lxor_spec,
      ?Z.lnot_spec, ?Z.land_spec, testbit_u64_max by lia;
    destruct (Z.ltb_spec i 64);
    [ | rewrite (u64_range_bits m i), (u64_range_bits p i) by lia
    | | rewrite (u64_range_bits m i), (u64_range_bits p i) by lia ];
    destruct (Z.testbit p i), (Z.testbit q i), (Z.testbit m i); reflexivity.
Qed.

Lemma land_lnot_u64_max y : 0 <= y < 2 ^ 64 -> Z.land y (Z.lnot u64_max) = 0.
Proof.
  intros Hy. apply Z.bits_inj'. intros i Hi.
  rewrite Z.land_spec, Z.lnot_spec, testbit_u64_max, Z.bits_0 by lia.
  destruct (Z.ltb_spec i 64); [rewrite andb_false_r; reflexivity|].
  rewrite (u64_range_bits y i) by lia. reflexivity.
Qed.

Lemma normalized_to k (x : carrier k) (msb : bool) :
  (width k <= 8)%nat -> wf k x ->
  (if msb then u_from_be k (if msb then u_to_be k x else u_to_le k x)
   else u_from_le k (if msb then u_to_be k x else u_to_le k x)) = x.
Proof. destruct msb; intros; [apply from_be_to_be | apply from_le_to_le]; assumption. Qed.

Lemma wf_normalized k (x : carrier k) (msb : bool) :
  (width k <= 8)%nat -> wf k x -> wf k (if msb then u_from_be k x else u_from_le k x).
Proof. destruct msb; intros; [apply wf_from_be | apply wf_from_le]; assumption. Qed.

Lemma bits_lt_u64 k x : (width k <= 8)%nat -> wf k x -> 0 <= bits k x < 2 ^ 64.
Proof.
  intros Hw H. pose proof (bits_range k x H).
  pose proof (pow2_le (Z.of_nat (width k) * 8) 64 ltac:(lia)). lia.
Qed.

(** A concrete field: IPv4's IHL, [field_spec!(IhlSpec, u8, u8, 0x0F)]. *)
Definition IhlSpec : field_spec := FieldSpec (UInt 1) 0x0F 0.

(* ------------------------------------------------------------------ *)
(** ** Fields inside a buffer *)

(** [&data[a..b]]; [None] where Rust panics ([a > b] or [b > data.len()]). *)
Definition slice (data : list byte) (a b : nat) : option (list byte) :=
  if (a <=? b)%nat && (b <=? length data)%nat then Some (firstn (b - a) (skipn a data))
  else None.

(** [&data[a..]] *)
Definition slice_from (data : list byte) (a : nat) : option (list byte) :=
  if (a <=? length data)%nat then Some (skipn a data) else None.

(** The buffer with [data[a..b]] replaced by [bs]. *)
Definition splice (data : list byte) (a b : nat) (bs : list byte) : list byte :=
  firstn a data ++ bs ++ skipn b data.

(** The [Field] overlaid on [n] bytes of memory: an integer is read in
    host (little-endian) order, an array as it is. *)
Definition of_bytes (k : underlay_kind) (bs : list byte) : carrier k :=
  match k return carrier k with UInt _ => le_combine bs | UArr _ => bs end.
Definition to_bytes (k : underlay_kind) : carrier k -> list byte :=
  match k return carrier k -> list byte with UInt w => le_split w | UArr _ => fun c => c end.

(** [layer.field().get()], the accessor cast over [&data[a..b]]. *)
Definition read_field {T} (F : field_spec) (msb : bool) (tg : target (fs_kind F) T)
  (data : list byte) (a b : nat) : option T :=
  option_map (fun bs => get F msb tg (of_bytes _ bs)) (slice data a b).

(** [layer.field_mut().set(x)] on [&mut data[a..b]]. *)
Definition write_field {T} (F : field_spec) (msb : bool) (tg : target (fs_kind F) T)
  (data : list byte) (a b : nat) (x : T) : option (list byte) :=
  option_map (fun bs => splice data a b (to_bytes _ (set F msb tg (of_bytes _ bs) x)))
    (slice data a b).

(** [data[a..b].copy_from_slice(src)]: panics when the lengths differ. *)
Definition copy_from_slice (data : list byte) (a b : nat) (src : list byte) : option (list byte) :=
  match slice data a b with
  | Some dst => if (length dst =? length src)%nat then Some (splice data a b src) else None
  | None => None
  end.

(** [data[a..].copy_from_slice(src)] *)
Definition copy_from_slice_from (data : list byte) (a : nat) (src : list byte) : option (list byte) :=
  match slice_from data a with
  | Some dst => if (length dst =? length src)%nat then Some (firstn a data ++ src) else None
  | None => None
  end.

(** An option monad for code that may panic. *)
Definition bind {A B} (m : option A) (f : A -> option B) : option B :=
  match m with Some a => f a | None => None end.
Notation "x <- m ;; f" := (bind m (fun x => f)) (at level 61, m at next level, right associativity).

Lemma slice_ok d a b :
  (a <= b <= length d)%nat -> slice d a b = Some (firstn (b - a) (skipn a d)).
Proof.
  intros H. unfold slice.
  replace ((a <=? b)%nat && (b <=? length d)%nat)%bool with true; [reflexivity|].
  symmetry. apply andb_true_iff. split; apply Nat.leb_le; lia.
Qed.

Lemma slice_none d a b : (length d < b)%nat -> slice d a b = None.
Proof.
  intros H. unfold slice. destruct (Nat.leb_spec b (length d)); [lia|].
  rewrite andb_false_r. reflexivity.
Qed.

Lemma length_slice d a b bs : slice d a b = Some bs -> length bs = (b - a)%nat.
Proof.
  unfold slice. destruct (Nat.leb_spec a b), (Nat.leb_spec b (length d)); simpl;
    intros E; inversion E; subst.
  rewrite length_firstn, length_skipn. lia.
Qed.

Lemma slice_some d a b bs : slice d a b = Some bs -> (a <= b <= length d)%nat.
Proof.
  unfold slice. destruct (Nat.leb_spec a b), (Nat.leb_spec b (length d)); simpl;
    intros E; inversion E; lia.
Qed.

Lemma length_splice d a b bs :
  (a <= b <= length d)%nat -> length bs = (b - a)%nat -> length (splice d a b bs) = length d.
Proof.
  intros H Hl. unfold splice. rewrite !length_app, length_firstn, length_skipn. lia.
Qed.

Lemma slice_splice_same d a b bs :
  (a <= b <= length d)%nat -> length bs = (b - a)%nat -> slice (splice d a b bs) a b = Some bs.
Proof.
  intros H Hl. rewrite slice_ok by (rewrite length_splice by assumption; lia).
  unfold splice. rewrite skipn_app, length_firstn, skipn_firstn_comm.
  replace (a - a)%nat with 0%nat by lia. replace (a - Nat.min a (length d))%nat with 0%nat by lia.
  simpl. rewrite firstn_app, Hl, Nat.sub_diag. simpl. rewrite app_nil_r.
  rewrite <- Hl, firstn_all. reflexivity.
Qed.

Lemma slice_splice_before d a b bs a' b' :
  (a <= b <= length d)%nat -> length bs = (b - a)%nat -> (a' <= b' <= a)%nat ->
  slice (splice d a b bs) a' b' = slice d a' b'.
Proof.
  intros H Hl H'. rewrite !slice_ok by (try rewrite length_splice by assumption; lia).
  unfold splice. rewrite skipn_app, firstn_app, length_skipn, length_firstn.
  replace (b' - a' - (Nat.min a (length d) - a'))%nat with 0%nat by lia.
  simpl. rewrite app_nil_r, skipn_firstn_comm, firstn_firstn.
  f_equal. f_equal. lia.
Qed.

Lemma slice_splice_after d a b bs a' b' :
  (a <= b <= length d)%nat -> length bs = (b - a)%nat -> (b <= a' <= b')%nat ->
  slice (splice d a b bs) a' b' = slice d a' b'.
Proof.
  intros H Hl H'. unfold slice. rewrite length_splice by assumption.
  destruct ((a' <=? b')%nat && (b' <=? length d)%nat)%bool; [|reflexivity].
  f_equal. f_equal. unfold splice.
  rewrite app_assoc, skipn_app, length_app, length_firstn, Hl.
  rewrite skipn_all2 by (rewrite length_app, length_firstn; lia).
  simpl. rewrite skipn_skipn. f_equal. lia.
Qed.

Lemma slice_from_splice_after d a b bs a' :
  (a <= b <= length d)%nat -> length bs = (b - a)%nat -> (b <= a')%nat ->
  slice_from (splice d a b bs) a' = slice_from d a'.
Proof.
  intros H Hl H'. unfold slice_from. rewrite length_splice by assumption.
  destruct (a' <=? length d)%nat; [|reflexivity].
  f_equal. unfold splice.
  rewrite app_assoc, skipn_app, length_app, length_firstn, Hl.
  rewrite skipn_all2 by (rewrite length_app, length_firstn; lia).
  simpl. rewrite skipn_skipn. f_equal. lia.
Qed.

(* ------------------------------------------------------------------ *)
(** ** Layer views *)

(** Rust's [Result]. *)
Inductive result (A E : Type) : Type :=
| Ok (a : A)
| Err (e : E).
Arguments Ok {A E} a.
Arguments Err {A E} e.

(** [Result::ok] *)
Definition result_ok {A E} (r : result A E) : option A :=
  match r with Ok a => Some a | Err _ => None end.

(** [impl_target!(frominto, u8, u8)] and the other identities. *)
Definition u8_target : target (UInt 1) Z := same_target (UInt 1).
Definition u16_target : target (UInt 2) Z := same_target (UInt 2).
Definition u32_target : target (UInt 4) Z := same_target (UInt 4).

(** [EthType], [#[repr(u16)]] with [#[num_enum(catch_all)] Reserved(u16)]. *)
Inductive EthType : Type :=
| EthType_Ipv4 | EthType_Arp | EthType_FrameRelayArp | EthType_Vlan | EthType_Ipv6
| EthType_Reserved (n : Z).

(** [EthType::from_primitive] *)
Definition EthType_from (n : Z) : EthType :=
  if n =? 0x0800 then EthType_Ipv4
  else if n =? 0x0806 then EthType_Arp
  else if n =? 0x0808 then EthType_FrameRelayArp
  else if n =? 0x8100 then EthType_Vlan
  else if n =? 0x86DD then EthType_Ipv6
  else EthType_Reserved n.

(** [u16::from(EthType)] *)
Definition EthType_into (t : EthType) : Z :=
  match t with
  | EthType_Ipv4 => 0x0800 | EthType_Arp => 0x0806 | EthType_FrameRelayArp => 0x0808
  | EthType_Vlan => 0x8100 | EthType_Ipv6 => 0x86DD | EthType_Reserved n => n
  end.

(** [impl_target!(frominto, EthType, u16)] *)
Definition eth_type_target : target (UInt 2) EthType := @Target (UInt 2) EthType EthType_from EthType_into.

(** [PartialEq for EthType]: the derived, structural equality. *)
Definition EthType_eqb (a b : EthType) : bool :=
  match a, b with
  | EthType_Ipv4, EthType_Ipv4 | EthType_Arp, EthType_Arp
  | EthType_FrameRelayArp, EthType_FrameRelayArp | EthType_Vlan, EthType_Vlan
  | EthType_Ipv6, EthType_Ipv6 => true
  | EthType_Reserved n, EthType_Reserved m => n =? m
  | _, _ => false
  end.

(** Modelled from the spec: [IpProtocol] (its source file is not part of
    the sources): an open enumeration of IP protocol numbers with the
    catch-all [Reserved(u8)], converted with [num_enum] like [EthType];
    TCP is 6 and UDP is 17. *)
Inductive IpProtocol : Type :=
| IpProtocol_Tcp
| IpProtocol_Udp
| IpProtocol_Reserved (n : Z).

(** Modelled from the spec: [IpProtocol::from_primitive]. *)
Definition IpProtocol_from (n : Z) : IpProtocol :=
  if n =? 6 then IpProtocol_Tcp else if n =? 17 then IpProtocol_Udp else IpProtocol_Reserved n.

(** Modelled from the spec: [u8::from(IpProtocol)]. *)
Definition IpProtocol_into (p : IpProtocol) : Z :=
  match p with IpProtocol_Tcp => 6 | IpProtocol_Udp => 17 | IpProtocol_Reserved n => n end.

(** Modelled from the spec: [impl_target!(frominto, IpProtocol, u8)]. *)
Definition ip_protocol_target : target (UInt 1) IpProtocol := @Target (UInt 1) IpProtocol IpProtocol_from IpProtocol_into.

(** Modelled from the spec: the derived equality of [IpProtocol]. *)
Definition IpProtocol_eqb (a b : IpProtocol) : bool :=
  match a, b with
  | IpProtocol_Tcp, IpProtocol_Tcp | IpProtocol_Udp, IpProtocol_Udp => true
  | IpProtocol_Reserved n, IpProtocol_Reserved m => n =? m
  | _, _ => false
  end.

(** A view is its byte buffer; the accessors of a view take the buffer. *)
Module Udp.
Definition MIN_HEADER_LENGTH : nat := 8.
Inductive UdpError := InvalidLength (n : nat).
Definition PortSpec := FieldSpec (UInt 2) u64_max 0.
Definition LengthSpec := FieldSpec (UInt 2) u64_max 0.
Definition ChecksumSpec := FieldSpec (UInt 2) u64_max 0.

Definition validate (data : list byte) : result unit UdpError :=
  if (length data <? MIN_HEADER_LENGTH)%nat then Err (InvalidLength (length data)) else Ok tt.
Definition new (data : list byte) : result (list byte) UdpError :=
  match validate data with Ok _ => Ok data | Err e => Err e end.

Definition length_ (data : list byte) := read_field LengthSpec true u16_target data 4 6.
Definition payload (data : list byte) := slice_from data 8.
Definition src_port (data : list byte) := read_field PortSpec true u16_target data 0 2.
Definition dst_port (data : list byte) := read_field PortSpec true u16_target data 2 4.
Definition checksum (data : list byte) := read_field ChecksumSpec true u16_target data 6 8.
End Udp.

Module Tcp.
Definition MIN_HEADER_LENGTH : nat := 20.
Inductive TcpError := InvalidLength (n : nat).
Definition PortSpec := FieldSpec (UInt 2) u64_max 0.
Definition SeqNumSpec := FieldSpec (UInt 4) u64_max 0.
Definition AckNumSpec := FieldSpec (UInt 4) u64_max 0.
Definition DataOffsetSpec := FieldSpec (UInt 1) 0xF0 4.
(** [TcpFlags] is a [bitflags] set over [u8], converted with [from_bits_retain]. *)
Definition FlagsSpec := FieldSpec (UInt 1) u64_max 0.
Definition WindowSizeSpec := FieldSpec (UInt 2) u64_max 0.
Definition ChecksumSpec := FieldSpec (UInt 2) u64_max 0.
Definition UrgentPointerSpec := FieldSpec (UInt 2) u64_max 0.

Definition validate (data : list byte) : result unit TcpError :=
  if (length data <? MIN_HEADER_LENGTH)%nat then Err (InvalidLength (length data)) else Ok tt.
Definition new (data : list byte) : result (list byte) TcpError :=
  match validate data with Ok _ => Ok data | Err e => Err e end.

Definition data_offset (data : list byte) := read_field DataOffsetSpec true u8_target data 12 13.
Definition window_size (data : list byte) := read_field WindowSizeSpec true u16_target data 14 16.
Definition flags (data : list byte) := read_field FlagsSpec true u8_target data 13 14.
Definition options (data : list byte) : option (list byte) :=
  d <- data_offset data ;; slice data MIN_HEADER_LENGTH (Z.to_nat d * 4).
Definition payload (data : list byte) : option (list byte) :=
  d <- data_offset data ;; slice_from data (Z.to_nat d * 4).
Definition src_port (data : list byte) := read_field PortSpec true u16_target data 0 2.
Definition dst_port (data : list byte) := read_field PortSpec true u16_target data 2 4.
Definition seq_num (data : list byte) := read_field SeqNumSpec true u32_target data 4 8.
Definition ack_num (data : list byte) := read_field AckNumSpec true u32_target data 8 12.
Definition checksum (data : list byte) := read_field ChecksumSpec true u16_target data 16 18.
Definition urgent_pointer (data : list byte) := read_field UrgentPointerSpec true u16_target data 18 20.
End Tcp.

Module Ipv4.
Definition MIN_HEADER_LENGTH : nat := 20.
Inductive Ipv4Error := InvalidLength (n : nat).
Definition VersionSpec := FieldSpec (UInt 1) 0xF0 4.
(** [IhlSpec] is the one defined above. *)
Definition DscpSpec := FieldSpec (UInt 1) 0xFC 2.
Definition EcnSpec := FieldSpec (UInt 1) 0x03 0.
Definition TotalLengthSpec := FieldSpec (UInt 2) u64_max 0.
Definition IdentificationSpec := FieldSpec (UInt 2) u64_max 0.
Definition FlagsSpec := FieldSpec (UInt 1) 0xE0 5.
Definition FragmentOffsetSpec := FieldSpec (UInt 2) 0x1FFF 0.
Definition TtlSpec := FieldSpec (UInt 1) u64_max 0.
Definition ProtocolSpec := FieldSpec (UInt 1) 0xFF 0.
Definition ChecksumSpec := FieldSpec (UInt 2) u64_max 0.
(** [Ipv4Addr] is represented by its [u32] value ([frominto]). *)
Definition Ipv4AddrSpec := FieldSpec (UInt 4) u64_max 0.

Definition validate (data : list byte) : result unit Ipv4Error :=
  if (length data <? MIN_HEADER_LENGTH)%nat then Err (InvalidLength (length data)) else Ok tt.
Definition new (data : list byte) : result (list byte) Ipv4Error :=
  match validate data with Ok _ => Ok data | Err e => Err e end.

Definition ihl (data : list byte) := read_field IhlSpec true u8_target data 0 1.
Definition total_length (data : list byte) := read_field TotalLengthSpec true u16_target data 2 4.
Definition ttl (data : list byte) := read_field TtlSpec true u8_target data 8 9.
Definition protocol (data : list byte) := read_field ProtocolSpec true ip_protocol_target data 9 10.

Definition version (data : list byte) := read_field VersionSpec true u8_target data 0 1.
Definition dscp (data : list byte) := read_field DscpSpec true u8_target data 1 2.
Definition ecn (data : list byte) := read_field EcnSpec true u8_target data 1 2.
Definition identification (data : list byte) := read_field IdentificationSpec true u16_target data 4 6.
Definition flags (data : list byte) := read_field FlagsSpec true u8_target data 6 7.
Definition fragment_offset (data : list byte) := read_field FragmentOffsetSpec true u16_target data 6 8.
Definition checksum (data : list byte) := read_field ChecksumSpec true u16_target data 10 12.
Definition src (data : list byte) := read_field Ipv4AddrSpec true u32_target data 12 16.
Definition dst (data : list byte) := read_field Ipv4AddrSpec true u32_target data 16 20.

(** [&data[MIN_HEADER_LENGTH..(self.ihl().get() - 5) as usize * 4]]; the
    [u8] subtraction panics below 5. *)
Definition options (data : list byte) : option (list byte) :=
  n <- ihl data ;;
  if n <? 5 then None else slice data MIN_HEADER_LENGTH (Z.to_nat (n - 5) * 4).
Definition payload (data : list byte) : option (list byte) :=
  n <- ihl data ;; slice_from data (Z.to_nat n * 4).

(** [Ipv4::tcp]: the outer [option] is [None] on a panic. *)
Definition tcp (data : list byte) : option (option (list byte)) :=
  p <- protocol data ;;
  if IpProtocol_eqb p IpProtocol_Tcp then (pl <- payload data ;; Some (result_ok (Tcp.new pl)))
  else Some None.
Definition udp (data : list byte) : option (option (list byte)) :=
  p <- protocol data ;;
  if IpProtocol_eqb p IpProtocol_Udp then (pl <- payload data ;; Some (result_ok (Udp.new pl)))
  else Some None.
End Ipv4.

Module Eth.
Definition MIN_HEADER_LENGTH : nat := 14.
Inductive EthError := InvalidLength (n : nat).
Definition EthAddrSpec := FieldSpec (UArr 6) u64_max 0.
Definition EthTypeSpec := FieldSpec (UInt 2) u64_max 0.

Definition validate (data : list byte) : result unit EthError :=
  if (length data <? MIN_HEADER_LENGTH)%nat then Err (InvalidLength (length data)) else Ok tt.
Definition new (data : list byte) : result (list byte) EthError :=
  match validate data with Ok _ => Ok data | Err e => Err e end.

Definition dst (data : list byte) := read_field EthAddrSpec true (same_target _) data 0 6.
Definition src (data : list byte) := read_field EthAddrSpec true (same_target _) data 6 12.
Definition eth_type (data : list byte) := read_field EthTypeSpec true eth_type_target data 12 14.
Definition payload (data : list byte) := slice_from data 14.

(** [Eth::ipv4] *)
Definition ipv4 (data : list byte) : option (option (list byte)) :=
  t <- eth_type data ;;
  if EthType_eqb t EthType_Ipv4 then (pl <- payload data ;; Some (result_ok (Ipv4.new pl)))
  else Some None.
End Eth.

(* ------------------------------------------------------------------ *)
(** ** Reading the discriminants *)

Lemma EthType_eqb_from_Ipv4 n : EthType_eqb (EthType_from n) EthType_Ipv4 = (n =? 0x0800).
Proof.
  unfold EthType_from.
  destruct (Z.eqb_spec n 0x0800); [reflexivity|].
  destruct (n =? 0x0806); [reflexivity|]. destruct (n =? 0x0808); [reflexivity|].
  destruct (n =? 0x8100); [reflexivity|]. destruct (n =? 0x86DD); reflexivity.
Qed.

Lemma IpProtocol_eqb_from_Tcp n : IpProtocol_eqb (IpProtocol_from n) IpProtocol_Tcp = (n =? 6).
Proof.
  unfold IpProtocol_from.
  destruct (Z.eqb_spec n 6); [reflexivity|]. destruct (n =? 17); reflexivity.
Qed.

Lemma IpProtocol_eqb_from_Udp n : IpProtocol_eqb (IpProtocol_from n) IpProtocol_Udp = (n =? 17).
Proof.
  unfold IpProtocol_from.
  destruct (Z.eqb_spec n 6); [subst; reflexivity|]. destruct (n =? 17); reflexivity.
Qed.

Lemma read_field_target {T} (F : field_spec) msb (tg : target (fs_kind F) T) data a b :
  read_field F msb tg data a b
  = option_map (from_underlay tg) (read_field F msb (same_target _) data a b).
Proof. unfold read_field. destruct (slice data a b); reflexivity. Qed.

Lemma slice_from_ok d a : (a <= length d)%nat -> slice_from d a = Some (skipn a d).
Proof. intros H. unfold slice_from. destruct (Nat.leb_spec a (length d)); [reflexivity | lia]. Qed.

Lemma slice_from_none d a : (length d < a)%nat -> slice_from d a = None.
Proof. intros H. unfold slice_from. destruct (Nat.leb_spec a (length d)); [lia | reflexivity]. Qed.

Lemma new_min_length_eth data v : Eth.new data = Ok v -> v = data /\ (14 <= length data)%nat.
Proof.
  unfold Eth.new, Eth.validate. destruct (Nat.ltb_spec (length data) Eth.MIN_HEADER_LENGTH);
    intros E; inversion E; subst; split; [reflexivity | unfold Eth.MIN_HEADER_LENGTH in *; lia].
Qed.

Lemma new_min_length_ipv4 data v : Ipv4.new data = Ok v -> v = data /\ (20 <= length data)%nat.
Proof.
  unfold Ipv4.new, Ipv4.validate. destruct (Nat.ltb_spec (length data) Ipv4.MIN_HEADER_LENGTH);
    intros E; inversion E; subst; split; [reflexivity | unfold Ipv4.MIN_HEADER_LENGTH in *; lia].
Qed.

Lemma read_field_some {T} (F : field_spec) msb (tg : target (fs_kind F) T) data a b :
  (a <= b <= length data)%nat -> exists x, read_field F msb tg data a b = Some x.
Proof. intros H. unfold read_field. rewrite slice_ok by exact H. eexists. reflexivity. Qed.

(* ------------------------------------------------------------------ *)
(** ** Writes and copies leave the rest of the buffer alone *)

Lemma skipn_repeat_ {A} (x : A) n k : skipn k (repeat x n) = repeat x (n - k).
Proof. revert n; induction k; intros [|n]; simpl; auto. Qed.

Lemma firstn_repeat_ {A} (x : A) n k : firstn k (repeat x n) = repeat x (Nat.min k n).
Proof. revert n; induction k; intros [|n]; simpl; f_equal; auto. Qed.

Lemma slice_repeat n a b :
  (a <= b <= n)%nat -> slice (repeat x00 n) a b = Some (repeat x00 (b - a)).
Proof.
  intros H. rewrite slice_ok by (rewrite repeat_length; lia).
  rewrite skipn_repeat_, firstn_repeat_. f_equal. f_equal. lia.
Qed.

Lemma write_field_some {T} (F : field_spec) msb (tg : target (fs_kind F) T) d a b x :
  (a <= b <= length d)%nat -> exists d', write_field F msb tg d a b x = Some d'.
Proof. intros H. unfold write_field. rewrite slice_ok by exact H. eexists. reflexivity. Qed.

Lemma write_field_frame w m s msb {T} (tg : target (UInt w) T) d a b x d' :
  (b - a)%nat = w -> write_field (FieldSpec (UInt w) m s) msb tg d a b x = Some d' ->
  length d' = length d /\
  slice d' a b = option_map (fun bs => to_bytes (UInt w)
                   (set (FieldSpec (UInt w) m s) msb tg (of_bytes (UInt w) bs) x)) (slice d a b) /\
  (forall a' b', (a' <= b' <= a)%nat -> slice d' a' b' = slice d a' b') /\
  (forall a' b', (b <= a' <= b')%nat -> slice d' a' b' = slice d a' b') /\
  (forall a', (b <= a')%nat -> slice_from d' a' = slice_from d a').
Proof.
  intros Hw. unfold write_field. destruct (slice d a b) as [bs|] eqn:S; [|discriminate].
  simpl. intros E. inversion E as [E']; clear E.
  pose proof (slice_some _ _ _ _ S) as R.
  assert (Hl : length (to_bytes (UInt w) (set (FieldSpec (UInt w) m s) msb tg
                 (of_bytes (UInt w) bs) x)) = (b - a)%nat)
    by (simpl; rewrite length_le_split; lia).
  repeat split.
  - apply length_splice; assumption.
  - apply slice_splice_same; assumption.
  - intros; apply slice_splice_before; (assumption || lia).
  - intros; apply slice_splice_after; (assumption || lia).
  - intros; apply slice_from_splice_after; (assumption || lia).
Qed.

Lemma copy_from_slice_some d a b src :
  (a <= b <= length d)%nat -> length src = (b - a)%nat -> exists d', copy_from_slice d a b src = Some d'.
Proof.
  intros H Hl. unfold copy_from_slice. rewrite slice_ok by exact H.
  rewrite length_firstn, length_skipn, Hl.
  replace (Nat.min (b - a) (length d - a) =? b - a)%nat with true
    by (symmetry; apply Nat.eqb_eq; lia).
  eexists. reflexivity.
Qed.

Lemma copy_from_slice_frame d a b src d' :
  copy_from_slice d a b src = Some d' ->
  length d' = length d /\
  slice d' a b = Some src /\
  (forall a' b', (a' <= b' <= a)%nat -> slice d' a' b' = slice d a' b') /\
  (forall a' b', (b <= a' <= b')%nat -> slice d' a' b' = slice d a' b') /\
  (forall a', (b <= a')%nat -> slice_from d' a' = slice_from d a').
Proof.
  unfold copy_from_slice. destruct (slice d a b) as [bs|] eqn:S; [|discriminate].
  destruct (Nat.eqb_spec (length bs) (length src)) as [Hl|]; [|discriminate].
  intros E. inversion E as [E']; clear E.
  pose proof (slice_some _ _ _ _ S) as R. pose proof (length_slice _ _ _ _ S) as Rl.
  rewrite Rl in Hl. symmetry in Hl.
  repeat split.
  - apply length_splice; assumption.
  - apply slice_splice_same; assumption.
  - intros; apply slice_splice_before; (assumption || lia).
  - intros; apply slice_splice_after; (assumption || lia).
  - intros; apply slice_from_splice_after; (assumption || lia).
Qed.

Lemma copy_from_slice_from_some d a src :
  (a <= length d)%nat -> length src = (length d - a)%nat ->
  exists d', copy_from_slice_from d a src = Some d'.
Proof.
  intros H Hl. unfold copy_from_slice_from. rewrite slice_from_ok by exact H.
  rewrite length_skipn, Hl, Nat.eqb_refl. eexists. reflexivity.
Qed.

Lemma copy_from_slice_from_frame d a src d' :
  copy_from_slice_from d a src = Some d' ->
  length d' = length d /\
  slice_from d' a = Some src /\
  (forall a' b', (a' <= b' <= a)%nat -> slice d' a' b' = slice d a' b').
Proof.
  unfold copy_from_slice_from, slice_from at 1.
  destruct (Nat.leb_spec a (length d)) as [H|]; [|discriminate].
  destruct (Nat.eqb_spec (length (skipn a d)) (length src)) as [Hl|]; [|discriminate].
  intros E. inversion E as [E']; clear E. rewrite length_skipn in Hl.
  assert (Ld : length (firstn a d ++ src) = length d)
    by (rewrite length_app, length_firstn; lia).
  repeat split.
  - exact Ld.
  - rewrite slice_from_ok by lia. rewrite skipn_app, length_firstn, skipn_all2
      by (rewrite length_firstn; lia).
    replace (a - Nat.min a (length d))%nat with 0%nat by lia. reflexivity.
  - intros a' b' Hab. rewrite !slice_ok by lia.
    rewrite skipn_app, firstn_app, length_skipn, length_firstn.
    replace (b' - a' - (Nat.min a (length d) - a'))%nat with 0%nat by lia.
    simpl. rewrite app_nil_r, skipn_firstn_comm, firstn_firstn. do 2 f_equal. lia.
Qed.

(** Lengths and slices of a buffer after a run of writes and copies. *)
Ltac len_simpl :=
  repeat match goal with H : length ?x = length _ |- context [length ?x] => rewrite H end;
  rewrite ?repeat_length.

Ltac slice_simpl :=
  repeat first
   [ match goal with
     | H : forall a' b', _ -> slice ?d' a' b' = slice ?d a' b' |- context [slice ?d' _ _] =>
         rewrite H by (len_simpl; lia)
     end
   | match goal with
     | H : slice ?d' ?a ?b = _ |- context [slice ?d' ?a ?b] => rewrite H
     end
   | match goal with
     | H : forall a', _ -> slice_from ?d' a' = slice_from ?d a' |- context [slice_from ?d' _] =>
         rewrite H by (len_simpl; lia)
     end
   | rewrite slice_repeat by lia ];
  cbn [option_map].

(* ------------------------------------------------------------------ *)
(** ** Builders *)

(** [Option::unwrap_or]; Rust evaluates the default eagerly. *)
Definition unwrap_or {A} (o : option A) (d : A) : A :=
  match o with Some a => a | None => d end.

(** [usize as u8], [usize as u16] *)
Definition as_u8 (n : nat) : Z := Z.of_nat n mod 2 ^ 8.
Definition as_u16 (n : nat) : Z := Z.of_nat n mod 2 ^ 16.

(** [a + b] on [u16]: panics on overflow (overflow checks are on in the
    crate's debug and test builds). *)
Definition add_u16 (a b : Z) : option Z :=
  if a + b <? 2 ^ 16 then Some (a + b) else None.

Module Ipv4Builder.
Record Ipv4Builder : Type := {
  ihl : option Z; dscp : option Z; ecn : option Z; total_length : option Z;
  identification : option Z; flags : option Z; fragment_offset : option Z;
  ttl : option Z; protocol : option IpProtocol; checksum : option Z;
  src : option Z; dst : option Z; options : list byte; payload : list byte }.

(** [Ipv4Builder::default()] followed by [.payload(p)]. *)
Definition with_payload (p : list byte) : Ipv4Builder :=
  {| ihl := None; dscp := None; ecn := None; total_length := None; identification := None;
     flags := None; fragment_offset := None; ttl := None; protocol := None; checksum := None;
     src := None; dst := None; options := []; payload := p |}.

(** [Ipv4Builder::build]; [None] where it panics. [Ipv4Addr::UNSPECIFIED]
    is the address 0. *)
Definition build (b : Ipv4Builder) : option (list byte) :=
  let ihl := unwrap_or (ihl b) (as_u8 (length (options b)) / 4 + 5) in
  dflt <- add_u16 (ihl * 4) (as_u16 (length (payload b))) ;;
  let length := unwrap_or (total_length b) dflt in
  let data := repeat x00 (Z.to_nat length) in
  d <- write_field Ipv4.VersionSpec true u8_target data 0 1 4 ;;
  d <- write_field IhlSpec true u8_target d 0 1 ihl ;;
  d <- write_field Ipv4.DscpSpec true u8_target d 1 2 (unwrap_or (dscp b) 0) ;;
  d <- write_field Ipv4.EcnSpec true u8_target d 1 2 (unwrap_or (ecn b) 0) ;;
  d <- write_field Ipv4.TotalLengthSpec true u16_target d 2 4 length ;;
  d <- write_field Ipv4.IdentificationSpec true u16_target d 4 6 (unwrap_or (identification b) 0) ;;
  d <- write_field Ipv4.FlagsSpec true u8_target d 6 7 (unwrap_or (flags b) 0) ;;
  d <- write_field Ipv4.FragmentOffsetSpec true u16_target d 6 8 (unwrap_or (fragment_offset b) 0) ;;
  d <- write_field Ipv4.TtlSpec true u8_target d 8 9 (unwrap_or (ttl b) 64) ;;
  d <- write_field Ipv4.ProtocolSpec true ip_protocol_target d 9 10
         (unwrap_or (protocol b) (IpProtocol_Reserved 255)) ;;
  d <- write_field Ipv4.ChecksumSpec true u16_target d 10 12 (unwrap_or (checksum b) 0) ;;
  d <- write_field Ipv4.Ipv4AddrSpec true u32_target d 12 16 (unwrap_or (src b) 0) ;;
  d <- write_field Ipv4.Ipv4AddrSpec true u32_target d 16 20 (unwrap_or (dst b) 0) ;;
  (* [options_mut()] is [data[MIN_HEADER_LENGTH..self.ihl().get() as usize * 4]] *)
  n <- Ipv4.ihl d ;;
  d <- copy_from_slice d Ipv4.MIN_HEADER_LENGTH (Z.to_nat n * 4) (options b) ;;
  (* [payload_mut()] is [data[self.ihl().get() as usize * 4..]] *)
  n <- Ipv4.ihl d ;;
  copy_from_slice_from d (Z.to_nat n * 4) (payload b).
End Ipv4Builder.

Module TcpBuilder.
Record TcpBuilder : Type := {
  src_port : option Z; dst_port : option Z; seq_num : option Z; ack_num : option Z;
  data_offset : option Z; flags : option Z; window_size : option Z; checksum : option Z;
  urgent_pointer : option Z; options : list byte; payload : list byte }.

Definition with_payload (p : list byte) : TcpBuilder :=
  {| src_port := None; dst_port := None; seq_num := None; ack_num := None;
     data_offset := None; flags := None; window_size := None; checksum := None;
     urgent_pointer := None; options := []; payload := p |}.

(** [TcpBuilder::build]; [TcpFlags::default()] is the empty set, 0. *)
Definition build (b : TcpBuilder) : option (list byte) :=
  let data_offset := unwrap_or (data_offset b) (as_u8 (length (options b)) / 4 + 5) in
  let data := repeat x00 (Z.to_nat data_offset * 4 + length (payload b)) in
  d <- write_field Tcp.PortSpec true u16_target data 0 2 (unwrap_or (src_port b) 0) ;;
  d <- write_field Tcp.PortSpec true u16_target d 2 4 (unwrap_or (dst_port b) 0) ;;
  d <- write_field Tcp.SeqNumSpec true u32_target d 4 8 (unwrap_or (seq_num b) 0) ;;
  d <- write_field Tcp.AckNumSpec true u32_target d 8 12 (unwrap_or (ack_num b) 0) ;;
  d <- write_field Tcp.DataOffsetSpec true u8_target d 12 13 data_offset ;;
  d <- write_field Tcp.FlagsSpec true u8_target d 13 14 (unwrap_or (flags b) 0) ;;
  d <- write_field Tcp.WindowSizeSpec true u16_target d 14 16 (unwrap_or (window_size b) 64) ;;
  d <- write_field Tcp.ChecksumSpec true u16_target d 16 18 (unwrap_or (checksum b) 0) ;;
  d <- write_field Tcp.UrgentPointerSpec true u16_target d 18 20 (unwrap_or (urgent_pointer b) 0) ;;
  n <- Tcp.data_offset d ;;
  d <- copy_from_slice d Tcp.MIN_HEADER_LENGTH (Z.to_nat n * 4) (options b) ;;
  n <- Tcp.data_offset d ;;
  copy_from_slice_from d (Z.to_nat n * 4) (payload b).
End TcpBuilder.

Module UdpBuilder.
Record UdpBuilder : Type := {
  src_port : option Z; dst_port : option Z; length : option Z; checksum : option Z;
  payload : list byte }.

(** [UdpBuilder::build] *)
Definition build (b : UdpBuilder) : option (list byte) :=
  dflt <- add_u16 (Z.of_nat Udp.MIN_HEADER_LENGTH) (as_u16 (List.length (payload b))) ;;
  let len := unwrap_or (length b) dflt in
  let data := repeat x00 (Z.to_nat len) in
  d <- write_field Udp.PortSpec true u16_target data 0 2 (unwrap_or (src_port b) 0) ;;
  d <- write_field Udp.PortSpec true u16_target d 2 4 (unwrap_or (dst_port b) 0) ;;
  d <- write_field Udp.LengthSpec true u16_target d 4 6 len ;;
  d <- write_field Udp.ChecksumSpec true u16_target d 6 8 (unwrap_or (checksum b) 0) ;;
  copy_from_slice_from d 8 (payload b).
End UdpBuilder.

Module EthBuilder.
Record EthBuilder : Type := {
  src : option (list byte); dst : option (list byte); eth_type : option EthType;
  payload : list byte }.

(** [EthBuilder::build]; [EthAddr::default()] is six zero bytes and
    [EthType::default()] is [Reserved(0xFFFF)]. *)
Definition build (b : EthBuilder) : option (list byte) :=
  let len := (Eth.MIN_HEADER_LENGTH + length (payload b))%nat in
  let data := repeat x00 len in
  d <- write_field Eth.EthAddrSpec true (same_target _) data 6 12 (unwrap_or (src b) (repeat x00 6)) ;;
  d <- write_field Eth.EthAddrSpec true (same_target _) d 0 6 (unwrap_or (dst b) (repeat x00 6)) ;;
  d <- write_field Eth.EthTypeSpec true eth_type_target d 12 14
         (unwrap_or (eth_type b) (EthType_Reserved 0xFFFF)) ;;
  copy_from_slice_from d 14 (payload b).
End EthBuilder.

(* ------------------------------------------------------------------ *)
(** ** What the builders produce *)

Lemma fast_uint_roundtrip w msb v x :
  (w <= 8)%nat -> 0 <= x < 2 ^ (Z.of_nat w * 8) ->
  get (FieldSpec (UInt w) u64_max 0) msb (same_target (UInt w))
    (of_bytes (UInt w) (to_bytes (UInt w)
      (set (FieldSpec (UInt w) u64_max 0) msb (same_target (UInt w)) v x))) = x.
Proof.
  intros Hw Hx. unfold get, set, raw, fast_path. cbn [fs_mask fs_shift fs_kind].
  rewrite Z.eqb_refl. cbn [andb Z.eqb from_underlay into_underlay same_target of_bytes to_bytes].
  rewrite le_combine_split, Z.mod_small.
  - apply (normalized_to (UInt w)); assumption.
  - destruct msb; [apply swap_bytes_range | exact Hx].
Qed.

Lemma ipv4_byte0_ihl v : 0 <= v <= 15 ->
  get IhlSpec true u8_target (of_bytes (UInt 1) (to_bytes (UInt 1)
    (set IhlSpec true u8_target (of_bytes (UInt 1) (to_bytes (UInt 1)
      (set Ipv4.VersionSpec true u8_target (of_bytes (UInt 1) [x00]) 4))) v))) = v.
Proof.
  intros H.
  assert (v = 0 \/ v = 1 \/ v = 2 \/ v = 3 \/ v = 4 \/ v = 5 \/ v = 6 \/ v = 7 \/ v = 8 \/
          v = 9 \/ v = 10 \/ v = 11 \/ v = 12 \/ v = 13 \/ v = 14 \/ v = 15) as C by lia.
  repeat destruct C as [C|C]; subst v; reflexivity.
Qed.

Ltac wstep :=
  match goal with
  | |- context [bind (write_field ?F ?m ?t ?d ?a ?b ?x) _] =>
      let d' := fresh "d" in let E := fresh "E" in
      destruct (write_field_some F m t d a b x) as [d' E]; [len_simpl; lia|];
      rewrite E; cbn [bind];
      let L := fresh "L" in let S := fresh "S" in let B := fresh "B" in
      let A := fresh "A" in let P := fresh "P" in
      destruct (write_field_frame _ _ _ _ _ _ _ _ _ _ eq_refl E) as (L & S & B & A & P);
      clear E
  end.

Lemma ipv4_build_ok (b : Ipv4Builder.Ipv4Builder) :
  Ipv4Builder.ihl b = None -> Ipv4Builder.total_length b = None ->
  (length (Ipv4Builder.options b) mod 4 = 0)%nat -> (length (Ipv4Builder.options b) <= 40)%nat ->
  Z.of_nat (20 + length (Ipv4Builder.options b) + length (Ipv4Builder.payload b)) < 2 ^ 16 ->
  exists d, Ipv4Builder.build b = Some d /\
    length d = (20 + length (Ipv4Builder.options b) + length (Ipv4Builder.payload b))%nat /\
    Ipv4.ihl d = Some (Z.of_nat (length (Ipv4Builder.options b) / 4) + 5) /\
    Ipv4.total_length d =
      Some (Z.of_nat (20 + length (Ipv4Builder.options b) + length (Ipv4Builder.payload b))) /\
    (Ipv4Builder.ttl b = None -> Ipv4.ttl d = Some 64) /\
    (Ipv4Builder.protocol b = None -> Ipv4.protocol d = Some (IpProtocol_Reserved 255)) /\
    slice d 20 (20 + length (Ipv4Builder.options b)) = Some (Ipv4Builder.options b) /\
    slice_from d (20 + length (Ipv4Builder.options b)) = Some (Ipv4Builder.payload b).
Proof.
  intros Hi Ht Hm Ho Hp.
  set (k := (length (Ipv4Builder.options b) / 4)%nat).
  assert (Hk : length (Ipv4Builder.options b) = (4 * k)%nat).
  { pose proof (Nat.div_mod_eq (length (Ipv4Builder.options b)) 4) as D.
    rewrite Hm in D. subst k. lia. }
  set (N := (20 + length (Ipv4Builder.options b) + length (Ipv4Builder.payload b))%nat).
  unfold Ipv4Builder.build. rewrite Hi, Ht. cbn [unwrap_or].
  assert (Eihl : as_u8 (length (Ipv4Builder.options b)) / 4 + 5 = Z.of_nat k + 5).
  { unfold as_u8. rewrite Hk, Z.mod_small by lia. rewrite Nat2Z.inj_mul.
    rewrite Z.mul_comm, Z.div_mul by lia. reflexivity. }
  rewrite Eihl.
  assert (Elen : add_u16 ((Z.of_nat k + 5) * 4) (as_u16 (length (Ipv4Builder.payload b))) = Some (Z.of_nat N)).
  { unfold add_u16, as_u16. rewrite Z.mod_small by lia.
    destruct (Z.ltb_spec ((Z.of_nat k + 5) * 4 + Z.of_nat (length (Ipv4Builder.payload b))) (2 ^ 16)); [|lia].
    f_equal. subst N. lia. }
  rewrite Elen. cbn [bind unwrap_or]. rewrite Nat2Z.id.
  do 13 wstep.
  assert (I1 : Ipv4.ihl d11 = Some (Z.of_nat k + 5)).
  { unfold Ipv4.ihl, read_field. slice_simpl. cbn [Nat.sub repeat]. f_equal. apply ipv4_byte0_ihl. lia. }
  rewrite I1. cbn [bind]. unfold Ipv4.MIN_HEADER_LENGTH.
  replace (Z.to_nat (Z.of_nat k + 5) * 4)%nat with (20 + length (Ipv4Builder.options b))%nat by lia.
  destruct (copy_from_slice_some d11 20 (20 + length (Ipv4Builder.options b)) (Ipv4Builder.options b))
    as [d12 E12]; [len_simpl; lia | lia |].
  rewrite E12. cbn [bind].
  destruct (copy_from_slice_frame _ _ _ _ _ E12) as (L12 & S12 & B12 & A12 & P12). clear E12.
  assert (I2 : Ipv4.ihl d12 = Some (Z.of_nat k + 5))
    by (unfold Ipv4.ihl, read_field; rewrite B12 by lia; exact I1).
  rewrite I2. cbn [bind].
  replace (Z.to_nat (Z.of_nat k + 5) * 4)%nat with (20 + length (Ipv4Builder.options b))%nat by lia.
  destruct (copy_from_slice_from_some d12 (20 + length (Ipv4Builder.options b)) (Ipv4Builder.payload b))
    as [d13 E13]; [len_simpl; lia | len_simpl; lia |].
  rewrite E13.
  destruct (copy_from_slice_from_frame _ _ _ _ E13) as (L13 & P13 & B13). clear E13.
  exists d13. split; [reflexivity|].
  repeat split.
  - len_simpl. reflexivity.
  - unfold Ipv4.ihl, read_field. rewrite B13 by lia. exact I2.
  - unfold Ipv4.total_length, read_field. slice_simpl. cbn [Nat.sub repeat]. f_equal.
    apply (fast_uint_roundtrip 2); [lia | subst N; simpl; lia].
  - intros Ht'. unfold Ipv4.ttl, read_field. slice_simpl. rewrite Ht'. reflexivity.
  - intros Hp'. unfold Ipv4.protocol, read_field. slice_simpl. rewrite Hp'. reflexivity.
  - rewrite B13 by lia. exact S12.
  - exact P13.
Qed.

Lemma write_field_frame_len (F : field_spec) msb {T} (tg : target (fs_kind F) T) d a b x d' :
  (forall bs, length (to_bytes _ (set F msb tg (of_bytes _ bs) x)) = (b - a)%nat) ->
  write_field F msb tg d a b x = Some d' ->
  length d' = length d /\
  slice d' a b = option_map (fun bs => to_bytes _ (set F msb tg (of_bytes _ bs) x)) (slice d a b) /\
  (forall a' b', (a' <= b' <= a)%nat -> slice d' a' b' = slice d a' b') /\
  (forall a' b', (b <= a' <= b')%nat -> slice d' a' b' = slice d a' b') /\
  (forall a', (b <= a')%nat -> slice_from d' a' = slice_from d a').
Proof.
  intros Hl. unfold write_field. destruct (slice d a b) as [bs|] eqn:S; [|discriminate].
  simpl. intros E. inversion E as [E']; clear E.
  pose proof (slice_some _ _ _ _ S) as R. specialize (Hl bs).
  repeat split.
  - apply length_splice; assumption.
  - apply slice_splice_same; assumption.
  - intros; apply slice_splice_before; (assumption || lia).
  - intros; apply slice_splice_after; (assumption || lia).
  - intros; apply slice_from_splice_after; (assumption || lia).
Qed.

Lemma tcp_byte12_data_offset v : 0 <= v <= 15 ->
  get Tcp.DataOffsetSpec true u8_target (of_bytes (UInt 1) (to_bytes (UInt 1)
    (set Tcp.DataOffsetSpec true u8_target (of_bytes (UInt 1) [x00]) v))) = v.
Proof.
  intros H.
  assert (v = 0 \/ v = 1 \/ v = 2 \/ v = 3 \/ v = 4 \/ v = 5 \/ v = 6 \/ v = 7 \/ v = 8 \/
          v = 9 \/ v = 10 \/ v = 11 \/ v = 12 \/ v = 13 \/ v = 14 \/ v = 15) as C by lia.
  repeat destruct C as [C|C]; subst v; reflexivity.
Qed.

Lemma tcp_build_ok (b : TcpBuilder.TcpBuilder) :
  TcpBuilder.data_offset b = None ->
  (length (TcpBuilder.options b) mod 4 = 0)%nat -> (length (TcpBuilder.options b) <= 40)%nat ->
  exists d, TcpBuilder.build b = Some d /\
    length d = (20 + length (TcpBuilder.options b) + length (TcpBuilder.payload b))%nat /\
    Tcp.data_offset d = Some (Z.of_nat (length (TcpBuilder.options b) / 4) + 5) /\
    (TcpBuilder.window_size b = None -> Tcp.window_size d = Some 64) /\
    (TcpBuilder.flags b = None -> Tcp.flags d = Some 0) /\
    Tcp.options d = Some (TcpBuilder.options b) /\
    Tcp.payload d = Some (TcpBuilder.payload b).
Proof.
  intros Hd Hm Ho.
  set (k := (length (TcpBuilder.options b) / 4)%nat).
  assert (Hk : length (TcpBuilder.options b) = (4 * k)%nat).
  { pose proof (Nat.div_mod_eq (length (TcpBuilder.options b)) 4) as D.
    rewrite Hm in D. subst k. lia. }
  unfold TcpBuilder.build. rewrite Hd. cbn [unwrap_or].
  assert (Edo : as_u8 (length (TcpBuilder.options b)) / 4 + 5 = Z.of_nat k + 5).
  { unfold as_u8. rewrite Hk, Z.mod_small by lia. rewrite Nat2Z.inj_mul.
    rewrite Z.mul_comm, Z.div_mul by lia. reflexivity. }
  rewrite Edo.
  replace (Z.to_nat (Z.of_nat k + 5) * 4)%nat with (20 + length (TcpBuilder.options b))%nat by lia.
  do 9 wstep.
  assert (I1 : Tcp.data_offset d7 = Some (Z.of_nat k + 5)).
  { unfold Tcp.data_offset, read_field. slice_simpl. cbn [Nat.sub repeat]. f_equal.
    apply tcp_byte12_data_offset. lia. }
  rewrite I1. cbn [bind]. unfold Tcp.MIN_HEADER_LENGTH.
  replace (Z.to_nat (Z.of_nat k + 5) * 4)%nat with (20 + length (TcpBuilder.options b))%nat by lia.
  destruct (copy_from_slice_some d7 20 (20 + length (TcpBuilder.options b)) (TcpBuilder.options b))
    as [d8 E8]; [len_simpl; lia | lia |].
  rewrite E8. cbn [bind].
  destruct (copy_from_slice_frame _ _ _ _ _ E8) as (L8 & S8 & B8 & A8 & P8). clear E8.
  assert (I2 : Tcp.data_offset d8 = Some (Z.of_nat k + 5))
    by (unfold Tcp.data_offset, read_field; rewrite B8 by lia; exact I1).
  rewrite I2. cbn [bind].
  replace (Z.to_nat (Z.of_nat k + 5) * 4)%nat with (20 + length (TcpBuilder.options b))%nat by lia.
  destruct (copy_from_slice_from_some d8 (20 + length (TcpBuilder.options b)) (TcpBuilder.payload b))
    as [d9 E9]; [len_simpl; lia | len_simpl; lia |].
  rewrite E9.
  destruct (copy_from_slice_from_frame _ _ _ _ E9) as (L9 & P9 & B9). clear E9.
  assert (I3 : Tcp.data_offset d9 = Some (Z.of_nat k + 5))
    by (unfold Tcp.data_offset, read_field; rewrite B9 by lia; exact I2).
  exists d9. split; [reflexivity|].
  repeat split.
  - len_simpl. lia.
  - exact I3.
  - intros Hw'. unfold Tcp.window_size, read_field. slice_simpl. rewrite Hw'. reflexivity.
  - intros Hf'. unfold Tcp.flags, read_field. slice_simpl. rewrite Hf'. reflexivity.
  - unfold Tcp.options. rewrite I3. cbn [bind]. unfold Tcp.MIN_HEADER_LENGTH.
    replace (Z.to_nat (Z.of_nat k + 5) * 4)%nat with (20 + length (TcpBuilder.options b))%nat by lia.
    rewrite B9 by lia. exact S8.
  - unfold Tcp.payload. rewrite I3. cbn [bind].
    replace (Z.to_nat (Z.of_nat k + 5) * 4)%nat with (20 + length (TcpBuilder.options b))%nat by lia.
    exact P9.
Qed.

Lemma udp_build_ok (b : UdpBuilder.UdpBuilder) :
  UdpBuilder.length b = None -> Z.of_nat (8 + length (UdpBuilder.payload b)) < 2 ^ 16 ->
  exists d, UdpBuilder.build b = Some d /\
    length d = (8 + length (UdpBuilder.payload b))%nat /\
    Udp.length_ d = Some (Z.of_nat (8 + length (UdpBuilder.payload b))) /\
    Udp.payload d = Some (UdpBuilder.payload b).
Proof.
  intros Hl Hp. unfold UdpBuilder.build. rewrite Hl.
  assert (Elen : add_u16 (Z.of_nat Udp.MIN_HEADER_LENGTH) (as_u16 (length (UdpBuilder.payload b)))
                 = Some (Z.of_nat (8 + length (UdpBuilder.payload b)))).
  { unfold add_u16, as_u16, Udp.MIN_HEADER_LENGTH. rewrite Z.mod_small by lia.
    destruct (Z.ltb_spec (Z.of_nat 8 + Z.of_nat (length (UdpBuilder.payload b))) (2 ^ 16)); [|lia].
    f_equal. lia. }
  rewrite Elen. cbn [bind unwrap_or]. rewrite Nat2Z.id.
  do 4 wstep.
  destruct (copy_from_slice_from_some d2 8 (UdpBuilder.payload b)) as [d3 E3];
    [len_simpl; lia | len_simpl; lia |].
  rewrite E3.
  destruct (copy_from_slice_from_frame _ _ _ _ E3) as (L3 & P3 & B3). clear E3.
  exists d3. split; [reflexivity|]. repeat split.
  - len_simpl. reflexivity.
  - unfold Udp.length_, read_field. rewrite B3 by lia. slice_simpl. cbn [Nat.sub repeat]. f_equal.
    apply (fast_uint_roundtrip 2); [lia | simpl; lia].
  - exact P3.
Qed.

Lemma eth_build_ok (b : EthBuilder.EthBuilder) :
  (forall a, EthBuilder.src b = Some a -> length a = 6%nat) ->
  (forall a, EthBuilder.dst b = Some a -> length a = 6%nat) ->
  exists d, EthBuilder.build b = Some d /\
    length d = (14 + length (EthBuilder.payload b))%nat /\
    (EthBuilder.eth_type b = None -> Eth.eth_type d = Some (EthType_Reserved 0xFFFF)) /\
    Eth.payload d = Some (EthBuilder.payload b).
Proof.
  intros Hs Hd. unfold EthBuilder.build, Eth.MIN_HEADER_LENGTH.
  assert (Ls : length (unwrap_or (EthBuilder.src b) (repeat x00 6)) = 6%nat)
    by (destruct (EthBuilder.src b) eqn:E; [apply Hs; reflexivity | reflexivity]).
  assert (Ld : length (unwrap_or (EthBuilder.dst b) (repeat x00 6)) = 6%nat)
    by (destruct (EthBuilder.dst b) eqn:E; [apply Hd; reflexivity | reflexivity]).
  destruct (write_field_some Eth.EthAddrSpec true (same_target _) (repeat x00 (14 + length (EthBuilder.payload b)))
    6 12 (unwrap_or (EthBuilder.src b) (repeat x00 6))) as [d0 E0]; [len_simpl; lia|].
  rewrite E0. cbn [bind].
  assert (H0 : forall bs, length (to_bytes (fs_kind Eth.EthAddrSpec) (set Eth.EthAddrSpec true
    (same_target _) (of_bytes _ bs) (unwrap_or (EthBuilder.src b) (repeat x00 6)))) = (12 - 6)%nat)
    by (intros; exact Ls).
  destruct (write_field_frame_len _ _ _ _ _ _ _ _ H0 E0) as (L0 & S0 & B0 & A0 & P0). clear E0.
  destruct (write_field_some Eth.EthAddrSpec true (same_target _) d0
    0 6 (unwrap_or (EthBuilder.dst b) (repeat x00 6))) as [d1 E1]; [len_simpl; lia|].
  rewrite E1. cbn [bind].
  assert (H1 : forall bs, length (to_bytes (fs_kind Eth.EthAddrSpec) (set Eth.EthAddrSpec true
    (same_target _) (of_bytes _ bs) (unwrap_or (EthBuilder.dst b) (repeat x00 6)))) = (6 - 0)%nat)
    by (intros; exact Ld).
  destruct (write_field_frame_len _ _ _ _ _ _ _ _ H1 E1) as (L1 & S1 & B1 & A1 & P1). clear E1.
  wstep.
  match goal with |- context [copy_from_slice_from ?dd 14 _] =>
    destruct (copy_from_slice_from_some dd 14 (EthBuilder.payload b)) as [d3 E3];
    [len_simpl; lia | len_simpl; lia |] end.
  rewrite E3.
  destruct (copy_from_slice_from_frame _ _ _ _ E3) as (L3 & P3 & B3). clear E3.
  exists d3. split; [reflexivity|]. repeat split.
  - len_simpl. reflexivity.
  - intros He'. unfold Eth.eth_type, read_field. rewrite B3 by lia. slice_simpl. rewrite He'.
    reflexivity.
  - exact P3.
Qed.

(* ------------------------------------------------------------------ *)
(** ** DNS names, labels and questions *)

(** [str::split(char)] on the UTF-8 bytes of a [&str]: the piece being
    scanned, then the pieces after it.  A one-byte ASCII separator never
    occurs inside a multi-byte UTF-8 sequence, so splitting the bytes is
    splitting the string. *)
Fixpoint split_aux (c : byte) (s : list byte) : list byte * list (list byte) :=
  match s with
  | [] => ([], [])
  | x :: r =>
      let '(w, ws) := split_aux c r in
      if Byte.eqb x c then ([], w :: ws) else (x :: w, ws)
  end.

Definition str_split (c : byte) (s : list byte) : list (list byte) :=
  let '(w, ws) := split_aux c s in w :: ws.

(** Decimal rendering of an integer, as [write!(f, "{}", n)] does for the
    [u16] of a compression pointer (at most five digits). *)
Fixpoint dec_digits (fuel : nat) (n : Z) (acc : list byte) : list byte :=
  match fuel with
  | O => acc
  | S f =>
      let acc' := byte.of_Z (48 + n mod 10) :: acc in
      if n <? 10 then acc' else dec_digits f (n / 10) acc'
  end.
Definition fmt_u16 (n : Z) : list byte := dec_digits 5 n [].

(** [==] on byte strings. *)
Fixpoint bytes_eqb (a b : list byte) : bool :=
  match a, b with
  | [], [] => true
  | x :: a', y :: b' => Byte.eqb x y && bytes_eqb a' b'
  | _, _ => false
  end.

(** [a - b] on [usize]: panics on underflow. *)
Definition sub_usize (a b : nat) : option nat :=
  if (b <=? a)%nat then Some (a - b)%nat else None.

Module DnsLabel.
Definition TypeSpec := FieldSpec (UInt 1) 0xC0 6.
Definition LenSpec := FieldSpec (UInt 1) 0x3F 0.
Definition OffsetSpec := FieldSpec (UInt 2) 0x3FFF 0.

(** [self.type_()], over [&data[0..1]]. *)
Definition type_ (data : list byte) : option Z := read_field TypeSpec true u8_target data 0 1.
(** [*self.type_() == 0] *)
Definition is_normal (data : list byte) : option bool :=
  t <- type_ data ;; Some (t =? 0).
(** [*self.type_() == 0x03] *)
Definition is_compressed (data : list byte) : option bool :=
  t <- type_ data ;; Some (t =? 3).
(** [len()]: the [LenSpec] field over [&data[0..1]] of a normal label. *)
Definition len (data : list byte) : option (option Z) :=
  n <- is_normal data ;;
  if n then option_map Some (read_field LenSpec true u8_target data 0 1) else Some None.
(** [offset()]: the [OffsetSpec] field over [&data[0..2]] of a compressed label. *)
Definition offset (data : list byte) : option (option Z) :=
  c <- is_compressed data ;;
  if c then option_map Some (read_field OffsetSpec true u16_target data 0 2) else Some None.
(** [label()]: [&data[1..1 + data[0] as usize]] of a normal label. *)
Definition label (data : list byte) : option (option (list byte)) :=
  n <- is_normal data ;;
  if n then
    l0 <- nth_error data 0 ;;
    l <- slice data 1 (1 + Z.to_nat (byte.unsigned l0))%nat ;;
    Some (Some l)
  else Some None.
(** [as_str()]: the same bytes, read as a [&str] without validation. *)
Definition as_str (data : list byte) : option (option (list byte)) := label data.
(** [impl PartialEq<str> for DnsLabel]: [label() == Some(other)]. *)
Definition eq (data other : list byte) : option bool :=
  l <- label data ;;
  Some (match l with Some l => bytes_eqb l other | None => false end).
End DnsLabel.

Module DnsName.
(** [impl From<&str> for DnsName<Vec<u8>>]: each piece of [name.split('.')]
    pushed as [label.len() as u8] followed by its bytes, then a [0]. *)
Definition from (name : list byte) : list byte :=
  let data := fold_left
    (fun data label => data ++ [byte.of_Z (as_u8 (length label))] ++ label)
    (str_split "."%byte name) [] in
  data ++ [x00].

(** [DnsNameLabelIter::next] at [self.offset]: [Some None] when it
    returns [None], [Some (Some (label, offset'))] when it yields a label,
    [None] when it panics. *)
Definition next (data : list byte) (offset : nat) : option (option (list byte * nat)) :=
  if (length data <=? offset)%nat then Some None
  else
    let len := Z.to_nat (byte.unsigned (nth offset data x00)) in
    label <- slice data offset (offset + len + 1)%nat ;;
    Some (Some (label, (offset + len + 1)%nat)).

(** Running the iterator from [offset]; every step moves the offset
    forward, so [S (length data)] steps reach the end. *)
Fixpoint labels_from (fuel : nat) (data : list byte) (offset : nat) : option (list (list byte)) :=
  match fuel with
  | O => Some []
  | S f =>
      r <- next data offset ;;
      match r with
      | None => Some []
      | Some (label, offset') =>
          rest <- labels_from f data offset' ;; Some (label :: rest)
      end
  end.

(** [name.labels().collect()] *)
Definition labels (data : list byte) : option (list (list byte)) :=
  labels_from (S (length data)) data 0.

(** The body of the [for label in self.labels()] loop of [Display::fmt]. *)
Definition fmt_label (label : list byte) : option (list byte) :=
  n <- DnsLabel.is_normal label ;;
  if n then
    ln <- DnsLabel.len label ;; ln <- ln ;;
    if 0 <? ln then s <- DnsLabel.as_str label ;; s <- s ;; Some (s ++ ["."%byte])
    else Some []
  else
    o <- DnsLabel.offset label ;; o <- o ;;
    Some (list_byte_of_string "PTR(" ++ fmt_u16 o ++ [")"%byte]).

Fixpoint fmt_from (fuel : nat) (data : list byte) (offset : nat) : option (list byte) :=
  match fuel with
  | O => Some []
  | S f =>
      r <- next data offset ;;
      match r with
      | None => Some []
      | Some (label, offset') =>
          s <- fmt_label label ;; rest <- fmt_from f data offset' ;; Some (s ++ rest)
      end
  end.

(** [impl Display for DnsName]: the bytes written, or [None] on a panic. *)
Definition fmt (data : list byte) : option (list byte) := fmt_from (S (length data)) data 0.

(** [impl PartialEq<str> for DnsName]:
    [labels == other || labels[..labels.len() - 1] == *other] with
    [labels = self.to_string()]; [None] where it panics.  A non-empty
    rendering ends in '.' or ')', so the slice ends on a character
    boundary; the subtraction underflows on an empty rendering. *)
Definition eq (data other : list byte) : option bool :=
  labels <- fmt data ;;
  if bytes_eqb labels other then Some true
  else n <- sub_usize (length labels) 1 ;; Some (bytes_eqb (firstn n labels) other).
End DnsName.

Module DnsQuestion.
Inductive DnsQuestionError := NoRootLabelFound.
Record DnsQuestion : Type := mk { data : list byte; name_len : nat }.
(** [QtypeSpec] and [QclassSpec] are [u16] fields; their targets
    [DnsRrType] and [DnsClass] are read here as the raw [u16]. *)
Definition QtypeSpec := FieldSpec (UInt 2) u64_max 0.
Definition QclassSpec := FieldSpec (UInt 2) u64_max 0.

(** [data.iter().position(|&x| x == 0)] *)
Fixpoint position_zero (l : list byte) : option nat :=
  match l with
  | [] => None
  | x :: r => if Byte.eqb x x00 then Some O else option_map S (position_zero r)
  end.

(** [DnsQuestion::new] *)
Definition new (data : list byte) : result DnsQuestion DnsQuestionError :=
  match position_zero data with
  | Some name_len => Ok (mk data name_len)
  | None => Err NoRootLabelFound
  end.

(** [DnsQuestion::len] *)
Definition len (q : DnsQuestion) : nat := (name_len q + 4)%nat.

Definition qname (q : DnsQuestion) := slice (data q) 0 (S (name_len q)).
Definition qtype (q : DnsQuestion) :=
  read_field QtypeSpec true u16_target (data q) (name_len q + 1)%nat (name_len q + 3)%nat.
Definition qclass (q : DnsQuestion) :=
  read_field QclassSpec true u16_target (data q) (name_len q + 3)%nat (name_len q + 5)%nat.

(** [DnsQuestionIter::next] over the DNS message [dns], whose header
    holds [qdcount] at bytes 4..6: the question and the new
    [(offset, current)], [Some None] when it returns [None], [None] on a panic. *)
Definition QdcountSpec := FieldSpec (UInt 2) u64_max 0.
Definition iter_next (dns : list byte) (offset current : nat)
  : option (option (DnsQuestion * nat * nat)) :=
  if (length dns <=? offset)%nat then Some None
  else
    qdcount <- read_field QdcountSpec true u16_target dns 4 6 ;;
    if (qdcount <=? Z.of_nat current) then Some None
    else
      rest <- slice_from dns offset ;;
      match result_ok (new rest) with
      | None => Some None
      | Some q => Some (Some (q, (offset + len q)%nat, S current))
      end.
End DnsQuestion.

Module DnsQuestionBuilder.
(** The query type and class are carried by their [u16] codes
    ([DnsRrType] and [DnsClass] convert to them with [into]). *)
Record DnsQuestionBuilder : Type := {
  qname : option (list byte); qtype : option Z; qclass : option Z }.

(** [DnsQuestionBuilder::build]; [DnsRrType::A] is 1 and
    [DnsClass::Internet] is 1. *)
Definition build (b : DnsQuestionBuilder) : option DnsQuestion.DnsQuestion :=
  let qname := DnsName.from (unwrap_or (qname b) []) in
  let qtype := unwrap_or (qtype b) 1 in
  let qclass := unwrap_or (qclass b) 1 in
  let data := qname in
  let len := length data in
  (* [data.resize(data.len() + 4, 0)] *)
  let data := data ++ repeat x00 4 in
  name_len <- sub_usize len 1 ;;
  d <- write_field DnsQuestion.QtypeSpec true u16_target data
         (name_len + 1)%nat (name_len + 3)%nat qtype ;;
  d <- write_field DnsQuestion.QclassSpec true u16_target d
         (name_len + 3)%nat (name_len + 5)%nat qclass ;;
  Some (DnsQuestion.mk d name_len).
End DnsQuestionBuilder.

(* ------------------------------------------------------------------ *)
(** ** The DNS header *)

(** [impl Target<u8> for bool]: nonzero is [true]; [true] is 1. *)
Definition bool_target : target (UInt 1) bool :=
  @Target (UInt 1) bool (fun x => negb (x =? 0)) (fun b => if b then 1 else 0).

(** [DnsOpCode], [#[repr(u8)]] with [#[num_enum(catch_all)] Unassigned(u8)]. *)
Inductive DnsOpCode : Type :=
| DnsOpCode_Query | DnsOpCode_IQuery | DnsOpCode_Status | DnsOpCode_Notify
| DnsOpCode_Update | DnsOpCode_DSO | DnsOpCode_Unassigned (n : Z).

(** [DnsOpCode::from_primitive] *)
Definition DnsOpCode_from (n : Z) : DnsOpCode :=
  if n =? 0 then DnsOpCode_Query
  else if n =? 1 then DnsOpCode_IQuery
  else if n =? 2 then DnsOpCode_Status
  else if n =? 4 then DnsOpCode_Notify
  else if n =? 5 then DnsOpCode_Update
  else if n =? 6 then DnsOpCode_DSO
  else DnsOpCode_Unassigned n.

(** [u8::from(DnsOpCode)] *)
Definition DnsOpCode_into (c : DnsOpCode) : Z :=
  match c with
  | DnsOpCode_Query => 0 | DnsOpCode_IQuery => 1 | DnsOpCode_Status => 2
  | DnsOpCode_Notify => 4 | DnsOpCode_Update => 5 | DnsOpCode_DSO => 6
  | DnsOpCode_Unassigned n => n
  end.

(** [impl_target!(frominto, DnsOpCode, u8)] *)
Definition opcode_target : target (UInt 1) DnsOpCode :=
  @Target (UInt 1) DnsOpCode DnsOpCode_from DnsOpCode_into.

(** [DnsRCode], [#[repr(u16)]] with [#[num_enum(catch_all)] Unassigned(u16)]
    and [Reserved = 65535]. *)
Inductive DnsRCode : Type :=
| DnsRCode_NoError | DnsRCode_FormErr | DnsRCode_ServFail | DnsRCode_NXDomain
| DnsRCode_NotImp | DnsRCode_Refused | DnsRCode_YXDomain | DnsRCode_YXRRSet
| DnsRCode_NXRRSet | DnsRCode_NotAuth | DnsRCode_NotZone | DnsRCode_DSOTYPENI
| DnsRCode_BADVERS_BADSIG | DnsRCode_BADKEY | DnsRCode_BADTIME | DnsRCode_BADMODE
| DnsRCode_BADNAME | DnsRCode_BADALG | DnsRCode_BADTRUNC | DnsRCode_BADCOOKIE
| DnsRCode_Unassigned (n : Z) | DnsRCode_Reserved.

(** [DnsRCode::from_primitive] on a [u16] *)
Definition DnsRCode_from_u16 (n : Z) : DnsRCode :=
  if n =? 0 then DnsRCode_NoError
  else if n =? 1 then DnsRCode_FormErr
  else if n =? 2 then DnsRCode_ServFail
  else if n =? 3 then DnsRCode_NXDomain
  else if n =? 4 then DnsRCode_NotImp
  else if n =? 5 then DnsRCode_Refused
  else if n =? 6 then DnsRCode_YXDomain
  else if n =? 7 then DnsRCode_YXRRSet
  else if n =? 8 then DnsRCode_NXRRSet
  else if n =? 9 then DnsRCode_NotAuth
  else if n =? 10 then DnsRCode_NotZone
  else if n =? 11 then DnsRCode_DSOTYPENI
  else if n =? 16 then DnsRCode_BADVERS_BADSIG
  else if n =? 17 then DnsRCode_BADKEY
  else if n =? 18 then DnsRCode_BADTIME
  else if n =? 19 then DnsRCode_BADMODE
  else if n =? 20 then DnsRCode_BADNAME
  else if n =? 21 then DnsRCode_BADALG
  else if n =? 22 then DnsRCode_BADTRUNC
  else if n =? 23 then DnsRCode_BADCOOKIE
  else if n =? 65535 then DnsRCode_Reserved
  else DnsRCode_Unassigned n.

(** [u16::from(DnsRCode)] *)
Definition DnsRCode_into_u16 (c : DnsRCode) : Z :=
  match c with
  | DnsRCode_NoError => 0 | DnsRCode_FormErr => 1 | DnsRCode_ServFail => 2
  | DnsRCode_NXDomain => 3 | DnsRCode_NotImp => 4 | DnsRCode_Refused => 5
  | DnsRCode_YXDomain => 6 | DnsRCode_YXRRSet => 7 | DnsRCode_NXRRSet => 8
  | DnsRCode_NotAuth => 9 | DnsRCode_NotZone => 10 | DnsRCode_DSOTYPENI => 11
  | DnsRCode_BADVERS_BADSIG => 16 | DnsRCode_BADKEY => 17 | DnsRCode_BADTIME => 18
  | DnsRCode_BADMODE => 19 | DnsRCode_BADNAME => 20 | DnsRCode_BADALG => 21
  | DnsRCode_BADTRUNC => 22 | DnsRCode_BADCOOKIE => 23
  | DnsRCode_Unassigned n => n | DnsRCode_Reserved => 65535
  end.

(** [impl From<u8> for DnsRCode]: [DnsRCode::from(value as u16)];
    [impl From<DnsRCode> for u8]: the [u16] code [as u8]. *)
Definition DnsRCode_from_u8 (n : Z) : DnsRCode := DnsRCode_from_u16 n.
Definition DnsRCode_into_u8 (c : DnsRCode) : Z := DnsRCode_into_u16 c mod 2 ^ 8.

(** [impl_target!(frominto, DnsRCode, u8)] *)
Definition rcode_target : target (UInt 1) DnsRCode :=
  @Target (UInt 1) DnsRCode DnsRCode_from_u8 DnsRCode_into_u8.

Module Dns.
Definition MIN_HEADER_LENGTH : nat := 12.
Inductive DnsError := InvalidLength (n : nat).
Definition IdSpec := FieldSpec (UInt 2) u64_max 0.
Definition QrSpec := FieldSpec (UInt 1) 0x80 7.
Definition OpCodeSpec := FieldSpec (UInt 1) 0x78 3.
Definition AaSpec := FieldSpec (UInt 1) 0x04 2.
Definition TcSpec := FieldSpec (UInt 1) 0x02 1.
Definition RdSpec := FieldSpec (UInt 1) 0x01 0.
Definition RaSpec := FieldSpec (UInt 1) 0x80 7.
Definition ZSpec := FieldSpec (UInt 1) 0x70 4.
Definition RCodeSpec := FieldSpec (UInt 1) 0x0F 0.
Definition CountSpec := FieldSpec (UInt 2) u64_max 0.

(** [Dns::validate]: only the length is checked. *)
Definition validate (data : list byte) : result unit DnsError :=
  if (length data <? 12)%nat then Err (InvalidLength (length data)) else Ok tt.
Definition new (data : list byte) : result (list byte) DnsError :=
  match validate data with Ok _ => Ok data | Err e => Err e end.

Definition id (data : list byte) := read_field IdSpec true u16_target data 0 2.
Definition qr (data : list byte) := read_field QrSpec true bool_target data 2 3.
Definition opcode (data : list byte) := read_field OpCodeSpec true opcode_target data 2 3.
Definition aa (data : list byte) := read_field AaSpec true bool_target data 2 3.
Definition tc (data : list byte) := read_field TcSpec true bool_target data 2 3.
Definition rd (data : list byte) := read_field RdSpec true bool_target data 2 3.
Definition ra (data : list byte) := read_field RaSpec true bool_target data 3 4.
Definition z (data : list byte) := read_field ZSpec true u8_target data 3 4.
Definition rcode (data : list byte) := read_field RCodeSpec true rcode_target data 3 4.
Definition qdcount (data : list byte) := read_field CountSpec true u16_target data 4 6.
Definition ancount (data : list byte) := read_field CountSpec true u16_target data 6 8.
Definition nscount (data : list byte) := read_field CountSpec true u16_target data 8 10.
Definition arcount (data : list byte) := read_field CountSpec true u16_target data 10 12.
End Dns.

Module DnsBuilder.
Record DnsBuilder : Type := {
  id : option Z; qr : option bool; opcode : option DnsOpCode; aa : option bool;
  tc : option bool; rd : option bool; ra : option bool; z : option Z;
  rcode : option DnsRCode; qdcount : option Z; ancount : option Z; nscount : option Z;
  arcount : option Z; questions : list DnsQuestion.DnsQuestion }.

(** [DnsBuilder::build] *)
Definition build (b : DnsBuilder) : option (list byte) :=
  let data := repeat x00 12 in
  d <- write_field Dns.IdSpec true u16_target data 0 2 (unwrap_or (id b) 0) ;;
  d <- write_field Dns.QrSpec true bool_target d 2 3 (unwrap_or (qr b) false) ;;
  d <- write_field Dns.OpCodeSpec true opcode_target d 2 3 (unwrap_or (opcode b) DnsOpCode_Query) ;;
  d <- write_field Dns.AaSpec true bool_target d 2 3 (unwrap_or (aa b) false) ;;
  d <- write_field Dns.TcSpec true bool_target d 2 3 (unwrap_or (tc b) false) ;;
  d <- write_field Dns.RdSpec true bool_target d 2 3 (unwrap_or (rd b) false) ;;
  d <- write_field Dns.RaSpec true bool_target d 3 4 (unwrap_or (ra b) false) ;;
  d <- write_field Dns.ZSpec true u8_target d 3 4 (unwrap_or (z b) 0) ;;
  d <- write_field Dns.RCodeSpec true rcode_target d 3 4 (unwrap_or (rcode b) DnsRCode_NoError) ;;
  d <- write_field Dns.CountSpec true u16_target d 6 8 (unwrap_or (ancount b) 0) ;;
  d <- write_field Dns.CountSpec true u16_target d 8 10 (unwrap_or (nscount b) 0) ;;
  d <- write_field Dns.CountSpec true u16_target d 10 12 (unwrap_or (arcount b) 0) ;;
  let qdcount := unwrap_or (qdcount b) (as_u16 (length (questions b))) in
  d <- write_field Dns.CountSpec true u16_target d 4 6 qdcount ;;
  (* [for question in self.questions.iter().take(qdcount as usize)] *)
  Some (d ++ concat (map DnsQuestion.data (firstn (Z.to_nat qdcount) (questions b)))).
End DnsBuilder.

(* ------------------------------------------------------------------ *)
(** ** Facts about the DNS model *)

(** Bytes pushed for a sequence of pieces: a length byte and the piece. *)
Definition pushed_len (ls : list (list byte)) : nat :=
  fold_right (fun l n => S (length l + n)) O ls.

Lemma split_aux_length c s :
  let '(w, ws) := split_aux c s in (length w + pushed_len ws)%nat = length s.
Proof.
  induction s as [|x r IH]; simpl; [reflexivity|].
  destruct (split_aux c r) as [w ws].
  destruct (Byte.eqb x c); simpl; lia.
Qed.

Lemma str_split_length c s : pushed_len (str_split c s) = S (length s).
Proof.
  unfold str_split. pose proof (split_aux_length c s) as H.
  destruct (split_aux c s) as [w ws]. simpl. lia.
Qed.

Lemma fold_push_length (ls : list (list byte)) (acc : list byte) :
  length (fold_left
    (fun data label => data ++ [byte.of_Z (as_u8 (length label))] ++ label) ls acc)
  = (length acc + pushed_len ls)%nat.
Proof.
  revert acc; induction ls as [|l ls IH]; intros acc; simpl; [lia|].
  rewrite IH, !length_app. simpl. lia.
Qed.

Lemma firstn_1_skipn_nth_error (l : list byte) (o : nat) (x : byte) :
  nth_error l o = Some x -> firstn 1 (skipn o l) = [x].
Proof.
  revert o; induction l as [|y l IH]; intros [|o] H; simpl in *; try discriminate.
  - inversion H; reflexivity.
  - apply IH, H.
Qed.

Lemma dns_next_not_end (data : list byte) (o : nat) :
  (o < length data)%nat -> DnsName.next data o <> Some None.
Proof.
  intros Ho. unfold DnsName.next.
  destruct (Nat.leb_spec (length data) o); [lia|].
  destruct (slice data o _); simpl; discriminate.
Qed.

(* ------------------------------------------------------------------ *)
(** ** DNS names built from strings *)

(** One piece of [DnsName::from]: its length byte and its bytes. *)
Definition enc_label (p : list byte) : list byte := byte.of_Z (as_u8 (length p)) :: p.

(** Concatenation of rendered labels, failing if one of them fails. *)
Fixpoint concat_opt (xs : list (option (list byte))) : option (list byte) :=
  match xs with
  | [] => Some []
  | x :: r => s <- x ;; t <- concat_opt r ;; Some (s ++ t)
  end.

Lemma fold_push_concat (ls : list (list byte)) (acc : list byte) :
  fold_left (fun data label => data ++ [byte.of_Z (as_u8 (length label))] ++ label) ls acc
  = acc ++ concat (map enc_label ls).
Proof.
  revert acc; induction ls as [|l ls IH]; intros acc; simpl; [rewrite app_nil_r; reflexivity|].
  rewrite IH. unfold enc_label. rewrite <- !app_assoc. reflexivity.
Qed.

Lemma dns_from_concat s :
  DnsName.from s = concat (map enc_label (str_split "."%byte s)) ++ [x00].
Proof. unfold DnsName.from. rewrite fold_push_concat. reflexivity. Qed.

Lemma unsigned_of_as_u8 n : (n < 256)%nat -> byte.unsigned (byte.of_Z (as_u8 n)) = Z.of_nat n.
Proof.
  intros H. rewrite byte.unsigned_of_Z. unfold byte.wrap, as_u8.
  rewrite Z.mod_mod by lia. apply Z.mod_small. lia.
Qed.

Lemma slice_app_mid (pre x rest : list byte) :
  slice (pre ++ x ++ rest) (length pre) (length pre + length x) = Some x.
Proof.
  unfold slice. rewrite !length_app.
  replace ((length pre <=? length pre + length x)%nat && (length pre + length x <=? length pre + (length x + length rest))%nat)
    with true by (symmetry; apply andb_true_iff; split; apply Nat.leb_le; lia).
  rewrite skipn_app, skipn_all, Nat.sub_diag. simpl.
  replace (length pre + length x - length pre)%nat with (length x) by lia.
  rewrite firstn_app, firstn_all, Nat.sub_diag. simpl. rewrite app_nil_r. reflexivity.
Qed.

Lemma nth_app_mid (pre rest : list byte) (b d : byte) : nth (length pre) (pre ++ b :: rest) d = b.
Proof. rewrite app_nth2 by lia. rewrite Nat.sub_diag. reflexivity. Qed.

Lemma dns_labels_from_enc ps : forall fuel pre,
  (forall p, In p ps -> (length p < 256)%nat) -> (length ps < fuel)%nat ->
  DnsName.labels_from fuel (pre ++ concat (map enc_label ps) ++ [x00]) (length pre)
  = Some (map enc_label ps ++ [[x00]]).
Proof.
  induction ps as [|p ps IH]; intros fuel pre Hp Hf; (destruct fuel as [|f]; [simpl in Hf; lia|]).
  - simpl. unfold DnsName.next at 1. rewrite length_app. simpl.
    destruct (Nat.leb_spec (length pre + 1) (length pre)); [lia|].
    rewrite nth_app_mid. change (byte.unsigned x00) with 0.
    assert (E : slice (pre ++ [x00]) (length pre) (length pre + Z.to_nat 0 + 1) = Some [x00]).
    { pose proof (slice_app_mid pre [x00] []) as E. rewrite app_nil_r in E.
      replace (length pre + Z.to_nat 0 + 1)%nat with (length pre + length [x00])%nat
        by (simpl; lia). exact E. }
    rewrite E. simpl.
    destruct f as [|f]; [reflexivity|]. simpl. rewrite Nat.add_0_r.
    unfold DnsName.next. rewrite length_app. simpl. rewrite Nat.leb_refl. reflexivity.
  - assert (Hl : (length p < 256)%nat) by (apply Hp; left; reflexivity).
    cbn [map concat]. rewrite <- app_assoc.
    set (R := concat (map enc_label ps) ++ [x00]).
    cbn [DnsName.labels_from]. unfold DnsName.next at 1.
    destruct (Nat.leb_spec (length (pre ++ enc_label p ++ R)) (length pre)) as [Hc|_].
    { rewrite !length_app in Hc. unfold enc_label in Hc. simpl in Hc. lia. }
    change (enc_label p ++ R) with (byte.of_Z (as_u8 (length p)) :: (p ++ R)).
    rewrite nth_app_mid, unsigned_of_as_u8, Nat2Z.id by exact Hl.
    change (byte.of_Z (as_u8 (length p)) :: (p ++ R)) with (enc_label p ++ R).
    replace (length pre + length p + 1)%nat with (length pre + length (enc_label p))%nat
      by (unfold enc_label; simpl; lia).
    rewrite slice_app_mid. cbn [bind].
    replace (length pre + length (enc_label p))%nat with (length (pre ++ enc_label p))
      by (rewrite length_app; reflexivity).
    rewrite (app_assoc pre (enc_label p) R). unfold R.
    rewrite IH.
    + reflexivity.
    + intros q Hq. apply Hp. right. exact Hq.
    + simpl in Hf. lia.
Qed.

Lemma dns_fmt_from_labels fuel d o :
  DnsName.fmt_from fuel d o
  = bind (DnsName.labels_from fuel d o) (fun ls => concat_opt (map DnsName.fmt_label ls)).
Proof.
  revert o; induction fuel as [|f IH]; intros o; [reflexivity|].
  cbn [DnsName.fmt_from DnsName.labels_from].
  destruct (DnsName.next d o) as [[[l o']|]|]; cbn [bind]; [|reflexivity|reflexivity].
  rewrite IH. destruct (DnsName.labels_from f d o') as [ls|]; cbn [bind map concat_opt];
    destruct (DnsName.fmt_label l); reflexivity.
Qed.

Lemma forall_below (f : Z -> bool) (N : nat) :
  forallb (fun n => f (Z.of_nat n)) (seq 0 N) = true ->
  forall x, 0 <= x < Z.of_nat N -> f x = true.
Proof.
  intros H x Hx. rewrite forallb_forall in H. specialize (H (Z.to_nat x)).
  rewrite Z2Nat.id in H by lia. apply H, in_seq. lia.
Qed.

Lemma read_u8_field m s data a b0 :
  nth_error data a = Some b0 ->
  read_field (FieldSpec (UInt 1) m s) true u8_target data a (S a)
  = Some (get (FieldSpec (UInt 1) m s) true u8_target (byte.unsigned b0)).
Proof.
  intros H. unfold read_field, slice.
  assert (Ha : (a < length data)%nat) by (apply nth_error_Some; congruence).
  replace ((a <=? S a)%nat && (S a <=? length data)%nat) with true
    by (symmetry; apply andb_true_iff; split; apply Nat.leb_le; lia).
  replace (S a - a)%nat with 1%nat by lia.
  rewrite (firstn_1_skipn_nth_error _ _ _ H). simpl. rewrite le_combine_1. reflexivity.
Qed.

(** The label-type and length fields of a length byte below 64. *)
Lemma dns_small_length_byte x :
  0 <= x < 64 ->
  get DnsLabel.TypeSpec true u8_target x = 0 /\ get DnsLabel.LenSpec true u8_target x = x.
Proof.
  intros Hx.
  assert (forall y, 0 <= y < Z.of_nat 64 ->
    ((get DnsLabel.TypeSpec true u8_target y =? 0) && (get DnsLabel.LenSpec true u8_target y =? y))%bool = true)
    as C by (apply forall_below; vm_compute; reflexivity).
  specialize (C x Hx). apply andb_true_iff in C as [C1 C2]. apply Z.eqb_eq in C1, C2. auto.
Qed.

Lemma dns_enc_label_reads p :
  (length p < 64)%nat ->
  DnsLabel.is_normal (enc_label p) = Some true /\
  DnsLabel.len (enc_label p) = Some (Some (Z.of_nat (length p))) /\
  DnsLabel.label (enc_label p) = Some (Some p).
Proof.
  intros Hl.
  assert (Hu : byte.unsigned (byte.of_Z (as_u8 (length p))) = Z.of_nat (length p))
    by (apply unsigned_of_as_u8; lia).
  destruct (dns_small_length_byte (Z.of_nat (length p)) ltac:(lia)) as [T L].
  assert (RT : DnsLabel.type_ (enc_label p) = Some 0).
  { unfold DnsLabel.type_, DnsLabel.TypeSpec.
    rewrite (read_u8_field _ _ _ 0 (byte.of_Z (as_u8 (length p)))) by reflexivity.
    fold DnsLabel.TypeSpec. rewrite Hu, T. reflexivity. }
  assert (RN : DnsLabel.is_normal (enc_label p) = Some true)
    by (unfold DnsLabel.is_normal; rewrite RT; reflexivity).
  split; [exact RN|]. split.
  - unfold DnsLabel.len. rewrite RN. cbn [bind]. unfold DnsLabel.LenSpec.
    rewrite (read_u8_field _ _ _ 0 (byte.of_Z (as_u8 (length p)))) by reflexivity.
    fold DnsLabel.LenSpec. rewrite Hu, L. reflexivity.
  - unfold DnsLabel.label. rewrite RN. cbn [bind]. unfold enc_label at 1. cbn [nth_error bind].
    rewrite Hu, Nat2Z.id. unfold slice. unfold enc_label. cbn [length].
    replace ((1 <=? 1 + length p)%nat && (1 + length p <=? S (length p))%nat) with true
      by (symmetry; apply andb_true_iff; split; apply Nat.leb_le; lia).
    replace (1 + length p - 1)%nat with (length p) by lia.
    simpl. rewrite firstn_all. reflexivity.
Qed.

Lemma dns_fmt_label_enc p :
  (length p < 64)%nat ->
  DnsName.fmt_label (enc_label p) = Some (if (length p =? 0)%nat then [] else p ++ ["."%byte]).
Proof.
  intros Hl. destruct (dns_enc_label_reads p Hl) as [RN [RL RB]].
  unfold DnsName.fmt_label. rewrite RN. cbn [bind]. rewrite RL. cbn [bind].
  destruct (Nat.eqb_spec (length p) 0) as [E|E].
  - rewrite E. reflexivity.
  - replace (0 <? Z.of_nat (length p)) with true by (symmetry; apply Z.ltb_lt; lia).
    unfold DnsLabel.as_str. rewrite RB. reflexivity.
Qed.

Lemma length_le_pushed_len ps : (length ps <= pushed_len ps)%nat.
Proof. induction ps; simpl; lia. Qed.

Lemma dns_from_labels s :
  (forall p, In p (str_split "."%byte s) -> (length p < 256)%nat) ->
  DnsName.labels (DnsName.from s) = Some (map enc_label (str_split "."%byte s) ++ [[x00]]).
Proof.
  intros Hp. unfold DnsName.labels.
  assert (B : (length (str_split "."%byte s) < S (length (DnsName.from s)))%nat).
  { pose proof (length_le_pushed_len (str_split "."%byte s)).
    unfold DnsName.from. rewrite length_app, fold_push_length. simpl. lia. }
  rewrite dns_from_concat in *. apply (dns_labels_from_enc _ _ [] Hp) in B. exact B.
Qed.

Definition render_piece (p : list byte) : list byte :=
  if (length p =? 0)%nat then [] else p ++ ["."%byte].

Lemma split_join c s :
  let '(w, ws) := split_aux c s in
  w ++ [c] ++ concat (map (fun p => p ++ [c]) ws) = s ++ [c].
Proof.
  induction s as [|x r IH]; simpl; [reflexivity|].
  destruct (split_aux c r) as [w ws].
  destruct (Byte.eqb x c) eqn:E; [apply byte_dec_bl in E; subst x|]; simpl.
  - f_equal. rewrite <- app_assoc. exact IH.
  - f_equal. exact IH.
Qed.

Lemma str_split_join c s : concat (map (fun p => p ++ [c]) (str_split c s)) = s ++ [c].
Proof.
  unfold str_split. pose proof (split_join c s) as H.
  destruct (split_aux c s) as [w ws]. simpl. rewrite <- app_assoc. exact H.
Qed.

Lemma bytes_eqb_iff a b : bytes_eqb a b = true <-> a = b.
Proof.
  revert b; induction a as [|x a IH]; intros [|y b]; simpl; split; intros H;
    try discriminate; try reflexivity.
  - apply andb_true_iff in H as [H1 H2]. apply byte_dec_bl in H1. apply IH in H2. subst; reflexivity.
  - inversion H; subst. rewrite (byte_dec_lb eq_refl). apply IH. reflexivity.
Qed.

Lemma dns_fmt_labels data :
  DnsName.fmt data = bind (DnsName.labels data) (fun ls => concat_opt (map DnsName.fmt_label ls)).
Proof. unfold DnsName.fmt, DnsName.labels. apply dns_fmt_from_labels. Qed.

Lemma concat_opt_app xs ys :
  concat_opt (xs ++ ys) = a <- concat_opt xs ;; b <- concat_opt ys ;; Some (a ++ b).
Proof.
  induction xs as [|x xs IH]; cbn [app concat_opt].
  - destruct (concat_opt ys); reflexivity.
  - rewrite IH. destruct x; cbn [bind]; [|reflexivity].
    destruct (concat_opt xs); cbn [bind]; [|reflexivity].
    destruct (concat_opt ys); cbn [bind]; [|reflexivity]. rewrite app_assoc. reflexivity.
Qed.

Lemma dns_fmt_enc_labels ps :
  (forall p, In p ps -> (length p < 64)%nat) ->
  concat_opt (map DnsName.fmt_label (map enc_label ps)) = Some (concat (map render_piece ps)).
Proof.
  induction ps as [|p ps IH]; intros Hp; [reflexivity|].
  cbn [map concat_opt concat]. rewrite dns_fmt_label_enc by (apply Hp; left; reflexivity).
  cbn [bind]. rewrite IH by (intros q I; apply Hp; right; exact I). reflexivity.
Qed.

Lemma dns_fmt_from_pieces s :
  (forall p, In p (str_split "."%byte s) -> (length p < 64)%nat) ->
  DnsName.fmt (DnsName.from s) = Some (concat (map render_piece (str_split "."%byte s))).
Proof.
  intros Hp. rewrite dns_fmt_labels, dns_from_labels
    by (intros p I; specialize (Hp p I); lia).
  assert (F0 : concat_opt (map DnsName.fmt_label [[x00]]) = Some []) by reflexivity.
  cbn [bind]. rewrite map_app, concat_opt_app, dns_fmt_enc_labels, F0 by exact Hp.
  cbn [bind]. rewrite app_nil_r. reflexivity.
Qed.

Lemma dns_fmt_from_nonempty s :
  (forall p, In p (str_split "."%byte s) -> (0 < length p < 64)%nat) ->
  DnsName.fmt (DnsName.from s) = Some (s ++ ["."%byte]).
Proof.
  intros Hp. rewrite dns_fmt_from_pieces by (intros p I; specialize (Hp p I); lia).
  rewrite <- str_split_join. f_equal. f_equal. apply map_ext_in.
  intros p I. specialize (Hp p I). unfold render_piece.
  destruct (Nat.eqb_spec (length p) 0); [lia | reflexivity].
Qed.

Lemma dns_from_length_pos s : (1 <= length (DnsName.from s))%nat.
Proof. unfold DnsName.from. rewrite length_app. simpl. lia. Qed.


Lemma position_zero_app_root l r :
  ~ In x00 l -> DnsQuestion.position_zero (l ++ x00 :: r) = Some (length l).
Proof.
  induction l as [|x l IH]; intros H; [reflexivity|]. cbn [app DnsQuestion.position_zero].
  destruct (Byte.eqb x x00) eqn:E.
  - apply byte_dec_bl in E. subst. exfalso. apply H. left. reflexivity.
  - rewrite IH by (intros I; apply H; right; exact I). reflexivity.
Qed.

Lemma position_zero_app_early l r :
  In x00 l -> exists k, DnsQuestion.position_zero (l ++ r) = Some k /\ (k < length l)%nat.
Proof.
  induction l as [|x l IH]; intros H; [destruct H|]. cbn [app DnsQuestion.position_zero length].
  destruct (Byte.eqb x x00) eqn:E; [exists O; split; [reflexivity|lia]|].
  destruct H as [Hx|H]; [subst x; rewrite (byte_dec_lb eq_refl) in E; discriminate|].
  destruct (IH H) as [k [K1 K2]]. rewrite K1. exists (S k). split; [reflexivity|lia].
Qed.

Lemma x00_as_u8 k : byte.of_Z (as_u8 k) = x00 <-> (k mod 256 = 0)%nat.
Proof.
  split.
  - intros E. assert (U : byte.unsigned (byte.of_Z (as_u8 k)) = 0) by (rewrite E; reflexivity).
    rewrite byte.unsigned_of_Z in U. unfold byte.wrap, as_u8 in U.
    rewrite Z.mod_mod in U by lia. change (2 ^ 8) with (Z.of_nat 256) in U.
    rewrite <- Nat2Z.inj_mod in U. lia.
  - intros E. unfold as_u8. change (2 ^ 8) with (Z.of_nat 256).
    rewrite <- Nat2Z.inj_mod, E. reflexivity.
Qed.

Lemma in_zero_enc_labels ps :
  In x00 (concat (map enc_label ps)) <->
  exists p, In p ps /\ (In x00 p \/ (length p mod 256 = 0)%nat).
Proof.
  rewrite in_concat. split.
  - intros [l [Il Ix]]. apply in_map_iff in Il as [p [<- Ip]]. exists p. split; [exact Ip|].
    destruct Ix as [E|Ix]; [|left; exact Ix]. right. apply x00_as_u8. exact E.
  - intros [p [Ip [Ix|E]]]; exists (enc_label p); (split; [apply in_map, Ip|]).
    + right. exact Ix.
    + left. apply x00_as_u8. exact E.
Qed.

Lemma in_zero_split s :
  In x00 s <-> exists p, In p (str_split "."%byte s) /\ In x00 p.
Proof.
  assert (E : In x00 s <-> In x00 (s ++ ["."%byte])).
  { rewrite in_app_iff. cbn [In]. split; [tauto|]. intros [H|[H|[]]]; [exact H | discriminate]. }
  rewrite E, <- str_split_join, in_concat. split.
  - intros [l [Il Ix]]. apply in_map_iff in Il as [p [<- Ip]]. exists p. split; [exact Ip|].
    apply in_app_iff in Ix as [Ix|[H|[]]]; [exact Ix | discriminate].
  - intros [p [Ip Ix]]. exists (p ++ ["."%byte]). split; [apply (in_map (fun p => p ++ ["."%byte])), Ip|].
    apply in_app_iff. left. exact Ix.
Qed.

Lemma slice_prefix d n x : slice d 0 n = Some x -> d = x ++ skipn n d.
Proof.
  intros S. pose proof (slice_some _ _ _ _ S) as H. rewrite slice_ok in S by exact H.
  inversion S as [S']. rewrite Nat.sub_0_r. cbn [skipn]. symmetry. apply firstn_skipn.
Qed.

Lemma dns_question_build_prefix b q :
  DnsQuestionBuilder.build b = Some q ->
  S (DnsQuestion.name_len q) = length (DnsName.from (unwrap_or (DnsQuestionBuilder.qname b) [])) /\
  DnsQuestion.data q = DnsName.from (unwrap_or (DnsQuestionBuilder.qname b) [])
    ++ skipn (S (DnsQuestion.name_len q)) (DnsQuestion.data q).
Proof.
  unfold DnsQuestionBuilder.build.
  set (n := unwrap_or (DnsQuestionBuilder.qname b) []).
  pose proof (dns_from_length_pos n) as Hpos.
  set (N := length (DnsName.from n)).
  assert (Hs : sub_usize N 1 = Some (N - 1)%nat)
    by (unfold sub_usize; replace (1 <=? N)%nat with true by (symmetry; apply Nat.leb_le; lia); reflexivity).
  rewrite Hs. cbn [bind]. replace (N - 1 + 1)%nat with N by lia.
  replace (N - 1 + 3)%nat with (N + 2)%nat by lia. replace (N - 1 + 5)%nat with (N + 4)%nat by lia.
  destruct (write_field _ _ _ _ N (N + 2) _) as [d1|] eqn:E1; cbn [bind]; [|discriminate].
  destruct (write_field _ _ _ _ (N + 2) (N + 4) _) as [d2|] eqn:E2; cbn [bind]; [|discriminate].
  intros Q. inversion Q; subst q; clear Q. cbn [DnsQuestion.data DnsQuestion.name_len].
  assert (W1 : (N + 2 - N = 2)%nat) by lia. assert (W2 : (N + 4 - (N + 2) = 2)%nat) by lia.
  destruct (write_field_frame _ _ _ _ _ _ _ _ _ _ W1 E1) as (L1 & S1 & B1 & A1 & P1).
  destruct (write_field_frame _ _ _ _ _ _ _ _ _ _ W2 E2) as (L2 & S2 & B2 & A2 & P2).
  replace (S (N - 1)) with N by lia. split; [reflexivity|].
  apply slice_prefix. rewrite B2, B1 by lia.
  rewrite slice_ok by (rewrite length_app; lia). rewrite Nat.sub_0_r. cbn [skipn]. subst N.
  rewrite firstn_app, firstn_all, Nat.sub_diag. cbn [firstn]. rewrite app_nil_r. reflexivity.
Qed.


Lemma concat_opt_none xs : In None xs -> concat_opt xs = None.
Proof.
  induction xs as [|x xs IH]; intros H; [destruct H|]. cbn [concat_opt].
  destruct H as [->|H]; [reflexivity|]. destruct x; cbn [bind]; [|reflexivity].
  rewrite IH by exact H. reflexivity.
Qed.

Lemma dns_mid_length_byte y :
  64 <= y < 192 ->
  get DnsLabel.TypeSpec true u8_target y <> 0 /\ get DnsLabel.TypeSpec true u8_target y <> 3.
Proof.
  intros Hy.
  assert (forall x, 0 <= x < Z.of_nat 256 ->
    (negb ((64 <=? x) && (x <? 192)) ||
     (negb (get DnsLabel.TypeSpec true u8_target x =? 0) &&
      negb (get DnsLabel.TypeSpec true u8_target x =? 3)))%bool = true) as C
    by (apply forall_below; vm_compute; reflexivity).
  specialize (C y ltac:(lia)).
  replace ((64 <=? y) && (y <? 192))%bool with true in C
    by (symmetry; apply andb_true_iff; split; [apply Z.leb_le | apply Z.ltb_lt]; lia).
  cbn [negb orb] in C. apply andb_true_iff in C as [C1 C2].
  apply negb_true_iff, Z.eqb_neq in C1, C2. auto.
Qed.

Lemma dns_fmt_label_enc_mid p :
  (64 <= length p < 192)%nat -> DnsName.fmt_label (enc_label p) = None.
Proof.
  intros Hl.
  assert (Hu : byte.unsigned (byte.of_Z (as_u8 (length p))) = Z.of_nat (length p))
    by (apply unsigned_of_as_u8; lia).
  destruct (dns_mid_length_byte (Z.of_nat (length p)) ltac:(lia)) as [T0 T3].
  assert (RT : DnsLabel.type_ (enc_label p) = Some (get DnsLabel.TypeSpec true u8_target (Z.of_nat (length p)))).
  { unfold DnsLabel.type_, DnsLabel.TypeSpec.
    rewrite (read_u8_field _ _ _ 0 (byte.of_Z (as_u8 (length p)))) by reflexivity.
    rewrite Hu. reflexivity. }
  unfold DnsName.fmt_label, DnsLabel.offset, DnsLabel.is_compressed, DnsLabel.is_normal.
  rewrite RT. cbn [bind]. apply Z.eqb_neq in T0, T3. rewrite T0, T3. reflexivity.
Qed.

Lemma read_u16_field m s b0 b1 r :
  read_field (FieldSpec (UInt 2) m s) true u16_target (b0 :: b1 :: r) 0 2
  = Some (get (FieldSpec (UInt 2) m s) true u16_target (le_combine [b0; b1])).
Proof. reflexivity. Qed.

Lemma dns_label_byte_fields y :
  0 <= y < 256 ->
  get DnsLabel.TypeSpec true u8_target y = y / 64 /\ get DnsLabel.LenSpec true u8_target y = y mod 64.
Proof.
  intros Hy.
  assert (forall x, 0 <= x < Z.of_nat 256 ->
    ((get DnsLabel.TypeSpec true u8_target x =? x / 64) &&
     (get DnsLabel.LenSpec true u8_target x =? x mod 64))%bool = true) as C
    by (apply forall_below; vm_compute; reflexivity).
  specialize (C y Hy). apply andb_true_iff in C as [C1 C2]. apply Z.eqb_eq in C1, C2. auto.
Qed.

Definition offset_check (i j : nat) : bool :=
  match DnsLabel.offset [byte.of_Z (Z.of_nat i); byte.of_Z (Z.of_nat j)] with
  | Some o => match o, (192 <=? Z.of_nat i) with
              | Some v, true => v =? (Z.of_nat i mod 64) * 256 + Z.of_nat j
              | None, false => true
              | _, _ => false
              end
  | None => false
  end.

Lemma dns_offset_bytes b0 b1 :
  DnsLabel.offset [b0; b1] = Some (if 192 <=? byte.unsigned b0
    then Some ((byte.unsigned b0 mod 64) * 256 + byte.unsigned b1) else None).
Proof.
  assert (C : forallb (fun i => forallb (fun j => offset_check i j) (seq 0 256)) (seq 0 256) = true)
    by (vm_compute; reflexivity).
  rewrite forallb_forall in C.
  pose proof (byte.unsigned_range b0) as R0. pose proof (byte.unsigned_range b1) as R1.
  specialize (C (Z.to_nat (byte.unsigned b0)) ltac:(apply in_seq; lia)).
  rewrite forallb_forall in C. specialize (C (Z.to_nat (byte.unsigned b1)) ltac:(apply in_seq; lia)).
  unfold offset_check in C. rewrite !Z2Nat.id, !byte.of_Z_unsigned in C by lia.
  destruct (DnsLabel.offset [b0; b1]) as [[v|]|]; [|destruct (192 <=? byte.unsigned b0)|]; try discriminate.
  - destruct (192 <=? byte.unsigned b0); [|discriminate]. apply Z.eqb_eq in C. subst v. reflexivity.
  - reflexivity.
Qed.

Lemma pieces_below (k : nat) s :
  forallb (fun p => (length p <? k)%nat) (str_split "."%byte s) = true ->
  forall p, In p (str_split "."%byte s) -> (length p < k)%nat.
Proof.
  intros H p I. rewrite forallb_forall in H. apply Nat.ltb_lt, H, I.
Qed.

Lemma pieces_between (k : nat) s :
  forallb (fun p => (0 <? length p)%nat && (length p <? k)%nat) (str_split "."%byte s) = true ->
  forall p, In p (str_split "."%byte s) -> (0 < length p < k)%nat.
Proof.
  intros H p I. rewrite forallb_forall in H. specialize (H p I).
  apply andb_true_iff in H as [H1 H2]. apply Nat.ltb_lt in H1, H2. lia.
Qed.

Lemma dns_is_normal_byte b0 r :
  DnsLabel.is_normal (b0 :: r) = Some (byte.unsigned b0 <? 64).
Proof.
  pose proof (byte.unsigned_range b0) as R.
  destruct (dns_label_byte_fields (byte.unsigned b0) R) as [T _].
  unfold DnsLabel.is_normal, DnsLabel.type_, DnsLabel.TypeSpec.
  rewrite (read_u8_field _ _ _ 0 b0) by reflexivity. fold DnsLabel.TypeSpec. rewrite T.
  cbn [bind]. f_equal.
  destruct (Z.ltb_spec (byte.unsigned b0) 64); apply Z.eqb_eq || apply Z.eqb_neq.
  - apply Z.div_small. lia.
  - intros E. assert (byte.unsigned b0 / 64 >= 1) by (apply Z.le_ge, Z.div_le_lower_bound; lia). lia.
Qed.

Lemma copy_from_slice_from_inv d a src d' :
  copy_from_slice_from d a src = Some d' -> (a <= length d)%nat /\ (length d - a = length src)%nat.
Proof.
  unfold copy_from_slice_from, slice_from.
  destruct (Nat.leb_spec a (length d)); [|discriminate].
  rewrite length_skipn. destruct (Nat.eqb_spec (length d - a) (length src)); [|discriminate].
  auto.
Qed.

Lemma write_field_len {T} F msb (tg : target (fs_kind F) T) d a b x d' :
  (forall bs, length (to_bytes _ (set F msb tg (of_bytes _ bs) x)) = (b - a)%nat) ->
  write_field F msb tg d a b x = Some d' -> length d' = length d.
Proof. intros H E. apply (write_field_frame_len _ _ _ _ _ _ _ _ H E). Qed.

Lemma uint_set_len w m s msb (tg : target (UInt w) Z) x :
  forall bs, length (to_bytes (UInt w) (set (FieldSpec (UInt w) m s) msb tg (of_bytes _ bs) x)) = w.
Proof. intros bs. simpl. apply length_le_split. Qed.

Lemma udp_build_spec_core (b : UdpBuilder.UdpBuilder) :
  Z.of_nat (8 + length (UdpBuilder.payload b)) < 2 ^ 16 ->
  (UdpBuilder.length b = None \/
   UdpBuilder.length b = Some (Z.of_nat (8 + length (UdpBuilder.payload b)))) ->
  0 <= unwrap_or (UdpBuilder.src_port b) 0 < 2 ^ 16 ->
  0 <= unwrap_or (UdpBuilder.dst_port b) 0 < 2 ^ 16 ->
  0 <= unwrap_or (UdpBuilder.checksum b) 0 < 2 ^ 16 ->
  exists d, UdpBuilder.build b = Some d /\
    length d = (8 + length (UdpBuilder.payload b))%nat /\
    Udp.src_port d = Some (unwrap_or (UdpBuilder.src_port b) 0) /\
    Udp.dst_port d = Some (unwrap_or (UdpBuilder.dst_port b) 0) /\
    Udp.length_ d = Some (Z.of_nat (8 + length (UdpBuilder.payload b))) /\
    Udp.checksum d = Some (unwrap_or (UdpBuilder.checksum b) 0) /\
    Udp.payload d = Some (UdpBuilder.payload b).
Proof.
  intros Hp Hl Hs Hd Hc. unfold UdpBuilder.build.
  assert (Elen : add_u16 (Z.of_nat Udp.MIN_HEADER_LENGTH) (as_u16 (length (UdpBuilder.payload b)))
                 = Some (Z.of_nat (8 + length (UdpBuilder.payload b)))).
  { unfold add_u16, as_u16, Udp.MIN_HEADER_LENGTH. rewrite Z.mod_small by lia.
    destruct (Z.ltb_spec (Z.of_nat 8 + Z.of_nat (length (UdpBuilder.payload b))) (2 ^ 16)); [|lia].
    f_equal. lia. }
  rewrite Elen. cbn [bind].
  replace (unwrap_or (UdpBuilder.length b) (Z.of_nat (8 + length (UdpBuilder.payload b))))
    with (Z.of_nat (8 + length (UdpBuilder.payload b))) by (destruct Hl as [-> | ->]; reflexivity).
  rewrite Nat2Z.id.
  do 4 wstep.
  destruct (copy_from_slice_from_some d2 8 (UdpBuilder.payload b)) as [d3 E3];
    [len_simpl; lia | len_simpl; lia |].
  rewrite E3.
  destruct (copy_from_slice_from_frame _ _ _ _ E3) as (L3 & P3 & B3). clear E3.
  exists d3. split; [reflexivity|]. repeat split.
  - len_simpl. reflexivity.
  - unfold Udp.src_port, read_field. rewrite B3 by lia. slice_simpl. cbn [Nat.sub repeat]. f_equal.
    apply (fast_uint_roundtrip 2); [lia | simpl; lia].
  - unfold Udp.dst_port, read_field. rewrite B3 by lia. slice_simpl. cbn [Nat.sub repeat]. f_equal.
    apply (fast_uint_roundtrip 2); [lia | simpl; lia].
  - unfold Udp.length_, read_field. rewrite B3 by lia. slice_simpl. cbn [Nat.sub repeat]. f_equal.
    apply (fast_uint_roundtrip 2); [lia | simpl; lia].
  - unfold Udp.checksum, read_field. rewrite B3 by lia. slice_simpl. cbn [Nat.sub repeat]. f_equal.
    apply (fast_uint_roundtrip 2); [lia | simpl; lia].
  - exact P3.
Qed.


Lemma udp_build_some_inv (b : UdpBuilder.UdpBuilder) d :
  (forall x, UdpBuilder.length b = Some x -> 0 <= x < 2 ^ 16) ->
  UdpBuilder.build b = Some d ->
  Z.of_nat (8 + length (UdpBuilder.payload b)) < 2 ^ 16 /\
  (UdpBuilder.length b = None \/
   UdpBuilder.length b = Some (Z.of_nat (8 + length (UdpBuilder.payload b)))).
Proof.
  intros Hx. unfold UdpBuilder.build.
  destruct (add_u16 _ _) as [dflt|] eqn:A; cbn [bind]; [|discriminate].
  assert (Ad : dflt = 8 + as_u16 (length (UdpBuilder.payload b)) /\ dflt < 2 ^ 16).
  { unfold add_u16, Udp.MIN_HEADER_LENGTH in A. destruct (Z.ltb_spec (Z.of_nat 8 + as_u16 (length (UdpBuilder.payload b))) (2 ^ 16)); [|discriminate].
    assert (A2 : Z.of_nat 8 + as_u16 (length (UdpBuilder.payload b)) = dflt) by congruence. change (Z.of_nat 8) with 8 in *. lia. }
  assert (Au : 0 <= as_u16 (length (UdpBuilder.payload b)) < 2 ^ 16)
    by (unfold as_u16; apply Z.mod_pos_bound; lia).
  set (len := unwrap_or (UdpBuilder.length b) dflt).
  assert (Hlen : 0 <= len < 2 ^ 16).
  { subst len. destruct (UdpBuilder.length b) as [x|] eqn:E; cbn [unwrap_or]; [apply Hx; reflexivity | lia]. }
  destruct (write_field Udp.PortSpec _ _ _ 0 2 _) as [d0|] eqn:E0; cbn [bind]; [|discriminate].
  destruct (write_field Udp.PortSpec _ _ _ 2 4 _) as [d1|] eqn:E1; cbn [bind]; [|discriminate].
  destruct (write_field Udp.LengthSpec _ _ _ 4 6 _) as [d2|] eqn:E2; cbn [bind]; [|discriminate].
  destruct (write_field Udp.ChecksumSpec _ _ _ 6 8 _) as [d3|] eqn:E3; cbn [bind]; [|discriminate].
  intros C. apply copy_from_slice_from_inv in C as [C1 C2].
  apply write_field_len in E0, E1, E2, E3; try apply uint_set_len.
  rewrite E3, E2, E1, E0, repeat_length in C1, C2.
  assert (Lz : Z.of_nat (8 + length (UdpBuilder.payload b)) = len) by lia.
  split; [lia|].
  subst len. destruct (UdpBuilder.length b) as [x|] eqn:E; cbn [unwrap_or] in Lz; [right; rewrite Lz; reflexivity | left; reflexivity].
Qed.

Lemma copy_from_slice_inv d a b src d' :
  copy_from_slice d a b src = Some d' -> (a <= b <= length d)%nat /\ (b - a)%nat = length src.
Proof.
  unfold copy_from_slice. destruct (slice d a b) as [dst|] eqn:S; [|discriminate].
  destruct (Nat.eqb_spec (length dst) (length src)) as [L|]; [|discriminate]. intros _.
  split; [exact (slice_some _ _ _ _ S)|]. rewrite <- L. symmetry. exact (length_slice _ _ _ _ S).
Qed.

Lemma tcp_data_offset_range d n : Tcp.data_offset d = Some n -> 0 <= n <= 15.
Proof.
  unfold Tcp.data_offset, read_field. destruct (slice d 12 13) as [bs|] eqn:S; [|discriminate].
  cbn [option_map]. intros E. injection E as <-.
  apply length_slice in S. cbn in S.
  destruct bs as [|b0 [|]]; try discriminate.
  destruct b0; split; vm_compute; discriminate.
Qed.

Lemma tcp_build_options_inv (b : TcpBuilder.TcpBuilder) d :
  TcpBuilder.build b = Some d ->
  (length (TcpBuilder.options b) mod 4 = 0)%nat /\ (length (TcpBuilder.options b) <= 40)%nat.
Proof.
  unfold TcpBuilder.build.
  repeat match goal with
    |- context [bind (write_field ?F ?m ?t ?d ?a ?b ?x) _] =>
      destruct (write_field F m t d a b x); cbn [bind]; [|discriminate]
  end.
  match goal with |- context [bind (Tcp.data_offset ?e) _] =>
    destruct (Tcp.data_offset e) as [n|] eqn:N; cbn [bind]; [|discriminate] end.
  apply tcp_data_offset_range in N.
  match goal with |- context [bind (copy_from_slice ?e ?a ?c ?s) _] =>
    destruct (copy_from_slice e a c s) as [e'|] eqn:C; cbn [bind]; [|discriminate] end.
  intros _. apply copy_from_slice_inv in C as [C1 C2]. unfold Tcp.MIN_HEADER_LENGTH in *.
  assert (Hn : (Z.to_nat n <= 15)%nat) by lia.
  rewrite <- C2.
  assert (Z.to_nat n = 5 \/ Z.to_nat n = 6 \/ Z.to_nat n = 7 \/ Z.to_nat n = 8 \/
          Z.to_nat n = 9 \/ Z.to_nat n = 10 \/ Z.to_nat n = 11 \/ Z.to_nat n = 12 \/
          Z.to_nat n = 13 \/ Z.to_nat n = 14 \/ Z.to_nat n = 15)%nat as K by lia.
  repeat destruct K as [K|K]; rewrite K; cbn; split; (reflexivity || lia).
Qed.


Lemma eth_type_get_set v t :
  0 <= EthType_into t < 2 ^ 16 ->
  get Eth.EthTypeSpec true eth_type_target
    (of_bytes (UInt 2) (to_bytes (UInt 2) (set Eth.EthTypeSpec true eth_type_target v t)))
  = EthType_from (EthType_into t).
Proof.
  intros H. unfold get. cbn [from_underlay eth_type_target]. f_equal.
  exact (fast_uint_roundtrip 2 true v (EthType_into t) ltac:(lia) ltac:(simpl; lia)).
Qed.

Lemma rev_le_split_2 n : rev (le_split 2 n) = [byte.of_Z (Z.shiftr n 8); byte.of_Z n].
Proof. reflexivity. Qed.

Lemma frag_set_bytes v o :
  to_bytes (UInt 2) (set Ipv4.FragmentOffsetSpec true u16_target v o)
  = rev (le_split 2 (Z.lor (Z.land (UInt.swap_bytes 2 v) (u64_not 0x1FFF mod 2 ^ 16)) o)).
Proof.
  unfold set. cbn -[u64_not UInt.swap_bytes le_split Z.pow].
  unfold UInt.swap_bytes at 1.
  set (L := rev (le_split 2 _)).
  replace 2%nat with (length L) at 1 by (subst L; rewrite length_rev, length_le_split; reflexivity).
  rewrite split_le_combine. reflexivity.
Qed.

Lemma frag_get_bytes n :
  get Ipv4.FragmentOffsetSpec true u16_target (of_bytes (UInt 2) (rev (le_split 2 n)))
  = Z.land (n mod 2 ^ 16) (0x1FFF mod 2 ^ 16).
Proof.
  unfold get, raw. replace (fast_path Ipv4.FragmentOffsetSpec) with false by reflexivity.
  cbv [Ipv4.FragmentOffsetSpec fs_mask fs_shift fs_kind u_from_be u_mask UInt.from_be UInt.mask
       from_underlay u16_target same_target of_bytes UInt.swap_bytes].
  replace (0 =? 0) with true by reflexivity.
  set (L := rev (le_split 2 n)).
  replace 2%nat with (length L) at 1 by (subst L; rewrite length_rev, length_le_split; reflexivity).
  rewrite split_le_combine. subst L. rewrite rev_involutive, le_combine_split. reflexivity.
Qed.


Fixpoint check_from (f : Z -> bool) (z : Z) (k : nat) : bool :=
  match k with O => true | S k' => f z && check_from f (z + 1) k' end.

Lemma check_from_spec f z k :
  check_from f z k = true -> forall x, z <= x < z + Z.of_nat k -> f x = true.
Proof.
  revert z. induction k as [|k IH]; intros z H x Hx; [lia|].
  cbn [check_from] in H. apply andb_true_iff in H as [H1 H2].
  destruct (Z.eq_dec x z) as [->|Ne]; [exact H1|].
  apply (IH (z + 1) H2). lia.
Qed.











(** The third and fourth header bytes as [DnsBuilder::build] writes them. *)
Definition dns_byte2 (q : bool) (x : Z) (a t r : bool) : list byte :=
  let w := to_bytes (UInt 1) (set Dns.QrSpec true bool_target (of_bytes (UInt 1) [x00]) q) in
  let w := to_bytes (UInt 1) (set Dns.OpCodeSpec true u8_target (of_bytes (UInt 1) w) x) in
  let w := to_bytes (UInt 1) (set Dns.AaSpec true bool_target (of_bytes (UInt 1) w) a) in
  let w := to_bytes (UInt 1) (set Dns.TcSpec true bool_target (of_bytes (UInt 1) w) t) in
  to_bytes (UInt 1) (set Dns.RdSpec true bool_target (of_bytes (UInt 1) w) r).

Definition dns_byte3 (r : bool) (zz x : Z) : list byte :=
  let w := to_bytes (UInt 1) (set Dns.RaSpec true bool_target (of_bytes (UInt 1) [x00]) r) in
  let w := to_bytes (UInt 1) (set Dns.ZSpec true u8_target (of_bytes (UInt 1) w) zz) in
  to_bytes (UInt 1) (set Dns.RCodeSpec true u8_target (of_bytes (UInt 1) w) x).

Definition bools : list bool := [false; true].

Lemma dns_byte2_check :
  forallb (fun q => forallb (fun a => forallb (fun t => forallb (fun r =>
    check_from (fun x =>
      let w := of_bytes (UInt 1) (dns_byte2 q x a t r) in
      Bool.eqb (get Dns.QrSpec true bool_target w) (q || Z.testbit x 4) &&
      (get Dns.OpCodeSpec true u8_target w =? x mod 16) &&
      Bool.eqb (get Dns.AaSpec true bool_target w) a &&
      Bool.eqb (get Dns.TcSpec true bool_target w) t &&
      Bool.eqb (get Dns.RdSpec true bool_target w) r) 0 256) bools) bools) bools) bools = true.
Proof. vm_compute. reflexivity. Qed.

Lemma dns_byte3_check :
  forallb (fun r => check_from (fun zz => check_from (fun x =>
      let w := of_bytes (UInt 1) (dns_byte3 r zz x) in
      Bool.eqb (get Dns.RaSpec true bool_target w) (r || Z.testbit x 7) &&
      (get Dns.ZSpec true u8_target w =? Z.lor zz (x / 16 mod 8)) &&
      (get Dns.RCodeSpec true u8_target w =? x mod 16)) 0 256) 0 8) bools = true.
Proof. vm_compute. reflexivity. Qed.

Lemma in_bools (q : bool) : In q bools.
Proof. destruct q; simpl; auto. Qed.

Lemma dns_byte2_read q x a t r : 0 <= x < 2 ^ 8 ->
  let w := of_bytes (UInt 1) (dns_byte2 q x a t r) in
  get Dns.QrSpec true bool_target w = (q || Z.testbit x 4) /\
  get Dns.OpCodeSpec true u8_target w = x mod 16 /\
  get Dns.AaSpec true bool_target w = a /\
  get Dns.TcSpec true bool_target w = t /\
  get Dns.RdSpec true bool_target w = r.
Proof.
  intros Hx w. pose proof dns_byte2_check as C.
  repeat match type of C with forallb _ bools = true =>
    rewrite forallb_forall in C end.
  specialize (C q (in_bools q)). rewrite forallb_forall in C.
  specialize (C a (in_bools a)). rewrite forallb_forall in C.
  specialize (C t (in_bools t)). rewrite forallb_forall in C.
  specialize (C r (in_bools r)).
  pose proof (check_from_spec _ 0 256 C x ltac:(simpl; lia)) as H. cbv beta zeta in H.
  fold w in H.
  apply andb_true_iff in H as [H H5]. apply andb_true_iff in H as [H H4].
  apply andb_true_iff in H as [H H3]. apply andb_true_iff in H as [H1 H2].
  apply Bool.eqb_prop in H1, H3, H4, H5. apply Z.eqb_eq in H2. tauto.
Qed.

Lemma dns_byte3_read r zz x : 0 <= zz < 2 ^ 3 -> 0 <= x < 2 ^ 8 ->
  let w := of_bytes (UInt 1) (dns_byte3 r zz x) in
  get Dns.RaSpec true bool_target w = (r || Z.testbit x 7) /\
  get Dns.ZSpec true u8_target w = Z.lor zz (x / 16 mod 8) /\
  get Dns.RCodeSpec true u8_target w = x mod 16.
Proof.
  intros Hz Hx w. pose proof dns_byte3_check as C.
  rewrite forallb_forall in C. specialize (C r (in_bools r)).
  pose proof (check_from_spec _ 0 8 C zz ltac:(simpl; lia)) as H. cbv beta in H.
  pose proof (check_from_spec _ 0 256 H x ltac:(simpl; lia)) as H'. cbv beta zeta in H'.
  fold w in H'.
  apply andb_true_iff in H' as [H' H3]. apply andb_true_iff in H' as [H1 H2].
  apply Bool.eqb_prop in H1. apply Z.eqb_eq in H2, H3. tauto.
Qed.


Lemma slice_app_l d r a b : (b <= length d)%nat -> slice (d ++ r) a b = slice d a b.
Proof.
  intros H. unfold slice. rewrite length_app.
  destruct (Nat.leb_spec a b); [|reflexivity]. cbn [andb].
  destruct (Nat.leb_spec b (length d)); [|lia].
  replace (b <=? length d + length r)%nat with true by (symmetry; apply Nat.leb_le; lia).
  f_equal. rewrite skipn_app. rewrite firstn_app.
  rewrite length_skipn. replace (b - a - (length d - a))%nat with 0%nat by lia.
  cbn [firstn]. rewrite app_nil_r. reflexivity.
Qed.

Lemma write_opcode_target d a b c :
  write_field Dns.OpCodeSpec true opcode_target d a b c
  = write_field Dns.OpCodeSpec true u8_target d a b (DnsOpCode_into c).
Proof. reflexivity. Qed.

Lemma get_opcode_target v :
  get Dns.OpCodeSpec true opcode_target v = DnsOpCode_from (get Dns.OpCodeSpec true u8_target v).
Proof. reflexivity. Qed.

Lemma write_rcode_target d a b c :
  write_field Dns.RCodeSpec true rcode_target d a b c
  = write_field Dns.RCodeSpec true u8_target d a b (DnsRCode_into_u8 c).
Proof. reflexivity. Qed.

Lemma get_rcode_target v :
  get Dns.RCodeSpec true rcode_target v = DnsRCode_from_u8 (get Dns.RCodeSpec true u8_target v).
Proof. reflexivity. Qed.

Lemma dns_build_spec (b : DnsBuilder.DnsBuilder) :
  let x := DnsOpCode_into (unwrap_or (DnsBuilder.opcode b) DnsOpCode_Query) in
  let y := DnsRCode_into_u8 (unwrap_or (DnsBuilder.rcode b) DnsRCode_NoError) in
  let zz := unwrap_or (DnsBuilder.z b) 0 in
  let qd := unwrap_or (DnsBuilder.qdcount b) (as_u16 (length (DnsBuilder.questions b))) in
  exists d, DnsBuilder.build b = Some d /\ Dns.new d = Ok d /\
    skipn 12 d = concat (map DnsQuestion.data (firstn (Z.to_nat qd) (DnsBuilder.questions b))) /\
    (0 <= unwrap_or (DnsBuilder.id b) 0 < 2 ^ 16 -> Dns.id d = Some (unwrap_or (DnsBuilder.id b) 0)) /\
    (0 <= qd < 2 ^ 16 -> Dns.qdcount d = Some qd) /\
    (0 <= unwrap_or (DnsBuilder.ancount b) 0 < 2 ^ 16 ->
     Dns.ancount d = Some (unwrap_or (DnsBuilder.ancount b) 0)) /\
    (0 <= unwrap_or (DnsBuilder.nscount b) 0 < 2 ^ 16 ->
     Dns.nscount d = Some (unwrap_or (DnsBuilder.nscount b) 0)) /\
    (0 <= unwrap_or (DnsBuilder.arcount b) 0 < 2 ^ 16 ->
     Dns.arcount d = Some (unwrap_or (DnsBuilder.arcount b) 0)) /\
    (0 <= x < 2 ^ 8 ->
     Dns.qr d = Some (unwrap_or (DnsBuilder.qr b) false || Z.testbit x 4) /\
     Dns.opcode d = Some (DnsOpCode_from (x mod 16)) /\
     Dns.aa d = Some (unwrap_or (DnsBuilder.aa b) false) /\
     Dns.tc d = Some (unwrap_or (DnsBuilder.tc b) false) /\
     Dns.rd d = Some (unwrap_or (DnsBuilder.rd b) false)) /\
    (0 <= zz < 2 ^ 3 ->
     Dns.ra d = Some (unwrap_or (DnsBuilder.ra b) false || Z.testbit y 7) /\
     Dns.z d = Some (Z.lor zz (y / 16 mod 8)) /\
     Dns.rcode d = Some (DnsRCode_from_u8 (y mod 16))).
Proof.
  intros x y zz qd.
  assert (Ry : 0 <= y < 2 ^ 8) by (subst y; unfold DnsRCode_into_u8; apply Z.mod_pos_bound; lia).
  unfold DnsBuilder.build. fold qd.
  do 2 wstep. rewrite write_opcode_target. fold x.
  do 6 wstep. rewrite write_rcode_target. fold y.
  do 5 wstep.
  eexists. split; [reflexivity|].
  assert (L12 : length d11 = 12%nat) by (len_simpl; reflexivity).
  split.
  { unfold Dns.new, Dns.validate. rewrite length_app, L12. reflexivity. }
  split.
  { rewrite skipn_app, L12, skipn_all2, Nat.sub_diag by lia. reflexivity. }
  split; [|split; [|split; [|split; [|split; [|split]]]]].
  - intros R. unfold Dns.id, read_field. rewrite slice_app_l by lia. slice_simpl. cbn [Nat.sub repeat].
    f_equal. apply (fast_uint_roundtrip 2); [lia | simpl; lia].
  - intros R. unfold Dns.qdcount, read_field. rewrite slice_app_l by lia. slice_simpl. cbn [Nat.sub repeat].
    f_equal. apply (fast_uint_roundtrip 2); [lia | simpl; lia].
  - intros R. unfold Dns.ancount, read_field. rewrite slice_app_l by lia. slice_simpl. cbn [Nat.sub repeat].
    f_equal. apply (fast_uint_roundtrip 2); [lia | simpl; lia].
  - intros R. unfold Dns.nscount, read_field. rewrite slice_app_l by lia. slice_simpl. cbn [Nat.sub repeat].
    f_equal. apply (fast_uint_roundtrip 2); [lia | simpl; lia].
  - intros R. unfold Dns.arcount, read_field. rewrite slice_app_l by lia. slice_simpl. cbn [Nat.sub repeat].
    f_equal. apply (fast_uint_roundtrip 2); [lia | simpl; lia].
  - intros Rx.
    destruct (dns_byte2_read (unwrap_or (DnsBuilder.qr b) false) x (unwrap_or (DnsBuilder.aa b) false)
                (unwrap_or (DnsBuilder.tc b) false) (unwrap_or (DnsBuilder.rd b) false) Rx)
      as (R1 & R2 & R3 & R4 & R5).
    unfold dns_byte2 in *. cbv zeta in R1, R2, R3, R4, R5.
    repeat split.
    + unfold Dns.qr, read_field. rewrite slice_app_l by lia. slice_simpl. cbn [Nat.sub repeat].
      f_equal. exact R1.
    + unfold Dns.opcode, read_field. rewrite slice_app_l by lia. slice_simpl. cbn [Nat.sub repeat].
      rewrite get_opcode_target. f_equal. f_equal. exact R2.
    + unfold Dns.aa, read_field. rewrite slice_app_l by lia. slice_simpl. cbn [Nat.sub repeat].
      f_equal. exact R3.
    + unfold Dns.tc, read_field. rewrite slice_app_l by lia. slice_simpl. cbn [Nat.sub repeat].
      f_equal. exact R4.
    + unfold Dns.rd, read_field. rewrite slice_app_l by lia. slice_simpl. cbn [Nat.sub repeat].
      f_equal. exact R5.
  - intros Rz.
    destruct (dns_byte3_read (unwrap_or (DnsBuilder.ra b) false) zz y Rz Ry) as (T1 & T2 & T3).
    unfold dns_byte3 in *. cbv zeta in T1, T2, T3.
    repeat split.
    + unfold Dns.ra, read_field. rewrite slice_app_l by lia. slice_simpl. cbn [Nat.sub repeat].
      f_equal. exact T1.
    + unfold Dns.z, read_field. rewrite slice_app_l by lia. slice_simpl. cbn [Nat.sub repeat].
      f_equal. exact T2.
    + unfold Dns.rcode, read_field. rewrite slice_app_l by lia. slice_simpl. cbn [Nat.sub repeat].
      rewrite get_rcode_target. f_equal. f_equal. exact T3.
Qed.

(** ** Mutators of fields that share a byte *)

Lemma testbit_small x n j : 0 <= x < 2 ^ n -> n <= j -> Z.testbit x j = false.
Proof.
  intros H Hj. destruct (Z.lt_ge_cases j 0) as [Hn|Hp]; [apply Z.testbit_neg_r; exact Hn|].
  destruct (Z.lt_ge_cases n 0) as [Nn|Np]; [rewrite Z.pow_neg_r in H by exact Nn; lia|].
  rewrite <- (Z.mod_small x (2 ^ n)) by exact H.
  rewrite Z.testbit_mod_pow2 by lia. destruct (Z.ltb_spec j n); [lia|reflexivity].
Qed.

Ltac tb_norm :=
  repeat match goal with
  | |- context [Z.testbit ?x ?j] =>
      let j' := eval vm_compute in j in
      lazymatch j' with j => fail | _ => change j with j' end
  end.

Ltac tb_fin :=
  repeat match goal with
  | |- context [Z.testbit ?x ?j] =>
      first
        [ rewrite (Z.testbit_neg_r x j) by lia
        | match goal with H : 0 <= x < 2 ^ ?n |- _ => rewrite (testbit_small x n j H) by lia end
        | rewrite (testbit_small x 16 j) by lia
        | lazymatch x with
          | Z.pos _ => let v := eval vm_compute in (Z.testbit x j) in change (Z.testbit x j) with v
          end ]
  end;
  repeat match goal with |- context [Z.testbit ?x ?j] => destruct (Z.testbit x j) end;
  reflexivity.

(** Closes the goals [Z.bitblast] leaves on values below [2 ^ 16], bit by bit. *)
Ltac bits_fin :=
  subst;
  match goal with Hi : 0 <= ?i |- _ => is_var i;
    assert (i < 24 \/ 24 <= i) as [Lt|Ge] by lia; [|tb_fin];
    let C := fresh in
    assert (C : exists k, i = Z.of_nat k /\ (k < 24)%nat) by (exists (Z.to_nat i); lia);
    let k := fresh "k" in let Hk := fresh in
    destruct C as (k & -> & Hk); clear Hi;
    do 24 (destruct k as [|k]; [tb_norm; tb_fin|]); lia
  end.

Lemma frag_word_low b0 b1 : 0 <= b0 < 2 ^ 8 -> 0 <= b1 < 2 ^ 8 ->
  Z.land (Z.lor b1 (Z.shiftl b0 8)) 8191 = Z.lor (Z.shiftl (Z.land b0 31) 8) b1.
Proof. intros. Z.bitblast; bits_fin. Qed.

Lemma frag_set_flags_bits b0 b1 o : 0 <= b0 < 2 ^ 8 -> 0 <= b1 < 2 ^ 8 -> 0 <= o < 2 ^ 13 ->
  Z.shiftr (Z.land (Z.shiftr (Z.lor (Z.land (Z.lor b1 (Z.shiftl b0 8)) 57344) o) 8 mod 2 ^ 8) 224) 5
  = Z.shiftr (Z.land b0 224) 5.
Proof. intros. Z.bitblast; bits_fin. Qed.

Lemma frag_set_frag_bits b0 b1 o : 0 <= b0 < 2 ^ 8 -> 0 <= b1 < 2 ^ 8 -> 0 <= o < 2 ^ 13 ->
  Z.land (Z.lor (Z.land (Z.lor b1 (Z.shiftl b0 8)) 57344) o mod 2 ^ 16) 8191 = o.
Proof. intros. Z.bitblast; bits_fin. Qed.

(** A buffer cut around the bytes at [a] and [a + 1]. *)
Lemma decomp2 (d : list byte) a : (S (S a) <= length d)%nat ->
  exists pre c0 c1 rest, d = pre ++ c0 :: c1 :: rest /\ length pre = a.
Proof.
  intros H. exists (firstn a d).
  destruct (skipn a d) as [|c0 [|c1 rest]] eqn:E.
  - pose proof (length_skipn a d) as L. rewrite E in L. simpl in L. lia.
  - pose proof (length_skipn a d) as L. rewrite E in L. simpl in L. lia.
  - exists c0, c1, rest. split; [|rewrite length_firstn; lia].
    rewrite <- E. symmetry. apply firstn_skipn.
Qed.

Lemma read_mid1 {T} (F : field_spec) msb (tg : target (fs_kind F) T) pre c rest a :
  length pre = a ->
  read_field F msb tg (pre ++ c :: rest) a (S a) = Some (get F msb tg (of_bytes _ [c])).
Proof.
  intros <-. unfold read_field. replace (S (length pre)) with (length pre + length [c])%nat by (simpl; lia).
  change (c :: rest) with ([c] ++ rest). rewrite slice_app_mid. reflexivity.
Qed.

Lemma read_mid2 {T} (F : field_spec) msb (tg : target (fs_kind F) T) pre c0 c1 rest a :
  length pre = a ->
  read_field F msb tg (pre ++ c0 :: c1 :: rest) a (S (S a))
  = Some (get F msb tg (of_bytes _ [c0; c1])).
Proof.
  intros <-. unfold read_field.
  replace (S (S (length pre))) with (length pre + length [c0; c1])%nat by (simpl; lia).
  change (c0 :: c1 :: rest) with ([c0; c1] ++ rest). rewrite slice_app_mid. reflexivity.
Qed.

Lemma write_mid {T} w m s msb (tg : target (UInt w) T) pre x rest a b v :
  length pre = a -> length x = w -> (a + w = b)%nat ->
  write_field (FieldSpec (UInt w) m s) msb tg (pre ++ x ++ rest) a b v
  = Some (pre ++ le_split w (set (FieldSpec (UInt w) m s) msb tg (le_combine x) v) ++ rest).
Proof.
  intros <- <- <-. unfold write_field. rewrite slice_app_mid. cbn [option_map]. f_equal.
  unfold splice. rewrite firstn_app, firstn_all, Nat.sub_diag, app_nil_r.
  rewrite (app_assoc pre x rest), skipn_app, length_app, Nat.sub_diag, skipn_all2 by (rewrite length_app; lia).
  reflexivity.
Qed.

(** Setting the one-byte field [m1, s1] to a value below [k] in a byte below 256, then
    reading the field [m2, s2] of the same byte: [get2] when the two fields differ, the
    value itself when they are the same field. *)
Definition byte_frame_at (m1 s1 m2 s2 x u : Z) : bool :=
  get (FieldSpec (UInt 1) m2 s2) true u8_target
    (byte.unsigned (byte.of_Z (set (FieldSpec (UInt 1) m1 s1) true u8_target x u)))
  =? get (FieldSpec (UInt 1) m2 s2) true u8_target x.

Definition byte_frame_check (m1 s1 m2 s2 : Z) (k : nat) : bool :=
  check_from (fun x => check_from (fun u => byte_frame_at m1 s1 m2 s2 x u) 0 k) 0 256.

Definition byte_readback_at (m s x u : Z) : bool :=
  get (FieldSpec (UInt 1) m s) true u8_target
    (byte.unsigned (byte.of_Z (set (FieldSpec (UInt 1) m s) true u8_target x u))) =? u.

Definition byte_readback_check (m s : Z) (k : nat) : bool :=
  check_from (fun x => check_from (fun u => byte_readback_at m s x u) 0 k) 0 256.

Lemma byte_check_at (f : Z -> Z -> bool) k (c : byte) u :
  check_from (fun x => check_from (fun u => f x u) 0 k) 0 256 = true ->
  0 <= u < Z.of_nat k -> f (byte.unsigned c) u = true.
Proof.
  intros H Hu. pose proof (byte.unsigned_range c) as R.
  pose proof (check_from_spec _ 0 256 H (byte.unsigned c) ltac:(change (Z.of_nat 256) with 256; lia)) as H1.
  exact (check_from_spec _ 0 k H1 u ltac:(lia)).
Qed.

(** Writing the one-byte field [m1, s1] of a buffer then reading the field [m2, s2] of the
    same byte, each through its own conversion. *)
Lemma byte_write_read m1 s1 m2 s2 {T1 T2} (tg1 : target (UInt 1) T1) (tg2 : target (UInt 1) T2)
  pre c rest a v :
  length pre = a ->
  exists c', write_field (FieldSpec (UInt 1) m1 s1) true tg1 (pre ++ c :: rest) a (S a) v
             = Some (pre ++ c' :: rest) /\
    get (FieldSpec (UInt 1) m2 s2) true tg2 (of_bytes (UInt 1) [c'])
    = from_underlay tg2 (get (FieldSpec (UInt 1) m2 s2) true u8_target
        (byte.unsigned (byte.of_Z
           (set (FieldSpec (UInt 1) m1 s1) true u8_target (byte.unsigned c) (into_underlay tg1 v))))) /\
    get (FieldSpec (UInt 1) m2 s2) true tg2 (of_bytes (UInt 1) [c])
    = from_underlay tg2 (get (FieldSpec (UInt 1) m2 s2) true u8_target (byte.unsigned c)).
Proof.
  intros La. change (c :: rest) with ([c] ++ rest).
  rewrite (write_mid 1 m1 s1 true tg1 pre [c] rest a (S a) v La eq_refl ltac:(lia)).
  eexists. split; [reflexivity|].
  cbn [of_bytes]. rewrite !le_combine_1. split; reflexivity.
Qed.

Lemma byte_frame m1 s1 m2 s2 k {T1 T2} (tg1 : target (UInt 1) T1) (tg2 : target (UInt 1) T2)
  d a v :
  byte_frame_check m1 s1 m2 s2 k = true -> 0 <= into_underlay tg1 v < Z.of_nat k ->
  (a < length d)%nat ->
  exists d', write_field (FieldSpec (UInt 1) m1 s1) true tg1 d a (S a) v = Some d' /\
    length d' = length d /\
    read_field (FieldSpec (UInt 1) m2 s2) true tg2 d' a (S a)
    = read_field (FieldSpec (UInt 1) m2 s2) true tg2 d a (S a).
Proof.
  intros Hc Hv Ha.
  assert (E : exists pre c rest, d = pre ++ c :: rest /\ length pre = a).
  { exists (firstn a d). destruct (skipn a d) as [|c rest] eqn:E.
    - pose proof (length_skipn a d) as L. rewrite E in L. simpl in L. lia.
    - exists c, rest. split; [|rewrite length_firstn; lia]. rewrite <- E. symmetry. apply firstn_skipn. }
  destruct E as (pre & c & rest & -> & La).
  destruct (byte_write_read m1 s1 m2 s2 tg1 tg2 pre c rest a v La) as (c' & W & G1 & G0).
  exists (pre ++ c' :: rest). split; [exact W|]. split; [rewrite !length_app; reflexivity|].
  rewrite !(read_mid1 _ _ _ pre _ rest a La). f_equal.
  etransitivity; [exact G1|]. etransitivity; [|symmetry; exact G0]. f_equal.
  apply Z.eqb_eq. exact (byte_check_at (byte_frame_at m1 s1 m2 s2) k c _ Hc Hv).
Qed.

Lemma byte_readback m s k {T} (tg : target (UInt 1) T) d a v :
  byte_readback_check m s k = true -> 0 <= into_underlay tg v < Z.of_nat k ->
  (a < length d)%nat ->
  exists d', write_field (FieldSpec (UInt 1) m s) true tg d a (S a) v = Some d' /\
    length d' = length d /\
    read_field (FieldSpec (UInt 1) m s) true tg d' a (S a) = Some (from_underlay tg (into_underlay tg v)).
Proof.
  intros Hc Hv Ha.
  assert (E : exists pre c rest, d = pre ++ c :: rest /\ length pre = a).
  { exists (firstn a d). destruct (skipn a d) as [|c rest] eqn:E.
    - pose proof (length_skipn a d) as L. rewrite E in L. simpl in L. lia.
    - exists c, rest. split; [|rewrite length_firstn; lia]. rewrite <- E. symmetry. apply firstn_skipn. }
  destruct E as (pre & c & rest & -> & La).
  destruct (byte_write_read m s m s tg tg pre c rest a v La) as (c' & W & G1 & _).
  exists (pre ++ c' :: rest). split; [exact W|]. split; [rewrite !length_app; reflexivity|].
  rewrite (read_mid1 _ _ _ pre _ rest a La). f_equal.
  etransitivity; [exact G1|]. f_equal.
  apply Z.eqb_eq. exact (byte_check_at (byte_readback_at m s) k c _ Hc Hv).
Qed.

Lemma ipv4_new_of_length d : (20 <= length d)%nat -> Ipv4.new d = Ok d.
Proof.
  intros H. unfold Ipv4.new, Ipv4.validate.
  destruct (Nat.ltb_spec (length d) Ipv4.MIN_HEADER_LENGTH); [unfold Ipv4.MIN_HEADER_LENGTH in *; lia|].
  reflexivity.
Qed.

Lemma le_combine_2 c0 c1 :
  le_combine [c0; c1] = Z.lor (byte.unsigned c0) (Z.shiftl (byte.unsigned c1) 8).
Proof.
  change (le_combine [c0; c1]) with (Z.lor (byte.unsigned c0) (Z.shiftl (le_combine [c1]) 8)).
  rewrite le_combine_1. reflexivity.
Qed.

Lemma swap_bytes_2 c0 c1 : UInt.swap_bytes 2 (le_combine [c0; c1]) = le_combine [c1; c0].
Proof.
  unfold UInt.swap_bytes. change 2%nat with (length [c0; c1]). rewrite split_le_combine. reflexivity.
Qed.

Lemma frag_read_bytes c0 c1 :
  get Ipv4.FragmentOffsetSpec true u16_target (of_bytes (UInt 2) [c0; c1])
  = Z.lor (Z.shiftl (Z.land (byte.unsigned c0) 31) 8) (byte.unsigned c1).
Proof.
  assert (E : [c0; c1] = rev (le_split 2 (le_combine [c1; c0]))).
  { change 2%nat with (length [c1; c0]). rewrite split_le_combine. reflexivity. }
  rewrite E, frag_get_bytes. clear E.
  pose proof (le_combine_bound [c1; c0]) as Bd. cbn [length] in Bd.
  rewrite Z.mod_small by (change (2 ^ 16) with (2 ^ (8 * 2)); exact Bd).
  rewrite le_combine_2. change (0x1FFF mod 2 ^ 16) with 8191.
  apply frag_word_low; apply byte.unsigned_range.
Qed.

Lemma flags_read_check :
  check_from (fun x => get Ipv4.FlagsSpec true u8_target x =? Z.shiftr (Z.land x 224) 5) 0 256 = true.
Proof. vm_compute. reflexivity. Qed.

Lemma flags_read_byte c0 :
  get Ipv4.FlagsSpec true u8_target (of_bytes (UInt 1) [c0]) = Z.shiftr (Z.land (byte.unsigned c0) 224) 5.
Proof.
  cbn [of_bytes]. rewrite le_combine_1. apply Z.eqb_eq.
  apply (check_from_spec _ 0 256 flags_read_check). pose proof (byte.unsigned_range c0).
  change (Z.of_nat 256) with 256. lia.
Qed.

Lemma flags_set_low_check :
  check_from (fun x => check_from (fun f =>
    Z.land (byte.unsigned (byte.of_Z (set Ipv4.FlagsSpec true u8_target x f))) 31 =? Z.land x 31)
    0 8) 0 256 = true.
Proof. vm_compute. reflexivity. Qed.

Lemma flags_set_low (c0 : byte) f : 0 <= f < 2 ^ 3 ->
  Z.land (byte.unsigned (byte.of_Z (set Ipv4.FlagsSpec true u8_target (byte.unsigned c0) f))) 31
  = Z.land (byte.unsigned c0) 31.
Proof.
  intros Hf. pose proof (byte.unsigned_range c0) as R.
  pose proof (check_from_spec _ 0 256 flags_set_low_check (byte.unsigned c0)
                ltac:(change (Z.of_nat 256) with 256; lia)) as H1. cbv beta in H1.
  pose proof (check_from_spec _ 0 8 H1 f ltac:(change (Z.of_nat 8) with (2 ^ 3); lia)) as H2.
  cbv beta in H2. apply Z.eqb_eq in H2. exact H2.
Qed.

Lemma ipv4_flags_mut pre c0 c1 rest f :
  length pre = 6%nat -> 0 <= f < 2 ^ 3 ->
  exists c0', write_field Ipv4.FlagsSpec true u8_target (pre ++ c0 :: c1 :: rest) 6 7 f
              = Some (pre ++ c0' :: c1 :: rest) /\
    Ipv4.flags (pre ++ c0' :: c1 :: rest) = Some f /\
    Ipv4.fragment_offset (pre ++ c0' :: c1 :: rest)
    = Ipv4.fragment_offset (pre ++ c0 :: c1 :: rest).
Proof.
  intros Lp Hf.
  assert (Rb : byte_readback_check 0xE0 5 8 = true) by (vm_compute; reflexivity).
  assert (Ha : (6 < length (pre ++ c0 :: c1 :: rest))%nat) by (rewrite length_app; cbn [length]; lia).
  destruct (byte_readback 0xE0 5 8 u8_target (pre ++ c0 :: c1 :: rest) 6 f Rb
              ltac:(change (Z.of_nat 8) with (2 ^ 3); exact Hf) Ha) as (d1 & W1 & _ & R1).
  pose proof W1 as W2.
  change (c0 :: c1 :: rest) with ([c0] ++ c1 :: rest) in W2.
  rewrite (write_mid 1 0xE0 5 true u8_target pre [c0] (c1 :: rest) 6 7 f Lp eq_refl eq_refl) in W2.
  injection W2 as W2. subst d1. cbn [le_split app] in R1, W1.
  eexists. split; [exact W1|]. split.
  - exact R1.
  - unfold Ipv4.fragment_offset. rewrite !(read_mid2 _ _ _ pre _ _ rest 6 Lp). f_equal.
    rewrite !frag_read_bytes. f_equal. f_equal.
    rewrite le_combine_1. exact (flags_set_low c0 f Hf).
Qed.

Lemma ipv4_frag_mut (pre : list byte) (c0 c1 : byte) (rest : list byte) (o : Z) :
  length pre = 6%nat -> 0 <= o < 2 ^ 13 ->
  exists c0' c1',
    (write_field Ipv4.FragmentOffsetSpec true u16_target (pre ++ c0 :: c1 :: rest) 6 8 o
     = Some (pre ++ c0' :: c1' :: rest)) /\
    (Ipv4.fragment_offset (pre ++ c0' :: c1' :: rest) = Some o) /\
    (Ipv4.flags (pre ++ c0' :: c1' :: rest) = Ipv4.flags (pre ++ c0 :: c1 :: rest)).
Proof.
  intros Lp Ho.
  change (c0 :: c1 :: rest) with ([c0; c1] ++ rest).
  unfold Ipv4.FragmentOffsetSpec at 1.
  rewrite (write_mid 2 0x1FFF 0 true u16_target pre [c0; c1] rest 6 8 o Lp eq_refl eq_refl).
  fold Ipv4.FragmentOffsetSpec.
  change (le_split 2 ?z) with (to_bytes (UInt 2) z).
  rewrite frag_set_bytes, swap_bytes_2, le_combine_2.
  change (u64_not 0x1FFF mod 2 ^ 16) with 57344.
  set (N := Z.lor (Z.land (Z.lor (byte.unsigned c1) (Z.shiftl (byte.unsigned c0) 8)) 57344) o).
  pose proof (byte.unsigned_range c0) as R0. pose proof (byte.unsigned_range c1) as R1.
  rewrite rev_le_split_2.
  exists (byte.of_Z (Z.shiftr N 8)), (byte.of_Z N). split; [reflexivity|]. cbn [app]. split.
  - unfold Ipv4.fragment_offset. rewrite (read_mid2 _ _ _ pre _ _ rest 6 Lp). f_equal.
    rewrite <- rev_le_split_2, frag_get_bytes. change (0x1FFF mod 2 ^ 16) with 8191.
    subst N. apply frag_set_frag_bits; assumption.
  - unfold Ipv4.flags. rewrite !(read_mid1 _ _ _ pre _ _ 6 Lp). f_equal.
    rewrite !flags_read_byte, byte.unsigned_of_Z. unfold byte.wrap.
    subst N. apply frag_set_flags_bits; assumption.
Qed.

Lemma ipv4_byte_checks :
  byte_readback_check 0xF0 4 16 = true /\ byte_readback_check 0x0F 0 16 = true /\
  byte_readback_check 0xFC 2 64 = true /\ byte_readback_check 0x03 0 4 = true /\
  byte_frame_check 0xF0 4 0x0F 0 16 = true /\ byte_frame_check 0x0F 0 0xF0 4 16 = true /\
  byte_frame_check 0xFC 2 0x03 0 64 = true /\ byte_frame_check 0x03 0 0xFC 2 4 = true.
Proof. repeat apply conj; vm_compute; reflexivity. Qed.

Lemma dns_byte_checks :
  byte_readback_check 0x78 3 16 = true /\ byte_readback_check 0x0F 0 16 = true /\
  byte_frame_check 0x78 3 0x80 7 16 = true /\ byte_frame_check 0x78 3 0x04 2 16 = true /\
  byte_frame_check 0x78 3 0x02 1 16 = true /\ byte_frame_check 0x78 3 0x01 0 16 = true /\
  byte_frame_check 0x0F 0 0x80 7 16 = true /\ byte_frame_check 0x0F 0 0x70 4 16 = true.
Proof. repeat apply conj; vm_compute; reflexivity. Qed.

Lemma dns_new_of_length d : (12 <= length d)%nat -> Dns.new d = Ok d.
Proof.
  intros H. unfold Dns.new, Dns.validate.
  destruct (Nat.ltb_spec (length d) 12); [lia|]. reflexivity.
Qed.

Lemma dns_new_length d : Dns.new d = Ok d -> (12 <= length d)%nat.
Proof.
  unfold Dns.new, Dns.validate. destruct (Nat.ltb_spec (length d) 12); [|lia].
  intros E. discriminate E.
Qed.

(* ================================================================== *)
(** * Properties of the specification *)

(** C1 (amended): [Field::set] followed by [Field::get] on a field of every shape: for
    a value whose underlay, shifted into place, lies within the mask, get
    returns the value and every bit of the normalized storage outside the
    mask keeps its value. *)
Theorem field_set_get (F : field_spec) (msb : bool) {T : Type}
  (tg : target (fs_kind F) T) (v : carrier (fs_kind F)) (x : T)
  (Hspec : spec_ok F = true) (Hv : wf _ v) (Hx : wf _ (into_underlay tg x))
  (Htg : from_underlay tg (into_underlay tg x) = x)
  (Hfit : fits F (into_underlay tg x) = true) :
  get F msb tg (set F msb tg v x) = x /\
  Z.land (bits _ (normalized F msb (set F msb tg v x))) (Z.lnot (fs_mask F))
  = Z.land (bits _ (normalized F msb v)) (Z.lnot (fs_mask F)).
Proof.
  destruct F as [k m s]. unfold spec_ok, fits in *. simpl in *.
  apply andb_true_iff in Hfit as [Hf1 Hf2].
  apply Z.eqb_eq in Hf1. apply Z.ltb_lt in Hf2.
  apply andb_true_iff in Hspec as [Hspec Hs2]. apply andb_true_iff in Hspec as [Hspec Hs1].
  apply andb_true_iff in Hspec as [Hspec Hm2]. apply andb_true_iff in Hspec as [Hk Hm1].
  apply Z.leb_le in Hm1, Hm2, Hs1. apply Z.ltb_lt in Hs2.
  apply supported_width in Hk as Hw.
  unfold get, set, raw, normalized, fast_path. simpl. cbv zeta.
  revert Htg Hf1 Hf2 Hx. generalize (into_underlay tg x) as u. intros u Htg Hf1 Hf2 Hx.
  pose proof (wf_normalized k v msb Hw Hv) as Hp.
  pose proof (bits_lt_u64 k _ Hw Hp) as Bp.
  pose proof (bits_lt_u64 k _ Hw Hx) as Bu.
  remember (if msb then u_from_be k v else u_from_le k v) as p eqn:Ep.
  assert (Hm : 0 <= m <= u64_max) by lia.
  destruct ((m =? u64_max) && (s =? 0))%bool eqn:Ef.
  - apply andb_true_iff in Ef as [Em _]. apply Z.eqb_eq in Em. subst m.
    rewrite normalized_to by assumption.
    split; [exact Htg|].
    rewrite !land_lnot_u64_max by assumption. reflexivity.
  - destruct (Z.eqb_spec s 0) as [Es|Es].
    + subst s. rewrite Z.shiftl_0_r in *.
      assert (Hn : wf k (u_bitor k (u_mask k p (u64_not m)) u))
        by (apply wf_bitor, Hx; [exact Hw | apply wf_mask; assumption]).
      rewrite normalized_to by assumption.
      rewrite bits_bitor, bits_mask by (try apply wf_mask; assumption).
      destruct (rmw_bits (bits k p) (bits k u) m Hm Bp Hf1) as [R1 R2].
      split; [|exact R2].
      rewrite <- Htg. f_equal. apply (bits_inj k Hw); [apply wf_mask; assumption | assumption |].
      rewrite bits_mask, bits_bitor, bits_mask by (try apply wf_mask; assumption).
      exact R1.
    + assert (Hsh : wf k (u_shl k u s)) by (apply wf_shl; assumption).
      assert (Bsh : bits k (u_shl k u s) = Z.shiftl (bits k u) s)
        by (rewrite bits_shl by (assumption || lia); apply Z.mod_small; split;
            [apply Z.shiftl_nonneg; lia | assumption]).
      assert (Hn : wf k (u_bitor k (u_mask k p (u64_not m)) (u_shl k u s)))
        by (apply wf_bitor, Hsh; [exact Hw | apply wf_mask; assumption]).
      rewrite normalized_to by assumption.
      rewrite bits_bitor, bits_mask, Bsh by (try apply wf_mask; assumption).
      destruct (rmw_bits (bits k p) (Z.shiftl (bits k u) s) m Hm Bp Hf1) as [R1 R2].
      split; [|exact R2].
      rewrite <- Htg. f_equal.
      apply (bits_inj k Hw); [apply wf_shr; [exact Hw | apply wf_mask; assumption | lia] | assumption |].
      rewrite bits_shr, bits_mask, bits_bitor, bits_mask, Bsh
        by (try apply wf_mask; try lia; assumption).
      rewrite R1, Z.shiftr_shiftl_l, Z.sub_diag, Z.shiftl_0_r by lia. reflexivity.
Qed.

Lemma field_set_get_witness :
  get IhlSpec true (same_target _) (set IhlSpec true (same_target _) 0x45 7) = 7 /\
  Z.land (bits _ (normalized IhlSpec true (set IhlSpec true (same_target _) 0x45 7)))
    (Z.lnot (fs_mask IhlSpec))
  = Z.land (bits _ (normalized IhlSpec true 0x45)) (Z.lnot (fs_mask IhlSpec)).
Proof.
  apply (field_set_get IhlSpec true (same_target _) 0x45 7);
    [reflexivity | simpl; lia | simpl; lia | reflexivity | reflexivity].
Defined.

(** Writing [0x15] into the IHL of the byte [0x40] (version 4): the
    value is not masked before it is OR-ed in, so get reads [5] back and
    the version nibble turns into [5]. *)
Lemma field_set_get_overflow :
  ~ (get IhlSpec true (same_target _) (set IhlSpec true (same_target _) 0x40 0x15) = 0x15 /\
     Z.land (bits _ (normalized IhlSpec true (set IhlSpec true (same_target _) 0x40 0x15)))
       (Z.lnot (fs_mask IhlSpec))
     = Z.land (bits _ (normalized IhlSpec true 0x40)) (Z.lnot (fs_mask IhlSpec))).
Proof. vm_compute. intros [H _]. discriminate H. Qed.


(** C2: for each of Ethernet, IPv4, TCP and UDP, [new] returns [Ok] with
    the buffer exactly when the buffer holds at least the fixed minimum
    header length (14, 20, 20, 8 bytes), and otherwise returns that
    layer's [InvalidLength] carrying the buffer length. *)
Theorem layers_new_min_length (data : list byte) :
  ((forall v, Eth.new data = Ok v <-> v = data /\ (14 <= length data)%nat) /\
   (forall e, Eth.new data = Err e <-> (length data < 14)%nat /\ e = Eth.InvalidLength (length data))) /\
  ((forall v, Ipv4.new data = Ok v <-> v = data /\ (20 <= length data)%nat) /\
   (forall e, Ipv4.new data = Err e <-> (length data < 20)%nat /\ e = Ipv4.InvalidLength (length data))) /\
  ((forall v, Tcp.new data = Ok v <-> v = data /\ (20 <= length data)%nat) /\
   (forall e, Tcp.new data = Err e <-> (length data < 20)%nat /\ e = Tcp.InvalidLength (length data))) /\
  ((forall v, Udp.new data = Ok v <-> v = data /\ (8 <= length data)%nat) /\
   (forall e, Udp.new data = Err e <-> (length data < 8)%nat /\ e = Udp.InvalidLength (length data))).
Proof.
  unfold Eth.new, Eth.validate, Ipv4.new, Ipv4.validate, Tcp.new, Tcp.validate,
    Udp.new, Udp.validate, Eth.MIN_HEADER_LENGTH, Ipv4.MIN_HEADER_LENGTH,
    Tcp.MIN_HEADER_LENGTH, Udp.MIN_HEADER_LENGTH.
  repeat split; intros;
    repeat match goal with
    | H : context [(length data <? ?m)%nat] |- _ => destruct (Nat.ltb_spec (length data) m)
    | |- context [(length data <? ?m)%nat] => destruct (Nat.ltb_spec (length data) m)
    end;
    repeat match goal with H : _ /\ _ |- _ => destruct H end;
    subst; try congruence; try lia;
    match goal with H : _ = _ |- _ => inversion H; reflexivity end.
Qed.

(** C3, on a buffer of 20 bytes with IHL 5: [options()] slices
    [data[20..0]] and panics instead of returning no bytes; with IHL 10 it
    returns [data[20..20]], no bytes, where the options are the bytes
    20 to 40. [options_mut()] and TCP's [options()] slice up to
    [4 * header length], the bytes the claim describes. *)
Theorem ipv4_options_end_offset :
  let d5 := x45 :: repeat x00 19 in
  let d10 := x4a :: repeat x00 19 ++ repeat x01 20 in
  let t10 := repeat x00 12 ++ [xa0] ++ repeat x00 7 ++ repeat x01 20 in
  Ipv4.new d5 = Ok d5 /\ Ipv4.ihl d5 = Some 5 /\ Ipv4.options d5 = None /\
  Ipv4.payload d5 = Some [] /\
  Ipv4.new d10 = Ok d10 /\ Ipv4.ihl d10 = Some 10 /\ Ipv4.options d10 = Some [] /\
  firstn 20 (skipn 20 d10) = repeat x01 20 /\ Ipv4.payload d10 = Some [] /\
  Tcp.new t10 = Ok t10 /\ Tcp.data_offset t10 = Some 10 /\ Tcp.options t10 = Some (repeat x01 20).
Proof. vm_compute. repeat split. Qed.

(** C5 (amended): an Ethernet view's [ipv4()] is [Some] exactly when the
    type field reads [0x0800] and the payload passes IPv4 validation, and
    [None] otherwise; an IPv4 view whose buffer holds its [4 * IHL] header
    bytes answers [tcp()] ([udp()]) with [Some] exactly when the protocol
    field reads 6 (17) and the payload passes TCP (UDP) validation, and
    [None] otherwise. None of them panics or returns an error. *)
Theorem layer_dispatch (eth ip : list byte) (n : Z)
  (He : Eth.new eth = Ok eth) (Hi : Ipv4.new ip = Ok ip)
  (Hn : Ipv4.ihl ip = Some n) (Hlen : (Z.to_nat n * 4 <= length ip)%nat) :
  (exists r, Eth.ipv4 eth = Some r /\
     forall v, r = Some v <->
       read_field Eth.EthTypeSpec true u16_target eth 12 14 = Some 0x0800 /\
       Ipv4.new (skipn 14 eth) = Ok v) /\
  (exists r, Ipv4.tcp ip = Some r /\
     forall v, r = Some v <->
       read_field Ipv4.ProtocolSpec true u8_target ip 9 10 = Some 6 /\
       Tcp.new (skipn (Z.to_nat n * 4) ip) = Ok v) /\
  (exists r, Ipv4.udp ip = Some r /\
     forall v, r = Some v <->
       read_field Ipv4.ProtocolSpec true u8_target ip 9 10 = Some 17 /\
       Udp.new (skipn (Z.to_nat n * 4) ip) = Ok v).
Proof.
  apply new_min_length_eth in He as [_ He]. apply new_min_length_ipv4 in Hi as [_ Hi].
  assert (Pl : Ipv4.payload ip = Some (skipn (Z.to_nat n * 4) ip))
    by (unfold Ipv4.payload; rewrite Hn; simpl; apply slice_from_ok; exact Hlen).
  unfold Eth.ipv4, Ipv4.tcp, Ipv4.udp, Eth.eth_type, Ipv4.protocol.
  rewrite (read_field_target Eth.EthTypeSpec true eth_type_target), (read_field_target Ipv4.ProtocolSpec true ip_protocol_target). rewrite Pl. unfold Eth.payload.
  rewrite slice_from_ok by lia.
  change (read_field Eth.EthTypeSpec true (same_target (fs_kind Eth.EthTypeSpec)) eth 12 14)
    with (read_field Eth.EthTypeSpec true u16_target eth 12 14).
  change (read_field Ipv4.ProtocolSpec true (same_target (fs_kind Ipv4.ProtocolSpec)) ip 9 10)
    with (read_field Ipv4.ProtocolSpec true u8_target ip 9 10).
  destruct (read_field_some Eth.EthTypeSpec true u16_target eth 12 14 ltac:(lia)) as [t Et].
  destruct (read_field_some Ipv4.ProtocolSpec true u8_target ip 9 10 ltac:(lia)) as [p Ep].
  rewrite Et, Ep. cbn [option_map bind from_underlay eth_type_target ip_protocol_target].
  rewrite EthType_eqb_from_Ipv4, IpProtocol_eqb_from_Tcp, IpProtocol_eqb_from_Udp.
  refine (conj _ (conj _ _));
    match goal with |- context [(?x =? ?c)] => destruct (Z.eqb_spec x c) end; subst;
    (eexists; split; [reflexivity|]); intros v;
    [ destruct (Ipv4.new (skipn 14 eth)) | destruct (Ipv4.new (skipn 14 eth))
    | destruct (Tcp.new (skipn (Z.to_nat n * 4) ip)) | destruct (Tcp.new (skipn (Z.to_nat n * 4) ip))
    | destruct (Udp.new (skipn (Z.to_nat n * 4) ip)) | destruct (Udp.new (skipn (Z.to_nat n * 4) ip)) ];
    (simpl; split;
     [ intros H; (discriminate H || (inversion H; subst; split; reflexivity))
     | intros [H1 H2]; congruence ]).
Qed.

(** C5, an IPv4 view over 20 bytes whose IHL is 15 and protocol is TCP:
    [tcp()] slices the payload at [data[60..]] and panics. *)
Lemma layer_dispatch_short_header :
  let d := x4f :: repeat x00 8 ++ [x06] ++ repeat x00 10 in
  Ipv4.new d = Ok d /\ Ipv4.ihl d = Some 15 /\
  read_field Ipv4.ProtocolSpec true u8_target d 9 10 = Some 6 /\ Ipv4.tcp d = None.
Proof. vm_compute. repeat split. Qed.

Lemma layer_dispatch_witness :
  let eth := repeat x00 12 ++ [x08; x00] ++ [x45] ++ repeat x00 8 ++ [x11] ++ repeat x00 10
             ++ repeat x00 8 in
  let ip := [x45] ++ repeat x00 8 ++ [x11] ++ repeat x00 10 ++ repeat x00 8 in
  Eth.new eth = Ok eth /\ Ipv4.new ip = Ok ip /\ Ipv4.ihl ip = Some 5 /\
  (Z.to_nat 5 * 4 <= length ip)%nat /\
  ((exists r, Eth.ipv4 eth = Some r /\
     forall v, r = Some v <->
       read_field Eth.EthTypeSpec true u16_target eth 12 14 = Some 0x0800 /\
       Ipv4.new (skipn 14 eth) = Ok v) /\
  (exists r, Ipv4.tcp ip = Some r /\
     forall v, r = Some v <->
       read_field Ipv4.ProtocolSpec true u8_target ip 9 10 = Some 6 /\
       Tcp.new (skipn (Z.to_nat 5 * 4) ip) = Ok v) /\
  (exists r, Ipv4.udp ip = Some r /\
     forall v, r = Some v <->
       read_field Ipv4.ProtocolSpec true u8_target ip 9 10 = Some 17 /\
       Udp.new (skipn (Z.to_nat 5 * 4) ip) = Ok v)).
Proof.
  intros eth ip.
  refine (conj eq_refl (conj eq_refl (conj eq_refl (conj _ _)))).
  - simpl. lia.
  - apply (layer_dispatch eth ip 5); [reflexivity | reflexivity | reflexivity | simpl; lia].
Defined.

(** C6 (amended): an IPv4 builder given only a payload of at most 65515
    bytes, and a TCP builder given only a payload, build a view whose IHL
    (data offset) reads 5 and whose total length (buffer length) is 20
    plus the payload length. *)
Theorem builders_default_lengths (p q : list byte) (Hp : Z.of_nat (20 + length p) < 2 ^ 16) :
  (exists d, Ipv4Builder.build (Ipv4Builder.with_payload p) = Some d /\
     Ipv4.ihl d = Some 5 /\ Ipv4.total_length d = Some (Z.of_nat (20 + length p))) /\
  (exists d, TcpBuilder.build (TcpBuilder.with_payload q) = Some d /\
     Tcp.data_offset d = Some 5 /\ length d = (20 + length q)%nat).
Proof.
  split.
  - destruct (ipv4_build_ok (Ipv4Builder.with_payload p)) as (d & E & _ & I & T & _);
      try reflexivity; simpl; try lia.
    exists d. simpl in I, T. auto.
  - destruct (tcp_build_ok (TcpBuilder.with_payload q)) as (d & E & L & I & _);
      try reflexivity; simpl; try lia.
    exists d. simpl in I, L. auto.
Qed.

(** C6, a payload of 65516 bytes: [ihl as u16 * 4 + payload.len() as u16]
    overflows [u16], and [build()] panics. *)
Lemma builders_default_lengths_overflow :
  Ipv4Builder.build (Ipv4Builder.with_payload (repeat x00 (Z.to_nat 65516))) = None.
Proof. vm_compute. reflexivity. Qed.

Lemma builders_default_lengths_witness :
  Z.of_nat (20 + length [x01; x02; x03; x04]) < 2 ^ 16 /\
  (exists d, Ipv4Builder.build (Ipv4Builder.with_payload [x01; x02; x03; x04]) = Some d /\
     Ipv4.ihl d = Some 5 /\ Ipv4.total_length d = Some (Z.of_nat (20 + length [x01; x02; x03; x04]))) /\
  (exists d, TcpBuilder.build (TcpBuilder.with_payload [x01]) = Some d /\
     Tcp.data_offset d = Some 5 /\ length d = (20 + length [x01])%nat).
Proof.
  split; [simpl; lia|].
  apply (builders_default_lengths [x01; x02; x03; x04] [x01]). simpl. lia.
Defined.

(** C9 (amended): the Ethernet builder always builds; the IPv4 builder
    builds when its IHL and total length are left unset, its options
    length is a multiple of 4 of at most 40 bytes and the total fits in
    [u16]; the TCP builder builds when its data offset is left unset and
    its options length is a multiple of 4 of at most 40 bytes; the UDP
    builder builds when its length is left unset and the total fits in
    [u16]. Unset scalars take their defaults: type [Reserved(0xFFFF)],
    TTL 64, protocol [Reserved(255)], window size 64, empty TCP flags. *)
Theorem builders_build_ok (be : EthBuilder.EthBuilder) (bi : Ipv4Builder.Ipv4Builder)
  (bt : TcpBuilder.TcpBuilder) (bu : UdpBuilder.UdpBuilder)
  (Hes : forall a, EthBuilder.src be = Some a -> length a = 6%nat)
  (Hed : forall a, EthBuilder.dst be = Some a -> length a = 6%nat)
  (Hii : Ipv4Builder.ihl bi = None) (Hit : Ipv4Builder.total_length bi = None)
  (Him : (length (Ipv4Builder.options bi) mod 4 = 0)%nat)
  (Hio : (length (Ipv4Builder.options bi) <= 40)%nat)
  (Hip : Z.of_nat (20 + length (Ipv4Builder.options bi) + length (Ipv4Builder.payload bi)) < 2 ^ 16)
  (Htd : TcpBuilder.data_offset bt = None)
  (Htm : (length (TcpBuilder.options bt) mod 4 = 0)%nat)
  (Hto : (length (TcpBuilder.options bt) <= 40)%nat)
  (Hul : UdpBuilder.length bu = None)
  (Hup : Z.of_nat (8 + length (UdpBuilder.payload bu)) < 2 ^ 16) :
  (exists d, EthBuilder.build be = Some d /\
     (EthBuilder.eth_type be = None -> Eth.eth_type d = Some (EthType_Reserved 0xFFFF))) /\
  (exists d, Ipv4Builder.build bi = Some d /\
     (Ipv4Builder.ttl bi = None -> Ipv4.ttl d = Some 64) /\
     (Ipv4Builder.protocol bi = None -> Ipv4.protocol d = Some (IpProtocol_Reserved 255))) /\
  (exists d, TcpBuilder.build bt = Some d /\
     (TcpBuilder.window_size bt = None -> Tcp.window_size d = Some 64) /\
     (TcpBuilder.flags bt = None -> Tcp.flags d = Some 0)) /\
  (exists d, UdpBuilder.build bu = Some d).
Proof.
  destruct (eth_build_ok be Hes Hed) as (de & Ee & _ & Te & _).
  destruct (ipv4_build_ok bi Hii Hit Him Hio Hip) as (di & Ei & _ & _ & _ & Ti & Pi & _).
  destruct (tcp_build_ok bt Htd Htm Hto) as (dt & Et & _ & _ & Wt & Ft & _).
  destruct (udp_build_ok bu Hul Hup) as (du & Eu & _).
  split; [eauto|]. split; [eauto|]. split; eauto.
Qed.

(** C9: with three option bytes the IPv4 and TCP builders size the
    options region to no bytes and [copy_from_slice] panics; a UDP builder
    given the length 3 panics writing the header fields. *)
Lemma builders_build_panics :
  Ipv4Builder.build
    {| Ipv4Builder.ihl := None; Ipv4Builder.dscp := None; Ipv4Builder.ecn := None;
       Ipv4Builder.total_length := None; Ipv4Builder.identification := None;
       Ipv4Builder.flags := None; Ipv4Builder.fragment_offset := None; Ipv4Builder.ttl := None;
       Ipv4Builder.protocol := None; Ipv4Builder.checksum := None; Ipv4Builder.src := None;
       Ipv4Builder.dst := None; Ipv4Builder.options := [x01; x02; x03];
       Ipv4Builder.payload := [] |} = None /\
  TcpBuilder.build
    {| TcpBuilder.src_port := None; TcpBuilder.dst_port := None; TcpBuilder.seq_num := None;
       TcpBuilder.ack_num := None; TcpBuilder.data_offset := None; TcpBuilder.flags := None;
       TcpBuilder.window_size := None; TcpBuilder.checksum := None;
       TcpBuilder.urgent_pointer := None; TcpBuilder.options := [x01; x02; x03];
       TcpBuilder.payload := [] |} = None /\
  UdpBuilder.build
    {| UdpBuilder.src_port := None; UdpBuilder.dst_port := None; UdpBuilder.length := Some 3;
       UdpBuilder.checksum := None; UdpBuilder.payload := [] |} = None.
Proof. vm_compute. repeat split. Qed.

Lemma builders_build_ok_witness :
  let be := {| EthBuilder.src := None; EthBuilder.dst := Some (repeat x01 6);
               EthBuilder.eth_type := None; EthBuilder.payload := [x01; x02] |} in
  let bi := {| Ipv4Builder.ihl := None; Ipv4Builder.dscp := Some 3; Ipv4Builder.ecn := None;
               Ipv4Builder.total_length := None; Ipv4Builder.identification := Some 7;
               Ipv4Builder.flags := None; Ipv4Builder.fragment_offset := None;
               Ipv4Builder.ttl := None; Ipv4Builder.protocol := None; Ipv4Builder.checksum := None;
               Ipv4Builder.src := Some 0x0a000102; Ipv4Builder.dst := None;
               Ipv4Builder.options := [x01; x01; x00; x00]; Ipv4Builder.payload := [x05] |} in
  let bt := {| TcpBuilder.src_port := Some 80; TcpBuilder.dst_port := None;
               TcpBuilder.seq_num := None; TcpBuilder.ack_num := None;
               TcpBuilder.data_offset := None; TcpBuilder.flags := None;
               TcpBuilder.window_size := None; TcpBuilder.checksum := None;
               TcpBuilder.urgent_pointer := None; TcpBuilder.options := repeat x01 8;
               TcpBuilder.payload := [x02] |} in
  let bu := {| UdpBuilder.src_port := Some 53; UdpBuilder.dst_port := None;
               UdpBuilder.length := None; UdpBuilder.checksum := None;
               UdpBuilder.payload := [x03; x04] |} in
  (exists d, EthBuilder.build be = Some d /\
     (EthBuilder.eth_type be = None -> Eth.eth_type d = Some (EthType_Reserved 0xFFFF))) /\
  (exists d, Ipv4Builder.build bi = Some d /\
     (Ipv4Builder.ttl bi = None -> Ipv4.ttl d = Some 64) /\
     (Ipv4Builder.protocol bi = None -> Ipv4.protocol d = Some (IpProtocol_Reserved 255))) /\
  (exists d, TcpBuilder.build bt = Some d /\
     (TcpBuilder.window_size bt = None -> Tcp.window_size d = Some 64) /\
     (TcpBuilder.flags bt = None -> Tcp.flags d = Some 0)) /\
  (exists d, UdpBuilder.build bu = Some d).
Proof.
  intros be bi bt bu.
  apply (builders_build_ok be bi bt bu);
    try (intros a H; inversion H; reflexivity); try reflexivity; simpl; lia.
Defined.

(** C4: for a buffer whose first zero byte is at index [k],
    [DnsQuestion::new] accepts it and the question's [len()] is [k + 4],
    although the question it describes ends with [qclass] at
    [data[k+3..k+5]], that is [k + 5] bytes. *)
Theorem dns_question_len (data : list byte) (k : nat)
  (Hk : DnsQuestion.position_zero data = Some k) :
  exists q, DnsQuestion.new data = Ok q /\ DnsQuestion.name_len q = k /\
    DnsQuestion.len q = (k + 4)%nat /\
    DnsQuestion.qclass q = read_field DnsQuestion.QclassSpec true u16_target data (k + 3) (k + 5).
Proof.
  unfold DnsQuestion.new. rewrite Hk.
  eexists; split; [reflexivity|]. repeat split.
Qed.

Lemma dns_question_len_witness :
  DnsQuestion.position_zero [x00; x00; x01; x00; x01] = Some O /\
  exists q, DnsQuestion.new [x00; x00; x01; x00; x01] = Ok q /\ DnsQuestion.name_len q = O /\
    DnsQuestion.len q = 4%nat /\
    DnsQuestion.qclass q = read_field DnsQuestion.QclassSpec true u16_target
      [x00; x00; x01; x00; x01] 3 5.
Proof.
  split; [reflexivity|].
  apply (dns_question_len [x00; x00; x01; x00; x01] O). reflexivity.
Defined.

(** The question iterator advances by [len()]: in a message with two
    root-name questions of type A, class IN at offsets 12 and 17, the
    second question is read from offset 16, the last byte of the first
    question's [qclass], and its name is the two bytes [01 00]. *)
Lemma dns_question_iter_misaligned :
  let q := [x00; x00; x01; x00; x01] in
  let dns := [x00; x00; x01; x00; x00; x02; x00; x00; x00; x00; x00; x00] ++ q ++ q in
  exists q1 q2,
    DnsQuestion.iter_next dns 12 0 = Some (Some (q1, 16%nat, 1%nat)) /\
    DnsQuestion.iter_next dns 16 1 = Some (Some (q2, 21%nat, 2%nat)) /\
    DnsQuestion.qname q2 = Some [x01; x00].
Proof. vm_compute. do 2 eexists. split; [reflexivity | split; reflexivity]. Qed.

(** C7 (counterexample): the label iterator does not stop at a root
    label: the buffer [00 03 'w' 'w' 'w' 00] yields the root label, then
    the label "www", then a second root label. *)
Lemma dns_labels_after_root :
  DnsName.labels [x00; x03; "w"%byte; "w"%byte; "w"%byte; x00]
  = Some [[x00]; [x03; "w"%byte; "w"%byte; "w"%byte]; [x00]].
Proof. vm_compute. reflexivity. Qed.

(** C7 (amended): the label iterator returns [None] exactly when its
    offset has reached the end of the buffer; a root label at offset [o]
    is yielded as the one-byte label [00] and iteration resumes at [o+1],
    so it stops right after that root label only when the root label is
    the last byte of the buffer.  A compression pointer is not a stopping
    condition either. *)
Theorem dns_labels_stop_at_end (data : list byte) (o : nat)
  (Hroot : nth_error data o = Some x00) :
  (forall o', DnsName.next data o' = Some None <-> (length data <= o')%nat) /\
  DnsName.next data o = Some (Some ([x00], S o)) /\
  (DnsName.next data (S o) = Some None <-> length data = S o).
Proof.
  assert (Ho : (o < length data)%nat) by (apply nth_error_Some; congruence).
  assert (Hend : forall o', DnsName.next data o' = Some None <-> (length data <= o')%nat).
  { intros o'. split.
    - intros H. destruct (Nat.le_gt_cases (length data) o') as [|Hlt]; [assumption|].
      exfalso. exact (dns_next_not_end data o' Hlt H).
    - intros H. unfold DnsName.next.
      destruct (Nat.leb_spec (length data) o'); [reflexivity | lia]. }
  split; [exact Hend|]. split.
  - unfold DnsName.next.
    destruct (Nat.leb_spec (length data) o); [lia|].
    rewrite (nth_error_nth _ _ _ Hroot). cbn [byte.unsigned Byte.to_N Z.of_N Z.to_nat].
    unfold slice.
    replace (o <=? o + 0 + 1)%nat with true by (symmetry; apply Nat.leb_le; lia).
    replace (o + 0 + 1 <=? length data)%nat with true by (symmetry; apply Nat.leb_le; lia).
    replace (o + 0 + 1 - o)%nat with 1%nat by lia.
    rewrite (firstn_1_skipn_nth_error _ _ _ Hroot). simpl.
    replace (o + 0 + 1)%nat with (S o) by lia. reflexivity.
  - rewrite Hend. lia.
Qed.

Lemma dns_labels_stop_at_end_witness :
  nth_error [x00; x03; "w"%byte; "w"%byte; "w"%byte; x00] 0 = Some x00 /\
  DnsName.next [x00; x03; "w"%byte; "w"%byte; "w"%byte; x00] 0 = Some (Some ([x00], 1%nat)).
Proof.
  split; [reflexivity|].
  refine (proj1 (proj2 (dns_labels_stop_at_end _ 0 _))). reflexivity.
Defined.

(** C8: [DnsName::from("www.example.com")] is the bytes
    [03 77 77 77 07 65 78 61 6d 70 6c 65 03 63 6f 6d 00]; its labels are
    "www", "example", "com" and the empty root label, in that order; and
    it is displayed as "www.example.com.". *)
Theorem dns_name_www_example_com :
  DnsName.from (list_byte_of_string "www.example.com")
    = [x03; x77; x77; x77; x07; x65; x78; x61; x6d; x70; x6c; x65; x03; x63; x6f; x6d; x00] /\
  option_map (map DnsLabel.label) (DnsName.labels (DnsName.from (list_byte_of_string "www.example.com")))
    = Some [Some (Some (list_byte_of_string "www")); Some (Some (list_byte_of_string "example"));
            Some (Some (list_byte_of_string "com")); Some (Some [])] /\
  DnsName.fmt (DnsName.from (list_byte_of_string "www.example.com"))
    = Some (list_byte_of_string "www.example.com.").
Proof. split; [|split]; vm_compute; reflexivity. Qed.

(** C10: for every string [s], [DnsName::from(s)] has [s.len() + 2]
    bytes and ends with a zero byte; [DnsName::from("")] is [00 00]. *)
Theorem dns_name_from_length (s : list byte) :
  length (DnsName.from s) = (length s + 2)%nat /\
  last (DnsName.from s) x01 = x00 /\
  DnsName.from [] = [x00; x00].
Proof.
  split; [|split; [|reflexivity]].
  - unfold DnsName.from. rewrite length_app, fold_push_length, str_split_length.
    simpl. lia.
  - unfold DnsName.from. apply last_last.
Qed.

(* ================================================================== *)
(** * Further properties of the code *)

(** X1: [DnsName::from(s)] followed by [labels()]: when every piece of
    [s.split('.')] is shorter than 256 bytes, the iterator yields, for each
    piece, its length byte followed by its bytes, then the root label [0]. *)
Theorem dns_name_from_labels (s : list byte) :
  (forall p, In p (str_split "."%byte s) -> (length p < 256)%nat) ->
  DnsName.labels (DnsName.from s)
  = Some (map (fun p => byte.of_Z (Z.of_nat (length p)) :: p) (str_split "."%byte s) ++ [[x00]]).
Proof.
  intros Hp. rewrite dns_from_labels by exact Hp. f_equal. f_equal.
  apply map_ext_in. intros p I. unfold enc_label, as_u8. rewrite Z.mod_small by (specialize (Hp p I); lia).
  reflexivity.
Qed.

Lemma dns_name_from_labels_witness :
  (forall p, In p (str_split "."%byte (list_byte_of_string "www.example.com")) -> (length p < 256)%nat) /\
  DnsName.labels (DnsName.from (list_byte_of_string "www.example.com"))
  = Some (map (fun p => byte.of_Z (Z.of_nat (length p)) :: p)
            (str_split "."%byte (list_byte_of_string "www.example.com")) ++ [[x00]]).
Proof.
  assert (H : forall p, In p (str_split "."%byte (list_byte_of_string "www.example.com")) -> (length p < 256)%nat)
    by (apply pieces_below; vm_compute; reflexivity).
  split; [exact H | apply (dns_name_from_labels _ H)].
Defined.

(** X2: [DnsLabel::label()] on the labels of [DnsName::from(s)]: when every
    piece is shorter than 64 bytes, every label is a normal one and gives
    back its piece, the root label giving the empty one. *)
Theorem dns_name_from_label_contents (s : list byte) :
  (forall p, In p (str_split "."%byte s) -> (length p < 64)%nat) ->
  exists ls, DnsName.labels (DnsName.from s) = Some ls /\
    map DnsLabel.label ls = map (fun p => Some (Some p)) (str_split "."%byte s ++ [[]]).
Proof.
  intros Hp. eexists. split.
  - apply dns_from_labels. intros p I. specialize (Hp p I). lia.
  - rewrite !map_app. f_equal. rewrite map_map. apply map_ext_in. intros p I.
    apply (dns_enc_label_reads p (Hp p I)).
Qed.

Lemma dns_name_from_label_contents_witness :
  (forall p, In p (str_split "."%byte (list_byte_of_string "www.example.com")) -> (length p < 64)%nat) /\
  exists ls, DnsName.labels (DnsName.from (list_byte_of_string "www.example.com")) = Some ls /\
    map DnsLabel.label ls
    = map (fun p => Some (Some p)) (str_split "."%byte (list_byte_of_string "www.example.com") ++ [[]]).
Proof.
  assert (H : forall p, In p (str_split "."%byte (list_byte_of_string "www.example.com")) -> (length p < 64)%nat)
    by (apply pieces_below; vm_compute; reflexivity).
  split; [exact H | apply (dns_name_from_label_contents _ H)].
Defined.

(** X3: [Display] of [DnsName::from(s)]: when every piece is shorter than 64
    bytes, the name is written as each non-empty piece followed by a '.',
    empty pieces writing nothing. *)
Theorem dns_name_display_pieces (s : list byte) :
  (forall p, In p (str_split "."%byte s) -> (length p < 64)%nat) ->
  DnsName.fmt (DnsName.from s)
  = Some (concat (map (fun p => if (length p =? 0)%nat then [] else p ++ ["."%byte])
                      (str_split "."%byte s))).
Proof. apply dns_fmt_from_pieces. Qed.

Lemma dns_name_display_pieces_witness :
  (forall p, In p (str_split "."%byte (list_byte_of_string "a..b")) -> (length p < 64)%nat) /\
  DnsName.fmt (DnsName.from (list_byte_of_string "a..b"))
  = Some (concat (map (fun p => if (length p =? 0)%nat then [] else p ++ ["."%byte])
                      (str_split "."%byte (list_byte_of_string "a..b")))).
Proof.
  assert (H : forall p, In p (str_split "."%byte (list_byte_of_string "a..b")) -> (length p < 64)%nat)
    by (apply pieces_below; vm_compute; reflexivity).
  split; [exact H | apply (dns_name_display_pieces _ H)].
Defined.

(** X4: [Display] of [DnsName::from(s)] writes [s] followed by a '.' when
    every piece of [s.split('.')] has between 1 and 63 bytes. *)
Theorem dns_name_display_from (s : list byte) :
  (forall p, In p (str_split "."%byte s) -> (0 < length p < 64)%nat) ->
  DnsName.fmt (DnsName.from s) = Some (s ++ ["."%byte]).
Proof. apply dns_fmt_from_nonempty. Qed.

Lemma dns_name_display_from_witness :
  (forall p, In p (str_split "."%byte (list_byte_of_string "www.example.com")) -> (0 < length p < 64)%nat) /\
  DnsName.fmt (DnsName.from (list_byte_of_string "www.example.com"))
  = Some (list_byte_of_string "www.example.com" ++ ["."%byte]).
Proof.
  assert (H : forall p, In p (str_split "."%byte (list_byte_of_string "www.example.com")) -> (0 < length p < 64)%nat)
    by (apply pieces_between; vm_compute; reflexivity).
  split; [exact H | apply (dns_name_display_from _ H)].
Defined.

(** X5: [PartialEq<str>] on [DnsName::from(s)], when every piece has
    between 1 and 63 bytes: it never panics, and it holds of exactly two
    strings, [s] and [s] followed by a '.'. *)
Theorem dns_name_eq_from (s other : list byte) :
  (forall p, In p (str_split "."%byte s) -> (0 < length p < 64)%nat) ->
  exists b, DnsName.eq (DnsName.from s) other = Some b /\
    (b = true <-> other = s \/ other = s ++ ["."%byte]).
Proof.
  intros Hp. unfold DnsName.eq. rewrite dns_fmt_from_nonempty by exact Hp. cbn [bind].
  destruct (bytes_eqb (s ++ ["."%byte]) other) eqn:E.
  - exists true. split; [reflexivity|]. apply bytes_eqb_iff in E. split; [intros _; right; auto | reflexivity].
  - unfold sub_usize. rewrite length_app. cbn [length].
    replace (1 <=? length s + 1)%nat with true by (symmetry; apply Nat.leb_le; lia).
    replace (length s + 1 - 1)%nat with (length s) by lia.
    cbn [bind]. rewrite firstn_app, firstn_all, Nat.sub_diag, app_nil_r.
    eexists. split; [reflexivity|]. rewrite bytes_eqb_iff. split.
    + intros ->. left. reflexivity.
    + intros [ -> | -> ]; [reflexivity|]. exfalso.
      assert (bytes_eqb (s ++ ["."%byte]) (s ++ ["."%byte]) = true) by (apply bytes_eqb_iff; reflexivity).
      congruence.
Qed.

Lemma dns_name_eq_from_witness :
  (forall p, In p (str_split "."%byte (list_byte_of_string "example.com")) -> (0 < length p < 64)%nat) /\
  exists b, DnsName.eq (DnsName.from (list_byte_of_string "example.com")) (list_byte_of_string "example.com") = Some b /\
    (b = true <-> list_byte_of_string "example.com" = list_byte_of_string "example.com" \/
                  list_byte_of_string "example.com" = list_byte_of_string "example.com" ++ ["."%byte]).
Proof.
  assert (H : forall p, In p (str_split "."%byte (list_byte_of_string "example.com")) -> (0 < length p < 64)%nat)
    by (apply pieces_between; vm_compute; reflexivity).
  split; [exact H | apply (dns_name_eq_from _ _ H)].
Defined.

(** X6: [PartialEq<str>] panics on a name whose [Display] writes nothing
    (such as [DnsName::from("")]) compared with any non-empty string: the
    subtraction [labels.len() - 1] underflows. *)
Theorem dns_name_eq_empty_panics (data other : list byte) :
  DnsName.fmt data = Some [] -> other <> [] -> DnsName.eq data other = None.
Proof.
  intros Hf Ho. unfold DnsName.eq. rewrite Hf. cbn [bind].
  destruct other as [|o os]; [congruence|]. reflexivity.
Qed.

Lemma dns_name_eq_empty_panics_witness :
  DnsName.fmt (DnsName.from []) = Some [] /\ list_byte_of_string "a" <> [] /\
  DnsName.eq (DnsName.from []) (list_byte_of_string "a") = None.
Proof.
  assert (H1 : DnsName.fmt (DnsName.from []) = Some []) by reflexivity.
  assert (H2 : list_byte_of_string "a" <> []) by discriminate.
  split; [exact H1|]. split; [exact H2|]. apply (dns_name_eq_empty_panics _ _ H1 H2).
Defined.

(** X7: [DnsName::from(s)] accepts pieces of 64 to 191 bytes, but their
    length byte then has the label type 1 or 2, neither normal nor
    compressed, and [Display] of the name panics (when every piece is
    shorter than 256 bytes). *)
Theorem dns_name_display_long_label_panics (s : list byte) :
  (forall p, In p (str_split "."%byte s) -> (length p < 256)%nat) ->
  (exists p, In p (str_split "."%byte s) /\ (64 <= length p < 192)%nat) ->
  DnsName.fmt (DnsName.from s) = None.
Proof.
  intros Hp [p [Ip Hl]]. rewrite dns_fmt_labels, dns_from_labels by exact Hp. cbn [bind].
  apply concat_opt_none. rewrite <- (dns_fmt_label_enc_mid p Hl).
  apply in_map, in_app_iff. left. apply in_map, Ip.
Qed.

Lemma dns_name_display_long_label_panics_witness :
  let s := repeat "a"%byte 64 ++ list_byte_of_string ".com" in
  (forall p, In p (str_split "."%byte s) -> (length p < 256)%nat) /\
  (exists p, In p (str_split "."%byte s) /\ (64 <= length p < 192)%nat) /\
  DnsName.fmt (DnsName.from s) = None.
Proof.
  intros s.
  assert (H1 : forall p, In p (str_split "."%byte s) -> (length p < 256)%nat)
    by (apply pieces_below; vm_compute; reflexivity).
  assert (H2 : exists p, In p (str_split "."%byte s) /\ (64 <= length p < 192)%nat).
  { exists (repeat "a"%byte 64). split; [vm_compute; left; reflexivity | rewrite repeat_length; lia]. }
  split; [exact H1|]. split; [exact H2|]. apply (dns_name_display_long_label_panics s H1 H2).
Defined.

(** X8: [DnsLabel] reads its first byte [b0] as the label type (its top two
    bits); [len()] is [b0] for a normal label ([b0 < 64]) and [None]
    otherwise; [offset()] is the low 14 bits of the first two bytes for a
    compressed label ([b0 >= 192]) and [None] otherwise. *)
Theorem dns_label_fields (b0 b1 : byte) (r : list byte) :
  DnsLabel.type_ (b0 :: r) = Some (byte.unsigned b0 / 64) /\
  DnsLabel.len (b0 :: r) = Some (if byte.unsigned b0 <? 64 then Some (byte.unsigned b0) else None) /\
  DnsLabel.offset (b0 :: b1 :: r) = Some (if 192 <=? byte.unsigned b0
    then Some ((byte.unsigned b0 mod 64) * 256 + byte.unsigned b1) else None).
Proof.
  pose proof (byte.unsigned_range b0) as R.
  destruct (dns_label_byte_fields (byte.unsigned b0) R) as [T L].
  split; [|split].
  - unfold DnsLabel.type_, DnsLabel.TypeSpec.
    rewrite (read_u8_field _ _ _ 0 b0) by reflexivity. fold DnsLabel.TypeSpec. rewrite T. reflexivity.
  - unfold DnsLabel.len. rewrite dns_is_normal_byte. cbn [bind].
    destruct (Z.ltb_spec (byte.unsigned b0) 64); [|reflexivity].
    unfold DnsLabel.LenSpec. rewrite (read_u8_field _ _ _ 0 b0) by reflexivity.
    fold DnsLabel.LenSpec. rewrite L, Z.mod_small by lia. reflexivity.
  - exact (dns_offset_bytes b0 b1).
Qed.




(** X11: [DnsQuestion::new] on the bytes built by [DnsQuestionBuilder::build]
    finds the same question (the same [name_len]) exactly when the name
    has no zero byte and no piece of [name.split('.')] has a length that is
    a multiple of 256 (an empty piece, as in a trailing '.', included):
    otherwise the first zero byte comes before the root label. *)
Theorem dns_question_build_reparse (b : DnsQuestionBuilder.DnsQuestionBuilder) q :
  DnsQuestionBuilder.build b = Some q ->
  let n := unwrap_or (DnsQuestionBuilder.qname b) [] in
  DnsQuestion.new (DnsQuestion.data q) = Ok q <->
  (~ In x00 n /\ forall p, In p (str_split "."%byte n) -> (length p mod 256 <> 0)%nat).
Proof.
  intros Hb n. destruct (dns_question_build_prefix b q Hb) as [HN Hd]. fold n in HN, Hd.
  destruct q as [dq nq]. cbn [DnsQuestion.data DnsQuestion.name_len] in *.
  set (t := skipn (S nq) dq) in Hd.
  assert (Hl : length (DnsName.from n) = S (length (concat (map enc_label (str_split "."%byte n)))))
    by (rewrite dns_from_concat, length_app, Nat.add_comm; reflexivity).
  unfold DnsQuestion.new. rewrite Hd, dns_from_concat, <- app_assoc. cbn [app].
  destruct (In_dec Byte.byte_eq_dec x00 (concat (map enc_label (str_split "."%byte n)))) as [I|I].
  - destruct (position_zero_app_early _ (x00 :: t) I) as [k [K1 K2]]. rewrite K1.
    split; [intros E; inversion E; lia|].
    apply in_zero_enc_labels in I as [p [Ip [Ix|E]]]; intros [H1 H2].
    + exfalso. apply H1, in_zero_split. exists p. split; assumption.
    + exfalso. apply (H2 p Ip E).
  - rewrite position_zero_app_root by exact I. split; [|intros _; f_equal; f_equal; lia].
    intros _. rewrite in_zero_enc_labels in I. split.
    + intros Ix. apply in_zero_split in Ix as [p [Ip Ix]]. apply I. exists p. auto.
    + intros p Ip E. apply I. exists p. auto.
Qed.

Lemma dns_question_build_reparse_witness :
  exists q, DnsQuestionBuilder.build
    {| DnsQuestionBuilder.qname := Some (list_byte_of_string "example.com.");
       DnsQuestionBuilder.qtype := None; DnsQuestionBuilder.qclass := None |} = Some q /\
    DnsQuestion.new (DnsQuestion.data q) <> Ok q.
Proof.
  eexists. split; [reflexivity|]. intros E.
  apply (dns_question_build_reparse
    {| DnsQuestionBuilder.qname := Some (list_byte_of_string "example.com.");
       DnsQuestionBuilder.qtype := None; DnsQuestionBuilder.qclass := None |} _ eq_refl) in E.
  destruct E as [_ E]. apply (E []); [vm_compute; right; right; left; reflexivity | reflexivity].
Defined.

(** X12: [UdpBuilder::build] succeeds exactly when 8 plus the payload length fits in
    u16 and the explicit length, if any, equals it (given an explicit length in u16). *)
Lemma udp_build_some_iff (b : UdpBuilder.UdpBuilder) :
  (forall x, UdpBuilder.length b = Some x -> 0 <= x < 2 ^ 16) ->
  (exists d, UdpBuilder.build b = Some d) <->
  Z.of_nat (8 + length (UdpBuilder.payload b)) < 2 ^ 16 /\
  (UdpBuilder.length b = None \/
   UdpBuilder.length b = Some (Z.of_nat (8 + length (UdpBuilder.payload b)))).
Proof.
  intros Hx. split.
  - intros [d B]. exact (udp_build_some_inv b d Hx B).
  - intros [Hp Hl]. unfold UdpBuilder.build.
    assert (Elen : add_u16 (Z.of_nat Udp.MIN_HEADER_LENGTH) (as_u16 (length (UdpBuilder.payload b)))
                   = Some (Z.of_nat (8 + length (UdpBuilder.payload b)))).
    { unfold add_u16, as_u16, Udp.MIN_HEADER_LENGTH. rewrite Z.mod_small by lia.
      destruct (Z.ltb_spec (Z.of_nat 8 + Z.of_nat (length (UdpBuilder.payload b))) (2 ^ 16)); [|lia].
      f_equal. lia. }
    rewrite Elen. cbn [bind].
    replace (unwrap_or (UdpBuilder.length b) (Z.of_nat (8 + length (UdpBuilder.payload b))))
      with (Z.of_nat (8 + length (UdpBuilder.payload b)))
      by (destruct Hl as [-> | ->]; reflexivity).
    rewrite Nat2Z.id.
    set (n := (8 + length (UdpBuilder.payload b))%nat).
    destruct (write_field_some Udp.PortSpec true u16_target (repeat x00 n) 0 2
                (unwrap_or (UdpBuilder.src_port b) 0)) as [e0 F0];
      [rewrite repeat_length; subst n; lia|].
    rewrite F0; cbn [bind].
    apply write_field_len in F0; [|apply uint_set_len]. rewrite repeat_length in F0.
    destruct (write_field_some Udp.PortSpec true u16_target e0 2 4
                (unwrap_or (UdpBuilder.dst_port b) 0)) as [e1 F1]; [subst n; lia|].
    rewrite F1; cbn [bind].
    apply write_field_len in F1; [|apply uint_set_len].
    destruct (write_field_some Udp.LengthSpec true u16_target e1 4 6 (Z.of_nat n)) as [e2 F2];
      [subst n; lia|].
    rewrite F2; cbn [bind].
    apply write_field_len in F2; [|apply uint_set_len].
    destruct (write_field_some Udp.ChecksumSpec true u16_target e2 6 8
                (unwrap_or (UdpBuilder.checksum b) 0)) as [e3 F3]; [subst n; lia|].
    rewrite F3; cbn [bind].
    apply write_field_len in F3; [|apply uint_set_len].
    apply copy_from_slice_from_some; subst n; lia.
Qed.

Lemma udp_build_some_iff_witness :
  (forall x, UdpBuilder.length
     {| UdpBuilder.src_port := Some 53; UdpBuilder.dst_port := Some 5353;
        UdpBuilder.length := Some 11; UdpBuilder.checksum := None;
        UdpBuilder.payload := [x01; x02; x03] |} = Some x -> 0 <= x < 2 ^ 16) /\
  ((exists d, UdpBuilder.build
     {| UdpBuilder.src_port := Some 53; UdpBuilder.dst_port := Some 5353;
        UdpBuilder.length := Some 11; UdpBuilder.checksum := None;
        UdpBuilder.payload := [x01; x02; x03] |} = Some d) <->
   Z.of_nat (8 + 3) < 2 ^ 16 /\ (Some 11 = None \/ Some 11 = Some (Z.of_nat (8 + 3)))).
Proof.
  assert (H : forall x, Some 11 = Some x -> 0 <= x < 2 ^ 16)
    by (intros x E; injection E as <-; lia).
  split; [exact H|].
  exact (udp_build_some_iff
     {| UdpBuilder.src_port := Some 53; UdpBuilder.dst_port := Some 5353;
        UdpBuilder.length := Some 11; UdpBuilder.checksum := None;
        UdpBuilder.payload := [x01; x02; x03] |} H).
Defined.

(** X13: a UDP datagram built with consistent lengths and u16 header values is a valid
    view whose accessors read back the ports, length, checksum and payload. *)
Lemma udp_build_readback (b : UdpBuilder.UdpBuilder) :
  Z.of_nat (8 + length (UdpBuilder.payload b)) < 2 ^ 16 ->
  (UdpBuilder.length b = None \/
   UdpBuilder.length b = Some (Z.of_nat (8 + length (UdpBuilder.payload b)))) ->
  0 <= unwrap_or (UdpBuilder.src_port b) 0 < 2 ^ 16 ->
  0 <= unwrap_or (UdpBuilder.dst_port b) 0 < 2 ^ 16 ->
  0 <= unwrap_or (UdpBuilder.checksum b) 0 < 2 ^ 16 ->
  exists d, UdpBuilder.build b = Some d /\ Udp.new d = Ok d /\
    length d = (8 + length (UdpBuilder.payload b))%nat /\
    Udp.src_port d = Some (unwrap_or (UdpBuilder.src_port b) 0) /\
    Udp.dst_port d = Some (unwrap_or (UdpBuilder.dst_port b) 0) /\
    Udp.length_ d = Some (Z.of_nat (8 + length (UdpBuilder.payload b))) /\
    Udp.checksum d = Some (unwrap_or (UdpBuilder.checksum b) 0) /\
    Udp.payload d = Some (UdpBuilder.payload b).
Proof.
  intros Hp Hl Hs Hd Hc.
  destruct (udp_build_spec_core b Hp Hl Hs Hd Hc) as [d (B & L & R)].
  exists d. split; [exact B|]. split; [|split; [exact L | exact R]].
  unfold Udp.new, Udp.validate, Udp.MIN_HEADER_LENGTH. rewrite L.
  destruct (Nat.ltb_spec (8 + length (UdpBuilder.payload b)) 8); [lia | reflexivity].
Qed.

Lemma udp_build_readback_witness :
  exists d, UdpBuilder.build
     {| UdpBuilder.src_port := Some 53; UdpBuilder.dst_port := Some 5353;
        UdpBuilder.length := None; UdpBuilder.checksum := Some 4660;
        UdpBuilder.payload := [x01; x02; x03] |} = Some d /\ Udp.new d = Ok d /\
    length d = 11%nat /\ Udp.src_port d = Some 53 /\ Udp.dst_port d = Some 5353 /\
    Udp.length_ d = Some 11 /\ Udp.checksum d = Some 4660 /\
    Udp.payload d = Some [x01; x02; x03].
Proof.
  apply (udp_build_readback
     {| UdpBuilder.src_port := Some 53; UdpBuilder.dst_port := Some 5353;
        UdpBuilder.length := None; UdpBuilder.checksum := Some 4660;
        UdpBuilder.payload := [x01; x02; x03] |}); cbn; [lia | left; reflexivity | lia | lia | lia].
Defined.

(** X14: with its data offset left unset, [TcpBuilder::build] succeeds exactly when the
    options length is a multiple of 4 of at most 40 bytes; a build that succeeds always
    has such options, whatever data offset is set. *)
Lemma tcp_build_options_iff (b : TcpBuilder.TcpBuilder) :
  ((exists d, TcpBuilder.build b = Some d) ->
   (length (TcpBuilder.options b) mod 4 = 0)%nat /\ (length (TcpBuilder.options b) <= 40)%nat) /\
  (TcpBuilder.data_offset b = None ->
   (exists d, TcpBuilder.build b = Some d) <->
   (length (TcpBuilder.options b) mod 4 = 0)%nat /\ (length (TcpBuilder.options b) <= 40)%nat).
Proof.
  split.
  - intros [d B]. exact (tcp_build_options_inv b d B).
  - intros Hd. split.
    + intros [d B]. exact (tcp_build_options_inv b d B).
    + intros [Hm Ho]. destruct (tcp_build_ok b Hd Hm Ho) as [d [B _]]. exists d. exact B.
Qed.

Lemma tcp_build_options_iff_witness :
  TcpBuilder.build
    {| TcpBuilder.src_port := None; TcpBuilder.dst_port := None; TcpBuilder.seq_num := None;
       TcpBuilder.ack_num := None; TcpBuilder.data_offset := None; TcpBuilder.flags := None;
       TcpBuilder.window_size := None; TcpBuilder.checksum := None;
       TcpBuilder.urgent_pointer := None; TcpBuilder.options := [x01; x01; x01];
       TcpBuilder.payload := [] |} = None /\
  ((exists d, TcpBuilder.build
    {| TcpBuilder.src_port := None; TcpBuilder.dst_port := None; TcpBuilder.seq_num := None;
       TcpBuilder.ack_num := None; TcpBuilder.data_offset := None; TcpBuilder.flags := None;
       TcpBuilder.window_size := None; TcpBuilder.checksum := None;
       TcpBuilder.urgent_pointer := None; TcpBuilder.options := [x01; x01; x01];
       TcpBuilder.payload := [] |} = Some d) <-> (3 mod 4 = 0 /\ 3 <= 40)%nat).
Proof.
  split; [vm_compute; reflexivity|].
  exact (proj2 (tcp_build_options_iff
    {| TcpBuilder.src_port := None; TcpBuilder.dst_port := None; TcpBuilder.seq_num := None;
       TcpBuilder.ack_num := None; TcpBuilder.data_offset := None; TcpBuilder.flags := None;
       TcpBuilder.window_size := None; TcpBuilder.checksum := None;
       TcpBuilder.urgent_pointer := None; TcpBuilder.options := [x01; x01; x01];
       TcpBuilder.payload := [] |}) eq_refl).
Defined.

(** X15: a TCP segment built with its data offset unset, options padded to a multiple of 4
    of at most 40 bytes and in-range header values is a valid view whose accessors read
    back every header field (window size 64 and the others 0 by default), the options
    and the payload. *)
Lemma tcp_build_readback (b : TcpBuilder.TcpBuilder) :
  TcpBuilder.data_offset b = None ->
  (length (TcpBuilder.options b) mod 4 = 0)%nat -> (length (TcpBuilder.options b) <= 40)%nat ->
  0 <= unwrap_or (TcpBuilder.src_port b) 0 < 2 ^ 16 ->
  0 <= unwrap_or (TcpBuilder.dst_port b) 0 < 2 ^ 16 ->
  0 <= unwrap_or (TcpBuilder.seq_num b) 0 < 2 ^ 32 ->
  0 <= unwrap_or (TcpBuilder.ack_num b) 0 < 2 ^ 32 ->
  0 <= unwrap_or (TcpBuilder.flags b) 0 < 2 ^ 8 ->
  0 <= unwrap_or (TcpBuilder.window_size b) 64 < 2 ^ 16 ->
  0 <= unwrap_or (TcpBuilder.checksum b) 0 < 2 ^ 16 ->
  0 <= unwrap_or (TcpBuilder.urgent_pointer b) 0 < 2 ^ 16 ->
  exists d, TcpBuilder.build b = Some d /\ Tcp.new d = Ok d /\
    Tcp.src_port d = Some (unwrap_or (TcpBuilder.src_port b) 0) /\
    Tcp.dst_port d = Some (unwrap_or (TcpBuilder.dst_port b) 0) /\
    Tcp.seq_num d = Some (unwrap_or (TcpBuilder.seq_num b) 0) /\
    Tcp.ack_num d = Some (unwrap_or (TcpBuilder.ack_num b) 0) /\
    Tcp.flags d = Some (unwrap_or (TcpBuilder.flags b) 0) /\
    Tcp.window_size d = Some (unwrap_or (TcpBuilder.window_size b) 64) /\
    Tcp.checksum d = Some (unwrap_or (TcpBuilder.checksum b) 0) /\
    Tcp.urgent_pointer d = Some (unwrap_or (TcpBuilder.urgent_pointer b) 0) /\
    Tcp.options d = Some (TcpBuilder.options b) /\
    Tcp.payload d = Some (TcpBuilder.payload b).
Proof.
  intros Hd Hm Ho Rs Rd Rq Ra Rf Rw Rc Ru.
  set (k := (length (TcpBuilder.options b) / 4)%nat).
  assert (Hk : length (TcpBuilder.options b) = (4 * k)%nat).
  { pose proof (Nat.div_mod_eq (length (TcpBuilder.options b)) 4) as D.
    rewrite Hm in D. subst k. lia. }
  unfold TcpBuilder.build. rewrite Hd. cbn [unwrap_or].
  assert (Edo : as_u8 (length (TcpBuilder.options b)) / 4 + 5 = Z.of_nat k + 5).
  { unfold as_u8. rewrite Hk, Z.mod_small by lia. rewrite Nat2Z.inj_mul.
    rewrite Z.mul_comm, Z.div_mul by lia. reflexivity. }
  rewrite Edo.
  replace (Z.to_nat (Z.of_nat k + 5) * 4)%nat with (20 + length (TcpBuilder.options b))%nat by lia.
  do 9 wstep.
  assert (I1 : Tcp.data_offset d7 = Some (Z.of_nat k + 5)).
  { unfold Tcp.data_offset, read_field. slice_simpl. cbn [Nat.sub repeat]. f_equal.
    apply tcp_byte12_data_offset. lia. }
  rewrite I1. cbn [bind]. unfold Tcp.MIN_HEADER_LENGTH.
  replace (Z.to_nat (Z.of_nat k + 5) * 4)%nat with (20 + length (TcpBuilder.options b))%nat by lia.
  destruct (copy_from_slice_some d7 20 (20 + length (TcpBuilder.options b)) (TcpBuilder.options b))
    as [d8 E8]; [len_simpl; lia | lia |].
  rewrite E8. cbn [bind].
  destruct (copy_from_slice_frame _ _ _ _ _ E8) as (L8 & S8 & B8 & A8 & P8). clear E8.
  assert (I2 : Tcp.data_offset d8 = Some (Z.of_nat k + 5))
    by (unfold Tcp.data_offset, read_field; rewrite B8 by lia; exact I1).
  rewrite I2. cbn [bind].
  replace (Z.to_nat (Z.of_nat k + 5) * 4)%nat with (20 + length (TcpBuilder.options b))%nat by lia.
  destruct (copy_from_slice_from_some d8 (20 + length (TcpBuilder.options b)) (TcpBuilder.payload b))
    as [d9 E9]; [len_simpl; lia | len_simpl; lia |].
  rewrite E9.
  destruct (copy_from_slice_from_frame _ _ _ _ E9) as (L9 & P9 & B9). clear E9.
  assert (I3 : Tcp.data_offset d9 = Some (Z.of_nat k + 5))
    by (unfold Tcp.data_offset, read_field; rewrite B9 by lia; exact I2).
  exists d9. split; [reflexivity|]. split.
  { unfold Tcp.new, Tcp.validate, Tcp.MIN_HEADER_LENGTH.
    assert (Ld : (20 <= length d9)%nat) by (len_simpl; lia).
    destruct (Nat.ltb_spec (length d9) 20); [lia | reflexivity]. }
  repeat split.
  - unfold Tcp.src_port, read_field. rewrite B9, B8 by lia. slice_simpl. cbn [Nat.sub repeat].
    f_equal. apply (fast_uint_roundtrip 2); [lia | simpl; lia].
  - unfold Tcp.dst_port, read_field. rewrite B9, B8 by lia. slice_simpl. cbn [Nat.sub repeat].
    f_equal. apply (fast_uint_roundtrip 2); [lia | simpl; lia].
  - unfold Tcp.seq_num, read_field. rewrite B9, B8 by lia. slice_simpl. cbn [Nat.sub repeat].
    f_equal. apply (fast_uint_roundtrip 4); [lia | simpl; lia].
  - unfold Tcp.ack_num, read_field. rewrite B9, B8 by lia. slice_simpl. cbn [Nat.sub repeat].
    f_equal. apply (fast_uint_roundtrip 4); [lia | simpl; lia].
  - unfold Tcp.flags, read_field. rewrite B9, B8 by lia. slice_simpl. cbn [Nat.sub repeat].
    f_equal. apply (fast_uint_roundtrip 1); [lia | simpl; lia].
  - unfold Tcp.window_size, read_field. rewrite B9, B8 by lia. slice_simpl. cbn [Nat.sub repeat].
    f_equal. apply (fast_uint_roundtrip 2); [lia | simpl; lia].
  - unfold Tcp.checksum, read_field. rewrite B9, B8 by lia. slice_simpl. cbn [Nat.sub repeat].
    f_equal. apply (fast_uint_roundtrip 2); [lia | simpl; lia].
  - unfold Tcp.urgent_pointer, read_field. rewrite B9, B8 by lia. slice_simpl. cbn [Nat.sub repeat].
    f_equal. apply (fast_uint_roundtrip 2); [lia | simpl; lia].
  - unfold Tcp.options. rewrite I3. cbn [bind]. unfold Tcp.MIN_HEADER_LENGTH.
    replace (Z.to_nat (Z.of_nat k + 5) * 4)%nat with (20 + length (TcpBuilder.options b))%nat by lia.
    rewrite B9 by lia. exact S8.
  - unfold Tcp.payload. rewrite I3. cbn [bind].
    replace (Z.to_nat (Z.of_nat k + 5) * 4)%nat with (20 + length (TcpBuilder.options b))%nat by lia.
    exact P9.
Qed.

Lemma tcp_build_readback_witness :
  exists d, TcpBuilder.build
    {| TcpBuilder.src_port := Some 443; TcpBuilder.dst_port := Some 50000;
       TcpBuilder.seq_num := Some 4000000000; TcpBuilder.ack_num := Some 7;
       TcpBuilder.data_offset := None; TcpBuilder.flags := Some 18;
       TcpBuilder.window_size := None; TcpBuilder.checksum := Some 65535;
       TcpBuilder.urgent_pointer := None; TcpBuilder.options := [x02; x04; x05; xb4];
       TcpBuilder.payload := [x68; x69] |} = Some d /\ Tcp.new d = Ok d /\
    Tcp.src_port d = Some 443 /\ Tcp.dst_port d = Some 50000 /\
    Tcp.seq_num d = Some 4000000000 /\ Tcp.ack_num d = Some 7 /\ Tcp.flags d = Some 18 /\
    Tcp.window_size d = Some 64 /\ Tcp.checksum d = Some 65535 /\
    Tcp.urgent_pointer d = Some 0 /\ Tcp.options d = Some [x02; x04; x05; xb4] /\
    Tcp.payload d = Some [x68; x69].
Proof.
  apply (tcp_build_readback
    {| TcpBuilder.src_port := Some 443; TcpBuilder.dst_port := Some 50000;
       TcpBuilder.seq_num := Some 4000000000; TcpBuilder.ack_num := Some 7;
       TcpBuilder.data_offset := None; TcpBuilder.flags := Some 18;
       TcpBuilder.window_size := None; TcpBuilder.checksum := Some 65535;
       TcpBuilder.urgent_pointer := None; TcpBuilder.options := [x02; x04; x05; xb4];
       TcpBuilder.payload := [x68; x69] |}); cbn; (reflexivity || lia).
Defined.

(** X16: an Ethernet frame built with 6-byte addresses and an in-range type is a valid view
    whose accessors read back the addresses (zero by default), the type passed through
    its u16 conversion, and the payload. *)
Lemma eth_build_readback (b : EthBuilder.EthBuilder) :
  (forall a, EthBuilder.src b = Some a -> length a = 6%nat) ->
  (forall a, EthBuilder.dst b = Some a -> length a = 6%nat) ->
  0 <= EthType_into (unwrap_or (EthBuilder.eth_type b) (EthType_Reserved 0xFFFF)) < 2 ^ 16 ->
  exists d, EthBuilder.build b = Some d /\ Eth.new d = Ok d /\
    Eth.dst d = Some (unwrap_or (EthBuilder.dst b) (repeat x00 6)) /\
    Eth.src d = Some (unwrap_or (EthBuilder.src b) (repeat x00 6)) /\
    Eth.eth_type d = Some (EthType_from (EthType_into
                             (unwrap_or (EthBuilder.eth_type b) (EthType_Reserved 0xFFFF)))) /\
    Eth.payload d = Some (EthBuilder.payload b).
Proof.
  intros Hs Hd Ht. unfold EthBuilder.build, Eth.MIN_HEADER_LENGTH.
  assert (Ls : length (unwrap_or (EthBuilder.src b) (repeat x00 6)) = 6%nat)
    by (destruct (EthBuilder.src b) eqn:E; [apply Hs; reflexivity | reflexivity]).
  assert (Ld : length (unwrap_or (EthBuilder.dst b) (repeat x00 6)) = 6%nat)
    by (destruct (EthBuilder.dst b) eqn:E; [apply Hd; reflexivity | reflexivity]).
  destruct (write_field_some Eth.EthAddrSpec true (same_target _) (repeat x00 (14 + length (EthBuilder.payload b)))
    6 12 (unwrap_or (EthBuilder.src b) (repeat x00 6))) as [d0 E0]; [len_simpl; lia|].
  rewrite E0. cbn [bind].
  assert (H0 : forall bs, length (to_bytes (fs_kind Eth.EthAddrSpec) (set Eth.EthAddrSpec true
    (same_target _) (of_bytes _ bs) (unwrap_or (EthBuilder.src b) (repeat x00 6)))) = (12 - 6)%nat)
    by (intros; exact Ls).
  destruct (write_field_frame_len _ _ _ _ _ _ _ _ H0 E0) as (L0 & S0 & B0 & A0 & P0). clear E0.
  destruct (write_field_some Eth.EthAddrSpec true (same_target _) d0
    0 6 (unwrap_or (EthBuilder.dst b) (repeat x00 6))) as [d1 E1]; [len_simpl; lia|].
  rewrite E1. cbn [bind].
  assert (H1 : forall bs, length (to_bytes (fs_kind Eth.EthAddrSpec) (set Eth.EthAddrSpec true
    (same_target _) (of_bytes _ bs) (unwrap_or (EthBuilder.dst b) (repeat x00 6)))) = (6 - 0)%nat)
    by (intros; exact Ld).
  destruct (write_field_frame_len _ _ _ _ _ _ _ _ H1 E1) as (L1 & S1 & B1 & A1 & P1). clear E1.
  wstep.
  match goal with |- context [copy_from_slice_from ?dd 14 _] =>
    destruct (copy_from_slice_from_some dd 14 (EthBuilder.payload b)) as [d3 E3];
    [len_simpl; lia | len_simpl; lia |] end.
  rewrite E3.
  destruct (copy_from_slice_from_frame _ _ _ _ E3) as (L3 & P3 & B3). clear E3.
  exists d3. split; [reflexivity|]. split.
  { assert (Lg : (14 <= length d3)%nat) by (len_simpl; lia).
    unfold Eth.new, Eth.validate, Eth.MIN_HEADER_LENGTH.
    destruct (Nat.ltb_spec (length d3) 14); [lia | reflexivity]. }
  repeat split.
  - unfold Eth.dst, read_field. rewrite B3 by lia. slice_simpl. reflexivity.
  - unfold Eth.src, read_field. rewrite B3 by lia. slice_simpl. reflexivity.
  - unfold Eth.eth_type, read_field. rewrite B3 by lia. slice_simpl. cbn [Nat.sub repeat].
    f_equal. apply eth_type_get_set. exact Ht.
  - exact P3.
Qed.

Lemma eth_build_readback_witness :
  exists d, EthBuilder.build
    {| EthBuilder.src := Some [x02; x00; x00; x00; x00; x01]; EthBuilder.dst := None;
       EthBuilder.eth_type := Some EthType_Arp; EthBuilder.payload := [xff] |} = Some d /\
    Eth.new d = Ok d /\ Eth.dst d = Some (repeat x00 6) /\
    Eth.src d = Some [x02; x00; x00; x00; x00; x01] /\
    Eth.eth_type d = Some EthType_Arp /\ Eth.payload d = Some [xff].
Proof.
  apply (eth_build_readback
    {| EthBuilder.src := Some [x02; x00; x00; x00; x00; x01]; EthBuilder.dst := None;
       EthBuilder.eth_type := Some EthType_Arp; EthBuilder.payload := [xff] |}).
  - intros a E. injection E as <-. reflexivity.
  - intros a E. discriminate E.
  - cbn. lia.
Defined.

(** X17: [EthType::from] and [u16::from] round-trip every u16 code, and a type survives
    the way back exactly unless it is [Reserved] of one of the five named codes. *)
Lemma eth_type_roundtrip :
  (forall n, EthType_into (EthType_from n) = n) /\
  (forall t, EthType_from (EthType_into t) = t <->
     forall n, t = EthType_Reserved n ->
       n <> 0x0800 /\ n <> 0x0806 /\ n <> 0x0808 /\ n <> 0x8100 /\ n <> 0x86DD).
Proof.
  split.
  - intros n. unfold EthType_from.
    destruct (Z.eqb_spec n 0x0800); [subst; reflexivity|].
    destruct (Z.eqb_spec n 0x0806); [subst; reflexivity|].
    destruct (Z.eqb_spec n 0x0808); [subst; reflexivity|].
    destruct (Z.eqb_spec n 0x8100); [subst; reflexivity|].
    destruct (Z.eqb_spec n 0x86DD); [subst; reflexivity|].
    reflexivity.
  - intros [| | | | |m]; split; intros H; try reflexivity; try (intros n E; discriminate E).
    + intros n E. injection E as <-. unfold EthType_from in H. cbn [EthType_into] in H.
      repeat match type of H with
      | context [m =? ?c] => destruct (Z.eqb_spec m c); [discriminate H|]
      end.
      repeat split; assumption.
    + destruct (H m eq_refl) as (N1 & N2 & N3 & N4 & N5). unfold EthType_from. cbn [EthType_into].
      apply Z.eqb_neq in N1, N2, N3, N4, N5. rewrite N1, N2, N3, N4, N5. reflexivity.
Qed.



(** X19: [DnsBuilder::build] with u16 id and counts gives a valid DNS view that reads back
    the id and the counts, the question count defaulting to the number of questions
    (as u16), and whose bytes after the 12-byte header are exactly the first qdcount
    questions, concatenated. *)
Lemma dns_build_counts (b : DnsBuilder.DnsBuilder) :
  0 <= unwrap_or (DnsBuilder.id b) 0 < 2 ^ 16 ->
  0 <= unwrap_or (DnsBuilder.qdcount b) (as_u16 (length (DnsBuilder.questions b))) < 2 ^ 16 ->
  0 <= unwrap_or (DnsBuilder.ancount b) 0 < 2 ^ 16 ->
  0 <= unwrap_or (DnsBuilder.nscount b) 0 < 2 ^ 16 ->
  0 <= unwrap_or (DnsBuilder.arcount b) 0 < 2 ^ 16 ->
  exists d, DnsBuilder.build b = Some d /\ Dns.new d = Ok d /\
    skipn 12 d = concat (map DnsQuestion.data
      (firstn (Z.to_nat (unwrap_or (DnsBuilder.qdcount b) (as_u16 (length (DnsBuilder.questions b)))))
              (DnsBuilder.questions b))) /\
    Dns.id d = Some (unwrap_or (DnsBuilder.id b) 0) /\
    Dns.qdcount d = Some (unwrap_or (DnsBuilder.qdcount b) (as_u16 (length (DnsBuilder.questions b)))) /\
    Dns.ancount d = Some (unwrap_or (DnsBuilder.ancount b) 0) /\
    Dns.nscount d = Some (unwrap_or (DnsBuilder.nscount b) 0) /\
    Dns.arcount d = Some (unwrap_or (DnsBuilder.arcount b) 0).
Proof.
  intros Rid Rqd Ran Rns Rar.
  destruct (dns_build_spec b) as (d & B & N & Q & I & C1 & C2 & C3 & C4 & _).
  exists d. repeat split; auto.
Qed.

Lemma dns_build_counts_witness :
  exists d, DnsBuilder.build
    {| DnsBuilder.id := Some 4660; DnsBuilder.qr := None; DnsBuilder.opcode := None;
       DnsBuilder.aa := None; DnsBuilder.tc := None; DnsBuilder.rd := Some true;
       DnsBuilder.ra := None; DnsBuilder.z := None; DnsBuilder.rcode := None;
       DnsBuilder.qdcount := None; DnsBuilder.ancount := None; DnsBuilder.nscount := None;
       DnsBuilder.arcount := Some 1;
       DnsBuilder.questions := [DnsQuestion.mk [x00; x00; x01; x00; x01] 0] |} = Some d /\
    Dns.new d = Ok d /\ skipn 12 d = [x00; x00; x01; x00; x01] /\
    Dns.id d = Some 4660 /\ Dns.qdcount d = Some 1 /\ Dns.ancount d = Some 0 /\
    Dns.nscount d = Some 0 /\ Dns.arcount d = Some 1.
Proof.
  apply (dns_build_counts
    {| DnsBuilder.id := Some 4660; DnsBuilder.qr := None; DnsBuilder.opcode := None;
       DnsBuilder.aa := None; DnsBuilder.tc := None; DnsBuilder.rd := Some true;
       DnsBuilder.ra := None; DnsBuilder.z := None; DnsBuilder.rcode := None;
       DnsBuilder.qdcount := None; DnsBuilder.ancount := None; DnsBuilder.nscount := None;
       DnsBuilder.arcount := Some 1;
       DnsBuilder.questions := [DnsQuestion.mk [x00; x00; x01; x00; x01] 0] |});
    vm_compute; (reflexivity || intuition discriminate).
Defined.

(** X20: the flag bytes [DnsBuilder::build] writes are read back as set, except that the
    opcode and response code are OR-ed in unmasked: for an opcode code x (a u8), QR reads
    the QR set or bit 4 of x and the opcode reads x mod 16; for a response code whose u8
    value is y and a Z value below 8, RA reads the RA set or bit 7 of y, Z reads the Z set
    OR (y / 16) mod 8, and the response code reads y mod 16. So the extended codes 16..23
    (BADVERS_BADSIG to BADCOOKIE) set Z bits and read back as other codes. *)
Lemma dns_build_flags (b : DnsBuilder.DnsBuilder) :
  0 <= DnsOpCode_into (unwrap_or (DnsBuilder.opcode b) DnsOpCode_Query) < 2 ^ 8 ->
  0 <= unwrap_or (DnsBuilder.z b) 0 < 2 ^ 3 ->
  exists d, DnsBuilder.build b = Some d /\
    Dns.qr d = Some (unwrap_or (DnsBuilder.qr b) false ||
                     Z.testbit (DnsOpCode_into (unwrap_or (DnsBuilder.opcode b) DnsOpCode_Query)) 4) /\
    Dns.opcode d = Some (DnsOpCode_from
                     (DnsOpCode_into (unwrap_or (DnsBuilder.opcode b) DnsOpCode_Query) mod 16)) /\
    Dns.aa d = Some (unwrap_or (DnsBuilder.aa b) false) /\
    Dns.tc d = Some (unwrap_or (DnsBuilder.tc b) false) /\
    Dns.rd d = Some (unwrap_or (DnsBuilder.rd b) false) /\
    Dns.ra d = Some (unwrap_or (DnsBuilder.ra b) false ||
                     Z.testbit (DnsRCode_into_u8 (unwrap_or (DnsBuilder.rcode b) DnsRCode_NoError)) 7) /\
    Dns.z d = Some (Z.lor (unwrap_or (DnsBuilder.z b) 0)
                     (DnsRCode_into_u8 (unwrap_or (DnsBuilder.rcode b) DnsRCode_NoError) / 16 mod 8)) /\
    Dns.rcode d = Some (DnsRCode_from_u8
                     (DnsRCode_into_u8 (unwrap_or (DnsBuilder.rcode b) DnsRCode_NoError) mod 16)).
Proof.
  intros Rx Rz.
  destruct (dns_build_spec b) as (d & B & _ & _ & _ & _ & _ & _ & _ & F2 & F3).
  destruct (F2 Rx) as (Q1 & Q2 & Q3 & Q4 & Q5). destruct (F3 Rz) as (T1 & T2 & T3).
  exists d. repeat split; assumption.
Qed.

Lemma dns_build_flags_witness :
  exists d, DnsBuilder.build
    {| DnsBuilder.id := None; DnsBuilder.qr := Some false;
       DnsBuilder.opcode := Some (DnsOpCode_Unassigned 18);
       DnsBuilder.aa := Some true; DnsBuilder.tc := None; DnsBuilder.rd := Some true;
       DnsBuilder.ra := Some false; DnsBuilder.z := None; DnsBuilder.rcode := Some DnsRCode_BADKEY;
       DnsBuilder.qdcount := None; DnsBuilder.ancount := None; DnsBuilder.nscount := None;
       DnsBuilder.arcount := None; DnsBuilder.questions := [] |} = Some d /\
    Dns.qr d = Some true /\ Dns.opcode d = Some DnsOpCode_Status /\
    Dns.aa d = Some true /\ Dns.tc d = Some false /\ Dns.rd d = Some true /\
    Dns.ra d = Some false /\ Dns.z d = Some 1 /\ Dns.rcode d = Some DnsRCode_FormErr.
Proof.
  apply (dns_build_flags
    {| DnsBuilder.id := None; DnsBuilder.qr := Some false;
       DnsBuilder.opcode := Some (DnsOpCode_Unassigned 18);
       DnsBuilder.aa := Some true; DnsBuilder.tc := None; DnsBuilder.rd := Some true;
       DnsBuilder.ra := Some false; DnsBuilder.z := None; DnsBuilder.rcode := Some DnsRCode_BADKEY;
       DnsBuilder.qdcount := None; DnsBuilder.ancount := None; DnsBuilder.nscount := None;
       DnsBuilder.arcount := None; DnsBuilder.questions := [] |}); cbn; lia.
Defined.

(** X21: the response code's u8 conversions: every u8 converts to a code and back to
    itself, and a code converts to a u8 and back to itself exactly when it is neither
    [Reserved] (65535, truncated to 255) nor an [Unassigned] value that is outside u8 or
    one of the assigned codes 0..11 and 16..23. *)
Lemma dns_rcode_u8_roundtrip :
  (forall n, 0 <= n < 2 ^ 8 -> DnsRCode_into_u8 (DnsRCode_from_u8 n) = n) /\
  (forall r, DnsRCode_from_u8 (DnsRCode_into_u8 r) = r <->
     r <> DnsRCode_Reserved /\
     forall n, r = DnsRCode_Unassigned n -> 0 <= n < 2 ^ 8 /\ (11 < n < 16 \/ 23 < n)).
Proof.
  split.
  - intros n R. unfold DnsRCode_from_u8, DnsRCode_from_u16.
    repeat match goal with
    | |- context [n =? ?c] => destruct (Z.eqb_spec n c); [subst; first [reflexivity | lia]|]
    end.
    unfold DnsRCode_into_u8, DnsRCode_into_u16. apply Z.mod_small; lia.
  - intros [| | | | | | | | | | | | | | | | | | | |m|]; split; intros H;
      try (split; [discriminate | intros n E; discriminate E]); try reflexivity.
    + split; [discriminate|]. intros n E. injection E as <-.
      unfold DnsRCode_from_u8, DnsRCode_from_u16, DnsRCode_into_u8 in H. cbn [DnsRCode_into_u16] in H.
      assert (Rm : 0 <= m mod 2 ^ 8 < 2 ^ 8) by (apply Z.mod_pos_bound; lia).
      repeat match type of H with
      | context [m mod 2 ^ 8 =? ?c] => destruct (Z.eqb_spec (m mod 2 ^ 8) c); [try discriminate H; lia|]
      end.
      injection H as E. lia.
    + destruct H as [_ H]. destruct (H m eq_refl) as [R Rn].
      unfold DnsRCode_from_u8, DnsRCode_from_u16, DnsRCode_into_u8. cbn [DnsRCode_into_u16].
      rewrite Z.mod_small by lia.
      repeat match goal with
      | |- context [m =? ?c] => destruct (Z.eqb_spec m c); [lia|]
      end.
      reflexivity.
    + exfalso. destruct H as [H _]. apply H. reflexivity.
Qed.

Lemma dns_rcode_u8_roundtrip_witness :
  DnsRCode_into_u8 (DnsRCode_from_u8 200) = 200 /\
  (DnsRCode_from_u8 (DnsRCode_into_u8 (DnsRCode_Unassigned 300)) = DnsRCode_Unassigned 300 <->
   DnsRCode_Unassigned 300 <> DnsRCode_Reserved /\
   forall n, DnsRCode_Unassigned 300 = DnsRCode_Unassigned n -> 0 <= n < 2 ^ 8 /\ (11 < n < 16 \/ 23 < n)).
Proof.
  split; [apply (proj1 dns_rcode_u8_roundtrip 200); lia | apply (proj2 dns_rcode_u8_roundtrip)].
Defined.

(** X22: on an IPv4 view, the mutators of fields that share header bytes keep each other
    apart: [version_mut]/[ihl_mut] (values below 16) on byte 0, [dscp_mut]/[ecn_mut]
    (below 64 and 4) on byte 1, and [flags_mut] (below 8) on byte 6 with
    [fragment_offset_mut] (below 2^13) on bytes 6..8. Each set leaves a valid view whose
    field reads back the value set while the other field sharing its bytes reads as before. *)
Theorem ipv4_shared_byte_mutators (d : list byte) :
  Ipv4.new d = Ok d ->
  (forall v, 0 <= v < 2 ^ 4 -> exists d',
     write_field Ipv4.VersionSpec true u8_target d 0 1 v = Some d' /\ Ipv4.new d' = Ok d' /\
     Ipv4.version d' = Some v /\ Ipv4.ihl d' = Ipv4.ihl d) /\
  (forall v, 0 <= v < 2 ^ 4 -> exists d',
     write_field IhlSpec true u8_target d 0 1 v = Some d' /\ Ipv4.new d' = Ok d' /\
     Ipv4.ihl d' = Some v /\ Ipv4.version d' = Ipv4.version d) /\
  (forall v, 0 <= v < 2 ^ 6 -> exists d',
     write_field Ipv4.DscpSpec true u8_target d 1 2 v = Some d' /\ Ipv4.new d' = Ok d' /\
     Ipv4.dscp d' = Some v /\ Ipv4.ecn d' = Ipv4.ecn d) /\
  (forall v, 0 <= v < 2 ^ 2 -> exists d',
     write_field Ipv4.EcnSpec true u8_target d 1 2 v = Some d' /\ Ipv4.new d' = Ok d' /\
     Ipv4.ecn d' = Some v /\ Ipv4.dscp d' = Ipv4.dscp d) /\
  (forall v, 0 <= v < 2 ^ 3 -> exists d',
     write_field Ipv4.FlagsSpec true u8_target d 6 7 v = Some d' /\ Ipv4.new d' = Ok d' /\
     Ipv4.flags d' = Some v /\ Ipv4.fragment_offset d' = Ipv4.fragment_offset d) /\
  (forall v, 0 <= v < 2 ^ 13 -> exists d',
     write_field Ipv4.FragmentOffsetSpec true u16_target d 6 8 v = Some d' /\ Ipv4.new d' = Ok d' /\
     Ipv4.fragment_offset d' = Some v /\ Ipv4.flags d' = Ipv4.flags d).
Proof.
  intros N. destruct (new_min_length_ipv4 d d N) as [_ Ld].
  destruct ipv4_byte_checks as (Rv & Ri & Rd & Re & Fvi & Fiv & Fde & Fed).
  assert (H0 : (0 < length d)%nat) by lia. assert (H1 : (1 < length d)%nat) by lia.
  split; [|split; [|split; [|split; [|split]]]].
  - intros v Hv.
    destruct (byte_readback 0xF0 4 16 u8_target d 0 v Rv ltac:(cbn; lia) H0) as (d1 & W1 & L1 & R1).
    destruct (byte_frame 0xF0 4 0x0F 0 16 u8_target u8_target d 0 v Fvi ltac:(cbn; lia) H0)
      as (d2 & W2 & _ & R2).
    rewrite W1 in W2. injection W2 as <-.
    exists d1. split; [exact W1|]. split; [apply ipv4_new_of_length; lia|]. split; [exact R1 | exact R2].
  - intros v Hv.
    destruct (byte_readback 0x0F 0 16 u8_target d 0 v Ri ltac:(cbn; lia) H0) as (d1 & W1 & L1 & R1).
    destruct (byte_frame 0x0F 0 0xF0 4 16 u8_target u8_target d 0 v Fiv ltac:(cbn; lia) H0)
      as (d2 & W2 & _ & R2).
    rewrite W1 in W2. injection W2 as <-.
    exists d1. split; [exact W1|]. split; [apply ipv4_new_of_length; lia|]. split; [exact R1 | exact R2].
  - intros v Hv.
    destruct (byte_readback 0xFC 2 64 u8_target d 1 v Rd ltac:(cbn; lia) H1) as (d1 & W1 & L1 & R1).
    destruct (byte_frame 0xFC 2 0x03 0 64 u8_target u8_target d 1 v Fde ltac:(cbn; lia) H1)
      as (d2 & W2 & _ & R2).
    rewrite W1 in W2. injection W2 as <-.
    exists d1. split; [exact W1|]. split; [apply ipv4_new_of_length; lia|]. split; [exact R1 | exact R2].
  - intros v Hv.
    destruct (byte_readback 0x03 0 4 u8_target d 1 v Re ltac:(cbn; lia) H1) as (d1 & W1 & L1 & R1).
    destruct (byte_frame 0x03 0 0xFC 2 4 u8_target u8_target d 1 v Fed ltac:(cbn; lia) H1)
      as (d2 & W2 & _ & R2).
    rewrite W1 in W2. injection W2 as <-.
    exists d1. split; [exact W1|]. split; [apply ipv4_new_of_length; lia|]. split; [exact R1 | exact R2].
  - intros v Hv. destruct (decomp2 d 6 ltac:(lia)) as (pre & c0 & c1 & rest & -> & Lp).
    destruct (ipv4_flags_mut pre c0 c1 rest v Lp Hv) as (c0' & W & R1 & R2).
    eexists. split; [exact W|]. split; [|split; [exact R1 | exact R2]].
    apply ipv4_new_of_length. rewrite length_app in *. cbn [length] in *. lia.
  - intros v Hv. destruct (decomp2 d 6 ltac:(lia)) as (pre & c0 & c1 & rest & -> & Lp).
    destruct (ipv4_frag_mut pre c0 c1 rest v Lp Hv) as (c0' & c1' & W & R1 & R2).
    eexists. split; [exact W|]. split; [|split; [exact R1 | exact R2]].
    apply ipv4_new_of_length. rewrite length_app in *. cbn [length] in *. lia.
Qed.

(** X23: on a DNS view, [opcode_mut] with a code below 16 and [rcode_mut] with a code whose
    u8 value is below 16 leave a valid view whose code reads back as set (through its
    u8 conversion) and whose other header flags sharing the byte read as before: QR, AA,
    TC and RD for the opcode, RA and Z for the response code. *)
Theorem dns_code_mutators (d : list byte) :
  Dns.new d = Ok d ->
  (forall op, 0 <= DnsOpCode_into op < 2 ^ 4 -> exists d',
     write_field Dns.OpCodeSpec true opcode_target d 2 3 op = Some d' /\ Dns.new d' = Ok d' /\
     Dns.opcode d' = Some (DnsOpCode_from (DnsOpCode_into op)) /\
     Dns.qr d' = Dns.qr d /\ Dns.aa d' = Dns.aa d /\ Dns.tc d' = Dns.tc d /\ Dns.rd d' = Dns.rd d) /\
  (forall rc, 0 <= DnsRCode_into_u8 rc < 2 ^ 4 -> exists d',
     write_field Dns.RCodeSpec true rcode_target d 3 4 rc = Some d' /\ Dns.new d' = Ok d' /\
     Dns.rcode d' = Some (DnsRCode_from_u8 (DnsRCode_into_u8 rc)) /\
     Dns.ra d' = Dns.ra d /\ Dns.z d' = Dns.z d).
Proof.
  intros N. pose proof (dns_new_length d N) as Ld.
  destruct dns_byte_checks as (Ro & Rr & Fq & Fa & Ft & Fd & Fra & Fz).
  assert (H2 : (2 < length d)%nat) by lia. assert (H3 : (3 < length d)%nat) by lia.
  split.
  - intros op Hop.
    destruct (byte_readback 0x78 3 16 opcode_target d 2 op Ro ltac:(cbn; lia) H2) as (d1 & W1 & L1 & R1).
    destruct (byte_frame 0x78 3 0x80 7 16 opcode_target bool_target d 2 op Fq ltac:(cbn; lia) H2)
      as (d2 & W2 & _ & Q2).
    destruct (byte_frame 0x78 3 0x04 2 16 opcode_target bool_target d 2 op Fa ltac:(cbn; lia) H2)
      as (d3 & W3 & _ & Q3).
    destruct (byte_frame 0x78 3 0x02 1 16 opcode_target bool_target d 2 op Ft ltac:(cbn; lia) H2)
      as (d4 & W4 & _ & Q4).
    destruct (byte_frame 0x78 3 0x01 0 16 opcode_target bool_target d 2 op Fd ltac:(cbn; lia) H2)
      as (d5 & W5 & _ & Q5).
    rewrite W1 in W2, W3, W4, W5.
    injection W2 as <-. injection W3 as <-. injection W4 as <-. injection W5 as <-.
    exists d1. split; [exact W1|]. split; [apply dns_new_of_length; lia|].
    split; [exact R1|]. split; [exact Q2|]. split; [exact Q3|]. split; [exact Q4 | exact Q5].
  - intros rc Hrc.
    destruct (byte_readback 0x0F 0 16 rcode_target d 3 rc Rr ltac:(cbn; lia) H3) as (d1 & W1 & L1 & R1).
    destruct (byte_frame 0x0F 0 0x80 7 16 rcode_target bool_target d 3 rc Fra ltac:(cbn; lia) H3)
      as (d2 & W2 & _ & Q2).
    destruct (byte_frame 0x0F 0 0x70 4 16 rcode_target u8_target d 3 rc Fz ltac:(cbn; lia) H3)
      as (d3 & W3 & _ & Q3).
    rewrite W1 in W2, W3. injection W2 as <-. injection W3 as <-.
    exists d1. split; [exact W1|]. split; [apply dns_new_of_length; lia|].
    split; [exact R1|]. split; [exact Q2 | exact Q3].
Qed.

Lemma ipv4_shared_byte_mutators_witness :
  Ipv4.new [x45; x00; x00; x14; x00; x00; x40; x00; x40; x11;
            x00; x00; x0a; x00; x00; x01; x0a; x00; x00; x02]
  = Ok [x45; x00; x00; x14; x00; x00; x40; x00; x40; x11;
        x00; x00; x0a; x00; x00; x01; x0a; x00; x00; x02] /\
  exists d', write_field Ipv4.FragmentOffsetSpec true u16_target
      [x45; x00; x00; x14; x00; x00; x40; x00; x40; x11;
       x00; x00; x0a; x00; x00; x01; x0a; x00; x00; x02] 6 8 100 = Some d' /\
    Ipv4.new d' = Ok d' /\ Ipv4.fragment_offset d' = Some 100 /\ Ipv4.flags d' = Some 2.
Proof.
  assert (N : Ipv4.new [x45; x00; x00; x14; x00; x00; x40; x00; x40; x11;
                        x00; x00; x0a; x00; x00; x01; x0a; x00; x00; x02]
            = Ok [x45; x00; x00; x14; x00; x00; x40; x00; x40; x11;
                  x00; x00; x0a; x00; x00; x01; x0a; x00; x00; x02]) by reflexivity.
  split; [exact N|].
  destruct (proj2 (proj2 (proj2 (proj2 (proj2 (ipv4_shared_byte_mutators _ N))))) 100 ltac:(lia))
    as (d' & W & N' & R & F).
  exists d'. rewrite F. split; [exact W|]. split; [exact N'|]. split; [exact R|].
  vm_compute. reflexivity.
Defined.

Lemma dns_code_mutators_witness :
  Dns.new [x12; x34; x01; x00; x00; x01; x00; x00; x00; x00; x00; x00]
  = Ok [x12; x34; x01; x00; x00; x01; x00; x00; x00; x00; x00; x00] /\
  exists d', write_field Dns.OpCodeSpec true opcode_target
      [x12; x34; x01; x00; x00; x01; x00; x00; x00; x00; x00; x00] 2 3 DnsOpCode_Update = Some d' /\
    Dns.new d' = Ok d' /\ Dns.opcode d' = Some DnsOpCode_Update /\
    Dns.qr d' = Some false /\ Dns.aa d' = Some false /\ Dns.tc d' = Some false /\ Dns.rd d' = Some true.
Proof.
  assert (N : Dns.new [x12; x34; x01; x00; x00; x01; x00; x00; x00; x00; x00; x00]
            = Ok [x12; x34; x01; x00; x00; x01; x00; x00; x00; x00; x00; x00]) by reflexivity.
  split; [exact N|].
  destruct (proj1 (dns_code_mutators _ N) DnsOpCode_Update ltac:(cbn; lia))
    as (d' & W & N' & R & Q1 & Q2 & Q3 & Q4).
  exists d'. rewrite Q1, Q2, Q3, Q4. split; [exact W|]. split; [exact N'|]. split; [exact R|].
  split; [vm_compute; reflexivity|]. split; [vm_compute; reflexivity|].
  split; vm_compute; reflexivity.
Defined.
